(** * An ERC-4337 bundler: mempool, reputation, validation and bundle building

    A shallow embedding of the bundler's core modules:
    - [utils/Utils.ts]                        ([getAddr], [requireCond], [mergeStorageMap]),
    - [modules/ReputationManager.ts]          (module [Reputation] below),
    - [modules/MempoolManager.ts]             (module [Mempool]),
    - [validation-manager/ValidationManager.ts] (module [Validation]),
    - [modules/BundleManager.ts]              (module [Bundle]).

    Conventions of the embedding.
    - A JavaScript [number] that the code only ever uses as an integer
      (counters, indices, time stamps, gas) is a [Z]; the two places where
      the code leaves the integers ([old * 1.1] in [checkReplaceUserOp] and
      the inclusion rate of [calculateMaxAllowedMempoolOpsUnstaked]) are
      computed on IEEE-754 binary64 values, [SpecFloat.spec_float] at
      precision 53.
    - A [BigNumberish] is the integer it denotes.
    - A thrown exception is a value of [Exn]; a method that can throw after
      having mutated [this] returns the mutated object next to its result.
    - An object used as a dictionary is a [gmap string _], a [Set<string>] a
      [gset string].
    - Calls that leave the process (the node, the EntryPoint contract, the
      clock) are fields of an environment record [Env]. *)

From Stdlib Require Import ZArith String Ascii List Bool Lia Sorted.
From Stdlib Require Import Floats.SpecFloat.
From stdpp Require Import gmap strings list fin_maps.

Local Open Scope Z_scope.

(** ** Exceptions *)

(** [enum ValidationErrors] of [utils/Utils.ts]. *)
Inductive ValidationErrors : Type :=
  | InvalidFields
  | SimulateValidation
  | SimulatePaymasterValidation
  | OpcodeValidation
  | NotInTimeRange
  | Reputation
  | InsufficientStake
  | UnsupportedSignatureAggregator
  | InvalidSignature
  | UserOperationReverted.

(** The JSON-RPC code carried by each member of the enumeration. *)
Definition errorCode (e : ValidationErrors) : Z :=
  match e with
  | InvalidFields => -32602
  | SimulateValidation => -32500
  | SimulatePaymasterValidation => -32501
  | OpcodeValidation => -32502
  | NotInTimeRange => -32503
  | Reputation => -32504
  | InsufficientStake => -32505
  | UnsupportedSignatureAggregator => -32506
  | InvalidSignature => -32507
  | UserOperationReverted => -32521
  end.

(** What a [throw] carries: an [RpcError] with its code (the message is a
    formatted string and is not modelled), or any other JavaScript error
    ([TypeError], the [Error] of a failed call, an ethers overflow). *)
Inductive Exn : Type :=
  | RpcError (code : ValidationErrors)
  | JsError.

Inductive Result (A : Type) : Type :=
  | Ok (a : A)
  | Throw (e : Exn).
Arguments Ok {A} a.
Arguments Throw {A} e.

Definition bindR {A B : Type} (r : Result A) (k : A -> Result B) : Result B :=
  match r with
  | Ok a => k a
  | Throw e => Throw e
  end.

Notation "'do' x <- r ; k" := (bindR r (fun x => k))
  (at level 10, x name, r at level 100, k at level 200).
Notation "'check' r ; k" := (bindR r (fun _ => k))
  (at level 10, r at level 100, k at level 200).

(** [requireCond(cond, msg, code)]: throws [RpcError(msg, code)] unless [cond]. *)
Definition requireCond (cond : bool) (code : ValidationErrors) : Result unit :=
  if cond then Ok tt else Throw (RpcError code).

(** ** Strings and numbers *)

Definition lower_ascii (c : ascii) : ascii :=
  let n := nat_of_ascii c in
  if (Nat.leb 65 n && Nat.leb n 90)%bool then ascii_of_nat (n + 32) else c.

(** [String.prototype.toLowerCase] on the ASCII strings the bundler
    handles (hexadecimal addresses and data). *)
Fixpoint toLowerCase (s : string) : string :=
  match s with
  | EmptyString => EmptyString
  | String c s' => String (lower_ascii c) (toLowerCase s')
  end.

(** [str.startsWith(p)]. *)
Definition startsWith (p s : string) : bool := String.prefix p s.

(** ethers' [hexlify] applied to well-formed hexadecimal data ([0x] and an
    even number of hexadecimal digits): the same string in lower case.
    The library is not part of the repository. On any other string it
    throws; that case is outside this model. The data that reaches the
    managers is well formed: the RPC handler ABI-packs every operation in
    [validateInputParameters] (through [calcPreVerificationGas]) before
    anything else sees it, and packing throws on ill-formed data. *)
Definition hexlify (data : string) : string := toLowerCase data.

(** [getAddr(data)]: the first 42 characters (the prefix 0x and 20 bytes) of the
    data when there are that many; [data] is well-formed hexadecimal
    data, see [hexlify]. *)
Definition getAddr (data : option string) : option string :=
  match data with
  | None => None
  | Some d =>
      let str := hexlify d in
      if Nat.leb 42 (String.length str) then Some (substring 0 42 str) else None
  end.

(** [Number.MAX_SAFE_INTEGER]. *)
Definition MAX_SAFE_INTEGER : Z := 2 ^ 53 - 1.

(** [BigNumber.from(x).toNumber()]: the value itself when it fits the 53
    bits of a safe integer, an overflow error otherwise. *)
Definition toNumber (x : Z) : Result Z :=
  if Z.abs x <=? MAX_SAFE_INTEGER then Ok x else Throw JsError.

(** *** Binary64 arithmetic *)

Module Float64.
Definition prec : Z := 53.
Definition emax : Z := 1024.

Definition number : Type := spec_float.

(** The double nearest to an integer (exact below [2^53]). *)
Definition ofZ (z : Z) : number := binary_normalize prec emax z 0 false.

(** The literal [1.1], i.e. the double [0x3FF199999999999A]. *)
Definition lit_1_1 : number := S754_finite false 4953959590107546 (-52).

Definition mul (x y : number) : number := SFmul prec emax x y.
Definition div (x y : number) : number := SFdiv prec emax x y.

(** [x >= y] on numbers. *)
Definition geb (x y : number) : bool := SFleb y x.

(** [Math.floor] of a finite number, as an integer. The callers apply
    it to finite values only; the other cases are given the value 0. *)
Definition floor (x : number) : Z :=
  match x with
  | S754_finite s m e =>
      let v := if s then Z.neg m else Z.pos m in
      if 0 <=? e then v * 2 ^ e else v / 2 ^ (- e)
  | _ => 0
  end.
End Float64.

(** ** Shared data ([utils/Utils.ts]) *)

Record StakeInfo : Type := mkStakeInfo {
  addr : string;
  stake : Z;
  unstakeDelaySec : Z
}.

(** [UserOperationStruct] of the EntryPoint contracts, resolved. The gas
    and fee fields are the integers they denote, as the code reads them
    through [BigNumber.from]. The [nonce] is kept as it was received, a
    hex string: the code never reads its value, it only compares it with
    [===], and two spellings of one number ([0x0] and [0x00]) are
    different nonces to it. *)
Record UserOperation : Type := mkUserOperation {
  sender : string;
  nonce : string;
  initCode : string;
  callData : string;
  callGasLimit : Z;
  verificationGasLimit : Z;
  preVerificationGas : Z;
  maxFeePerGas : Z;
  maxPriorityFeePerGas : Z;
  paymasterAndData : string;
  signature : string
}.

Record ReferencedCodeHashes : Type := mkReferencedCodeHashes {
  addresses : list string;
  hash : string
}.

(** [StorageMap]: for each address either a root hash or a map from slot
    to value. *)
Inductive StorageEntry : Type :=
  | Root (rootHash : string)
  | Slots (slots : gmap string string).

Definition mergeEntry (validationEntry merged : StorageEntry) : option StorageEntry :=
  match validationEntry, merged with
  | Root r, _ => Some (Root r)
  | Slots _, Root r => Some (Root r)
  | Slots v, Slots m => Some (Slots (v ∪ m))
  end.

(** [mergeStorageMap(mergedStorageMap, validationStorageMap)]: a root of
    the validation map overwrites; slots never replace a root already
    there; slots are added to the slots already there, the validation's
    value winning. *)
Definition mergeStorageMap
    (mergedStorageMap validationStorageMap : gmap string StorageEntry)
    : gmap string StorageEntry :=
  union_with mergeEntry validationStorageMap mergedStorageMap.

(** ** ReputationManager *)

Module ReputationManager.

Inductive ReputationStatus : Type := OK | THROTTLED | BANNED.

Definition ReputationStatus_eqb (a b : ReputationStatus) : bool :=
  match a, b with
  | OK, OK | THROTTLED, THROTTLED | BANNED, BANNED => true
  | _, _ => false
  end.

Record ReputationParams : Type := mkReputationParams {
  minInclusionDenominator : Z;
  throttlingSlack : Z;
  banSlack : Z
}.

Definition BundlerReputationParams : ReputationParams :=
  mkReputationParams 10 10 50.

Definition NonBundlerReputationParams : ReputationParams :=
  mkReputationParams 100 10 10.

Record ReputationEntry : Type := mkReputationEntry {
  address : string;
  opsSeen : Z;
  opsIncluded : Z;
  status : option ReputationStatus
}.

(** The fields of the class ([provider] is only used by
    [getStakeStatus], a read of the chain). *)
Record t : Type := mk {
  params : ReputationParams;
  minStake : Z;
  minUnstakeDelay : Z;
  entries : gmap string ReputationEntry;
  blackList : gset string;
  whitelist : gset string
}.

Definition set_entries (es : gmap string ReputationEntry) (rm : t) : t :=
  mk (params rm) (minStake rm) (minUnstakeDelay rm) es (blackList rm) (whitelist rm).

(** One round of the [forEach] of [hourlyCron]: [opsSeen] is aged, then
    [opsIncluded] is computed from the aged [opsSeen], and the entry is
    deleted when both are zero. [Math.floor((x * 23) / 24)] is the
    integer quotient for every integer [x] whose product with 23 is a
    safe integer. *)
Definition hourlyCron_entry (entry : ReputationEntry) : option ReputationEntry :=
  let opsSeen' := (opsSeen entry * 23) / 24 in
  let opsIncluded' := (opsSeen' * 23) / 24 in
  if (opsIncluded' =? 0) && (opsSeen' =? 0) then None
  else Some (mkReputationEntry (address entry) opsSeen' opsIncluded' (status entry)).

Definition hourlyCron (rm : t) : t :=
  set_entries (omap hourlyCron_entry (entries rm)) rm.

Definition _getOrCreate (a : string) (rm : t) : ReputationEntry * t :=
  let a := toLowerCase a in
  match entries rm !! a with
  | Some entry => (entry, rm)
  | None =>
      let entry := mkReputationEntry a 0 0 None in
      (entry, set_entries (<[a := entry]> (entries rm)) rm)
  end.

(** Writes back the entry that [_getOrCreate a] returned, after the
    caller changed its fields (the entry is the object stored under the
    lower-cased key). *)
Definition store (a : string) (entry : ReputationEntry) (rm : t) : t :=
  set_entries (<[toLowerCase a := entry]> (entries rm)) rm.

Definition updateSeenStatus (a : option string) (rm : t) : t :=
  match a with
  | None => rm
  | Some a =>
      let '(entry, rm) := _getOrCreate a rm in
      store a (mkReputationEntry (address entry) (opsSeen entry + 1)
                 (opsIncluded entry) (status entry)) rm
  end.

Definition updateIncludedStatus (a : string) (rm : t) : t :=
  let '(entry, rm) := _getOrCreate a rm in
  store a (mkReputationEntry (address entry) (opsSeen entry)
             (opsIncluded entry + 1) (status entry)) rm.

Definition isWhitelisted (a : string) (rm : t) : bool :=
  bool_decide (a ∈ whitelist rm).

Definition getStatus (a : option string) (rm : t) : ReputationStatus :=
  match a with
  | None => OK
  | Some a =>
      let a := toLowerCase a in
      if bool_decide (a ∈ whitelist rm) then OK
      else if bool_decide (a ∈ blackList rm) then BANNED
      else match entries rm !! a with
           | None => OK
           | Some entry =>
               let minExpectedIncluded :=
                 opsSeen entry / minInclusionDenominator (params rm) in
               if minExpectedIncluded <=? opsIncluded entry + throttlingSlack (params rm)
               then OK
               else if minExpectedIncluded <=? opsIncluded entry + banSlack (params rm)
               then THROTTLED
               else BANNED
           end
  end.

Definition crashedHandleOps (a : option string) (rm : t) : t :=
  match a with
  | None => rm
  | Some a =>
      let '(entry, rm) := _getOrCreate a rm in
      store a (mkReputationEntry (address entry) (opsSeen entry + 10000)
                 0 (status entry)) rm
  end.

Definition clearState (rm : t) : t := set_entries ∅ rm.

Definition checkBanned (info : StakeInfo) (rm : t) : Result unit :=
  requireCond (negb (ReputationStatus_eqb (getStatus (Some (addr info)) rm) BANNED))
    Reputation.

Definition checkThrottled (info : StakeInfo) (rm : t) : Result unit :=
  requireCond (negb (ReputationStatus_eqb (getStatus (Some (addr info)) rm) THROTTLED))
    Reputation.

Definition checkStake (info : option StakeInfo) (rm : t) : Result unit :=
  match info with
  | None => Ok tt
  | Some info =>
      if isWhitelisted (addr info) rm then Ok tt
      else
        check requireCond
                (negb (ReputationStatus_eqb (getStatus (Some (addr info)) rm) BANNED))
                Reputation;
        check requireCond (minStake rm <=? stake info) InsufficientStake;
        requireCond (minUnstakeDelay rm <=? unstakeDelaySec info) InsufficientStake
  end.

(** [calculateMaxAllowedMempoolOpsUnstaked]: the inclusion rate is a
    quotient of numbers and its product with the factor is floored. *)
Definition calculateMaxAllowedMempoolOpsUnstaked (entity : string) (rm : t) : Z :=
  let entity := toLowerCase entity in
  let SAME_UNSTAKED_ENTITY_MEMPOOL_COUNT := 10 in
  match entries rm !! entity with
  | None => SAME_UNSTAKED_ENTITY_MEMPOOL_COUNT
  | Some entry =>
      let INCLUSION_RATE_FACTOR := 10 in
      let inclusionRate :=
        if opsSeen entry =? 0 then Float64.ofZ 0
        else Float64.div (Float64.ofZ (opsIncluded entry)) (Float64.ofZ (opsSeen entry)) in
      SAME_UNSTAKED_ENTITY_MEMPOOL_COUNT
      + Float64.floor (Float64.mul inclusionRate (Float64.ofZ INCLUSION_RATE_FACTOR))
      + Z.min (opsIncluded entry) 10000
  end.

(** The entry as [setReputation] stores it: without status. *)
Definition clearStatus (e : ReputationEntry) : ReputationEntry :=
  mkReputationEntry (address e) (opsSeen e) (opsIncluded e) None.

(** The entry with its [status] set as [dump] sets it, from the address
    the entry records. *)
Definition withStatus (rm : t) (entry : ReputationEntry) : ReputationEntry :=
  mkReputationEntry (address entry) (opsSeen entry) (opsIncluded entry)
    (Some (getStatus (Some (address entry)) rm)).

(** [dump]: every entry gets its status, and the entries are returned.
    The array a JavaScript object gives is in the order of insertion,
    which the map of entries does not record: the list here is in the
    order of the keys, and what is stated of it holds of every order. *)
Definition dump (rm : t) : list ReputationEntry * t :=
  let rm' := set_entries (withStatus rm <$> entries rm) rm in
  ((map_to_list (entries rm')).*2, rm').

(** The assignment of the [forEach] of [setReputation]. *)
Definition setEntry (rm : t) (rep : ReputationEntry) : t :=
  set_entries
    (<[toLowerCase (address rep) :=
         mkReputationEntry (address rep) (opsSeen rep) (opsIncluded rep) None]>
       (entries rm))
    rm.

Definition setReputation (reputations : list ReputationEntry) (rm : t)
    : list ReputationEntry * t :=
  dump (foldl setEntry rm reputations).

Definition addWhitelist (items : list string) (rm : t) : t :=
  mk (params rm) (minStake rm) (minUnstakeDelay rm) (entries rm) (blackList rm)
    (foldl (fun set item => {[item]} ∪ set) (whitelist rm) items).

Definition addBlacklist (items : list string) (rm : t) : t :=
  mk (params rm) (minStake rm) (minUnstakeDelay rm) (entries rm)
    (foldl (fun set item => {[item]} ∪ set) (blackList rm) items)
    (whitelist rm).

(** [getStakeStatus]: [getDepositInfo] is the read of the stake manager,
    giving the stake and the unstake delay of the address. *)
Definition getStakeStatus (getDepositInfo : string -> Z * Z) (a : string) (rm : t)
    : StakeInfo * bool :=
  let info := getDepositInfo a in
  let isStaked := (minStake rm <=? info.1) && (minUnstakeDelay rm <=? info.2) in
  (mkStakeInfo a info.1 info.2, isStaked).

End ReputationManager.

(** ** MempoolManager *)

Module MempoolManager.

Record MempoolEntry : Type := mkMempoolEntry {
  userOp : UserOperation;
  userOpHash : string;
  prefund : Z;
  referencedContracts : ReferencedCodeHashes;
  aggregator : option string
}.

Definition MAX_MEMPOOL_USEROPS_PER_SENDER : Z := 4.
Definition THROTTLED_ENTITY_MEMPOOL_COUNT : Z := 4.

(** The two private fields. The [reputationManager] the class holds a
    reference to is shared with the other managers, so the methods that
    use it take it as an argument and return it when they change it. *)
Record t : Type := mk {
  mempool : list MempoolEntry;
  _entryCount : gmap string Z
}.

(** [new MempoolManager(reputationManager)]. *)
Definition new : t := mk [] ∅.

Definition entryCount (a : string) (mm : t) : option Z :=
  _entryCount mm !! toLowerCase a.

Definition incrementEntryCount (a : option string) (mm : t) : t :=
  match toLowerCase <$> a with
  | None => mm
  | Some a =>
      mk (mempool mm) (<[a := default 0 (_entryCount mm !! a) + 1]> (_entryCount mm))
  end.

Definition decrementEntryCount (a : option string) (mm : t) : t :=
  match toLowerCase <$> a with
  | None => mm
  | Some a =>
      match _entryCount mm !! a with
      | None => mm
      | Some c =>
          let c' := c - 1 in
          if c' <=? 0 then mk (mempool mm) (delete a (_entryCount mm))
          else mk (mempool mm) (<[a := c']> (_entryCount mm))
      end
  end.

Definition count (mm : t) : Z := Z.of_nat (length (mempool mm)).

(** The index of the first element satisfying [p], counted from [i];
    [-1] when there is none (the [for] loops of [_findBySenderNonce]
    and [_findByHash]). *)
Fixpoint findFrom {A : Type} (p : A -> bool) (l : list A) (i : Z) : Z :=
  match l with
  | [] => -1
  | x :: l' => if p x then i else findFrom p l' (i + 1)
  end.

Definition _findBySenderNonce (sender0 : string) (nonce0 : string) (mm : t) : Z :=
  findFrom (fun e => String.eqb (sender (userOp e)) sender0
                     && String.eqb (nonce (userOp e)) nonce0)
           (mempool mm) 0.

Definition _findByHash (h : string) (mm : t) : Z :=
  findFrom (fun e => String.eqb (userOpHash e) h) (mempool mm) 0.

Definition getKnownSenders (mm : t) : list string :=
  map (fun it => toLowerCase (sender (userOp it))) (mempool mm).

Definition getKnownEntities (mm : t) : list string :=
  let res :=
    map (fun it => getAddr (Some (paymasterAndData (userOp it)))) (mempool mm)
    ++ map (fun it => getAddr (Some (initCode (userOp it)))) (mempool mm) in
  omap (fun it => toLowerCase <$> it) res.

(** [arr.includes(x)] on strings. *)
Definition includes (l : list string) (x : string) : bool :=
  existsb (String.eqb x) l.

Definition checkReputationStatus (stakeInfo : StakeInfo)
    (maxTxMempoolAllowedOverride : option Z)
    (mm : t) (rm : ReputationManager.t) : Result unit :=
  let maxTxMempoolAllowedEntity :=
    match maxTxMempoolAllowedOverride with
    | Some m => m
    | None => ReputationManager.calculateMaxAllowedMempoolOpsUnstaked (addr stakeInfo) rm
    end in
  check ReputationManager.checkBanned stakeInfo rm;
  let entryCount := default 0 (entryCount (addr stakeInfo) mm) in
  check (if THROTTLED_ENTITY_MEMPOOL_COUNT <? entryCount
         then ReputationManager.checkThrottled stakeInfo rm else Ok tt);
  if maxTxMempoolAllowedEntity <? entryCount
  then ReputationManager.checkStake (Some stakeInfo) rm else Ok tt.

Definition checkReputation (senderInfo : StakeInfo)
    (paymasterInfo factoryInfo aggregatorInfo : option StakeInfo)
    (mm : t) (rm : ReputationManager.t) : Result unit :=
  check checkReputationStatus senderInfo (Some MAX_MEMPOOL_USEROPS_PER_SENDER) mm rm;
  check (match paymasterInfo with
         | Some i => checkReputationStatus i None mm rm | None => Ok tt end);
  check (match factoryInfo with
         | Some i => checkReputationStatus i None mm rm | None => Ok tt end);
  match aggregatorInfo with
  | Some i => checkReputationStatus i None mm rm | None => Ok tt end.

Definition checkMultipleRolesViolation (op : UserOperation) (mm : t) : Result unit :=
  let knownEntities := getKnownEntities mm in
  check requireCond (negb (includes knownEntities (toLowerCase (sender op))))
          OpcodeValidation;
  let knownSenders := getKnownSenders mm in
  let paymaster := toLowerCase <$> getAddr (Some (paymasterAndData op)) in
  let factory := toLowerCase <$> getAddr (Some (initCode op)) in
  let isPaymasterSenderViolation :=
    includes knownSenders (default EmptyString (toLowerCase <$> paymaster)) in
  let isFactorySenderViolation :=
    includes knownSenders (default EmptyString (toLowerCase <$> factory)) in
  check requireCond (negb isPaymasterSenderViolation) OpcodeValidation;
  requireCond (negb isFactorySenderViolation) OpcodeValidation.

(** The two fee comparisons of a replacement, on numbers: the right-hand
    sides are the binary64 products [old * 1.1]. *)
Definition checkReplaceUserOp (oldEntry entry : MempoolEntry) : Result unit :=
  do oldMaxPriorityFeePerGas <- toNumber (maxPriorityFeePerGas (userOp oldEntry));
  do newMaxPriorityFeePerGas <- toNumber (maxPriorityFeePerGas (userOp entry));
  do oldMaxFeePerGas <- toNumber (maxFeePerGas (userOp oldEntry));
  do newMaxFeePerGas <- toNumber (maxFeePerGas (userOp entry));
  check requireCond
          (Float64.geb (Float64.ofZ newMaxPriorityFeePerGas)
             (Float64.mul (Float64.ofZ oldMaxPriorityFeePerGas) Float64.lit_1_1))
          InvalidFields;
  requireCond
    (Float64.geb (Float64.ofZ newMaxFeePerGas)
       (Float64.mul (Float64.ofZ oldMaxFeePerGas) Float64.lit_1_1))
    InvalidFields.

(** The private [updateSeenStatus]: the sender is counted as seen only
    when its stake check passes (an [RpcError] of the check is caught,
    anything else is thrown again). *)
Definition updateSeenStatus (aggregator0 : option string) (op : UserOperation)
    (senderInfo : StakeInfo) (rm : ReputationManager.t)
    : Result unit * ReputationManager.t :=
  match ReputationManager.checkStake (Some senderInfo) rm with
  | Throw JsError => (Throw JsError, rm)
  | r =>
      let rm := match r with
                | Ok _ => ReputationManager.updateSeenStatus (Some (sender op)) rm
                | Throw _ => rm
                end in
      let rm := ReputationManager.updateSeenStatus aggregator0 rm in
      let rm := ReputationManager.updateSeenStatus
                  (getAddr (Some (paymasterAndData op))) rm in
      let rm := ReputationManager.updateSeenStatus (getAddr (Some (initCode op))) rm in
      (Ok tt, rm)
  end.

Definition addUserOp (op : UserOperation) (userOpHash0 : string) (prefund0 : Z)
    (referencedContracts0 : ReferencedCodeHashes) (senderInfo : StakeInfo)
    (paymasterInfo factoryInfo aggregatorInfo : option StakeInfo)
    (mm : t) (rm : ReputationManager.t)
    : Result unit * t * ReputationManager.t :=
  let entry := mkMempoolEntry op userOpHash0 prefund0 referencedContracts0
                 (addr <$> aggregatorInfo) in
  let index := _findBySenderNonce (sender op) (nonce op) mm in
  if negb (index =? -1) then
    match mempool mm !! Z.to_nat index with
    | None => (Throw JsError, mm, rm)
    | Some oldEntry =>
        match checkReplaceUserOp oldEntry entry with
        | Throw e => (Throw e, mm, rm)
        | Ok _ =>
            let mm := mk (<[Z.to_nat index := entry]> (mempool mm)) (_entryCount mm) in
            let '(r, rm) := updateSeenStatus (addr <$> aggregatorInfo) op senderInfo rm in
            (r, mm, rm)
        end
    end
  else
    let mm := incrementEntryCount (Some (sender op)) mm in
    let paymaster := getAddr (Some (paymasterAndData op)) in
    let mm := match paymaster with
              | Some _ => incrementEntryCount paymaster mm | None => mm end in
    let factory := getAddr (Some (initCode op)) in
    let mm := match factory with
              | Some _ => incrementEntryCount factory mm | None => mm end in
    match checkReputation senderInfo paymasterInfo factoryInfo aggregatorInfo mm rm with
    | Throw e => (Throw e, mm, rm)
    | Ok _ =>
        match checkMultipleRolesViolation op mm with
        | Throw e => (Throw e, mm, rm)
        | Ok _ =>
            let mm := mk (mempool mm ++ [entry]) (_entryCount mm) in
            let '(r, rm) := updateSeenStatus (addr <$> aggregatorInfo) op senderInfo rm in
            (r, mm, rm)
        end
    end.

(** Stable insertion by ascending priority fee, the order
    [Array.prototype.sort] gives with the comparator
    [cost(a.userOp) - cost(b.userOp)]. *)
Fixpoint insertByCost (e : MempoolEntry) (l : list MempoolEntry) : list MempoolEntry :=
  match l with
  | [] => [e]
  | x :: l' =>
      if maxPriorityFeePerGas (userOp e) <=? maxPriorityFeePerGas (userOp x)
      then e :: x :: l'
      else x :: insertByCost e l'
  end.

Definition sortByCost (l : list MempoolEntry) : list MempoolEntry :=
  foldr insertByCost [] l.

(** [getSortedForInclusion]: the comparator converts both fees with
    [toNumber], so sorting two or more entries throws when one fee is
    not a safe integer. *)
Definition getSortedForInclusion (mm : t) : Result (list MempoolEntry) :=
  let copy := mempool mm in
  if (Nat.ltb 1 (length copy))
     && negb (forallb (fun e => Z.abs (maxPriorityFeePerGas (userOp e))
                                <=? MAX_SAFE_INTEGER) copy)
  then Throw JsError
  else Ok (sortByCost copy).

(** The argument of [removeUserOp]: a [userOpHash] or a [UserOperation]. *)
Inductive UserOpOrHash : Type :=
  | ByHash (h : string)
  | ByUserOp (op : UserOperation).

Definition removeUserOp (userOpOrHash : UserOpOrHash) (mm : t) : t :=
  let index :=
    match userOpOrHash with
    | ByHash h => _findByHash h mm
    | ByUserOp op => _findBySenderNonce (sender op) (nonce op) mm
    end in
  if negb (index =? -1) then
    match mempool mm !! Z.to_nat index with
    | None => mm
    | Some e =>
        let op := userOp e in
        let mm := mk (delete (Z.to_nat index) (mempool mm)) (_entryCount mm) in
        let mm := decrementEntryCount (Some (sender op)) mm in
        let mm := decrementEntryCount (getAddr (Some (paymasterAndData op))) mm in
        decrementEntryCount (getAddr (Some (initCode op))) mm
    end
  else mm.

Definition dump (mm : t) : list UserOperation := map userOp (mempool mm).

Definition clearState (mm : t) : t := mk [] ∅.

End MempoolManager.

(** ** ValidationManager *)

Module ValidationManager.

Definition VALID_UNTIL_FUTURE_SECONDS : Z := 30.

(** [validUntil] is declared a number; the code guards it with
    [== null], so the absent value is part of the model. *)
Record ReturnInfo : Type := mkReturnInfo {
  preOpGas : Z;
  prefund : Z;
  sigFailed : bool;
  validAfter : Z;
  validUntil : option Z
}.

Record ValidationResult : Type := mkValidationResult {
  returnInfo : ReturnInfo;
  senderInfo : StakeInfo;
  factoryInfo : option StakeInfo;
  paymasterInfo : option StakeInfo;
  aggregatorInfo : option StakeInfo
}.

(** [ValidateUserOpResult extends ValidationResult]. *)
Record ValidateUserOpResult : Type := mkValidateUserOpResult {
  validation : ValidationResult;
  referencedContracts : ReferencedCodeHashes;
  storageMap : gmap string StorageEntry
}.

(** What the manager obtains from outside the process:
    - [clock]: [Math.floor(Date.now() / 1000)];
    - [codeHash]: the hash computed by the [CodeHashGetter] script;
    - [callSimulateValidation]: [_callSimulateValidation], the static
      call and the parsing of its revert data;
    - [traceSimulateValidation]: [_geth_traceCall_SimulateValidation]
      followed by [tracerResultParser]; the validation result is absent
      when the traced call reverted with the empty data [0x]. *)
Record Chain : Type := mkChain {
  clock : Z;
  codeHash : list string -> string;
  callSimulateValidation : UserOperation -> Result ValidationResult;
  traceSimulateValidation :
    UserOperation ->
    Result (option ValidationResult * list string * gmap string StorageEntry)
}.

(** The field [unsafe] of the class ([entryPoint] is behind [Chain]). *)
Record t : Type := mk { unsafe : bool }.

Definition getCodeHashes (chain : Chain) (addresses0 : list string)
    : ReferencedCodeHashes :=
  mkReferencedCodeHashes addresses0 (codeHash chain addresses0).

(** The simulation step of [validateUserOp]: the traced call in safe
    mode, the static call otherwise, with the referenced contracts and
    the storage map that go into the result. *)
Definition simulate (vm : t) (chain : Chain) (op : UserOperation)
    (previousCodeHashes : option ReferencedCodeHashes)
    : Result (ValidationResult * ReferencedCodeHashes * gmap string StorageEntry) :=
  let codeHashes := mkReferencedCodeHashes [] EmptyString in
  if negb (unsafe vm) then
    do traced <- traceSimulateValidation chain op;
    let '(res, contractAddresses, storageMap0) := traced in
    let codeHashes :=
      match previousCodeHashes with
      | None => getCodeHashes chain contractAddresses
      | Some _ => codeHashes
      end in
    match res with
    | None => Throw JsError
    | Some res => Ok (res, codeHashes, storageMap0)
    end
  else
    do res <- callSimulateValidation chain op;
    Ok (res, codeHashes, ∅).

(** The three [requireCond] on the time range. *)
Definition checkTimeRange (now : Z) (ri : ReturnInfo) : Result unit :=
  check requireCond (validAfter ri <=? now) NotInTimeRange;
  check requireCond
          (match validUntil ri with None => true | Some vu => now <=? vu end)
          NotInTimeRange;
  requireCond
    (match validUntil ri with
     | None => true
     | Some vu => now + VALID_UNTIL_FUTURE_SECONDS <? vu
     end)
    NotInTimeRange.

(** The first statement of [validateUserOp]: the code of the contracts
    referenced by an earlier validation must hash to the same value. *)
Definition checkCodeHashes (chain : Chain)
    (previousCodeHashes : option ReferencedCodeHashes) : Result unit :=
  match previousCodeHashes with
  | Some prev =>
      if Nat.ltb 0 (length (addresses prev)) then
        requireCond
          (String.eqb (hash (getCodeHashes chain (addresses prev))) (hash prev))
          OpcodeValidation
      else Ok tt
  | None => Ok tt
  end.

Definition validateUserOp (vm : t) (chain : Chain) (op : UserOperation)
    (previousCodeHashes : option ReferencedCodeHashes)
    : Result ValidateUserOpResult :=
  check checkCodeHashes chain previousCodeHashes;
  do sim <- simulate vm chain op previousCodeHashes;
  let '(res, codeHashes, storageMap0) := sim in
  check requireCond (negb (sigFailed (returnInfo res))) InvalidSignature;
  let now := clock chain in
  check checkTimeRange now (returnInfo res);
  check requireCond
          (match aggregatorInfo res with None => true | Some _ => false end)
          UnsupportedSignatureAggregator;
  let verificationCost := preOpGas (returnInfo res) - preVerificationGas op in
  do extraGas <- toNumber (verificationGasLimit op - verificationCost);
  check requireCond (2000 <=? extraGas) SimulateValidation;
  Ok (mkValidateUserOpResult res codeHashes storageMap0).

End ValidationManager.

(** ** EventsManager *)

Module EventsManager.

(** The events of the EntryPoint the manager tells apart, with the block
    and the transaction they belong to; any other event of the contract
    is [OtherEvent]. *)
Inductive EventArgs : Type :=
  | UserOperationEvent (userOpHash sender0 paymaster : string)
  | AccountDeployed (factory : string)
  | SignatureAggregatorForUserOperations (aggregator : string)
  | OtherEvent.

Record Event : Type := mkEvent {
  blockNumber : Z;
  transactionHash : string;
  args : EventArgs
}.

Record t : Type := mk {
  lastBlock : option Z;
  eventAggregator : option string;
  eventAggregatorTxHash : option string
}.

Definition new : t := mk None None None.

Definition handleAggregatorChangedEvent (ev : Event) (aggregator : string) (em : t) : t :=
  mk (lastBlock em) (Some aggregator) (Some (transactionHash ev)).

Definition getEventAggregator (ev : Event) (em : t) : option string * t :=
  if negb (bool_decide (Some (transactionHash ev) = eventAggregatorTxHash em)) then
    (None, mk (lastBlock em) None (Some (transactionHash ev)))
  else (eventAggregator em, em).

Definition _includedAddress (data : option string) (rm : ReputationManager.t)
    : ReputationManager.t :=
  match data with
  | Some d =>
      if Nat.leb 42 (String.length d)
      then ReputationManager.updateIncludedStatus (substring 0 42 d) rm
      else rm
  | None => rm
  end.

Definition handleAccountDeployedEvent (factory : string) (rm : ReputationManager.t)
    : ReputationManager.t :=
  _includedAddress (Some factory) rm.

Definition handleUserOperationEvent (ev : Event) (userOpHash sender0 paymaster : string)
    (em : t) (mm : MempoolManager.t) (rm : ReputationManager.t)
    : t * MempoolManager.t * ReputationManager.t :=
  let mm := MempoolManager.removeUserOp (MempoolManager.ByHash userOpHash) mm in
  let rm := _includedAddress (Some sender0) rm in
  let rm := _includedAddress (Some paymaster) rm in
  let '(aggregator, em) := getEventAggregator ev em in
  (em, mm, _includedAddress aggregator rm).

Definition handleEvent (ev : Event)
    (em : t) (mm : MempoolManager.t) (rm : ReputationManager.t)
    : t * MempoolManager.t * ReputationManager.t :=
  let '(em, mm, rm) :=
    match args ev with
    | UserOperationEvent h s p => handleUserOperationEvent ev h s p em mm rm
    | AccountDeployed f => (em, mm, handleAccountDeployedEvent f rm)
    | SignatureAggregatorForUserOperations a =>
        (handleAggregatorChangedEvent ev a em, mm, rm)
    | OtherEvent => (em, mm, rm)
    end in
  (mk (Some (blockNumber ev + 1)) (eventAggregator em) (eventAggregatorTxHash em),
   mm, rm).

(** The node as the manager uses it: the current block number and the
    logs of the EntryPoint from a block on. *)
Record Node : Type := mkNode {
  getBlockNumber : Z;
  queryFilter : Z -> list Event
}.

Definition handlePastEvents (node : Node)
    (em : t) (mm : MempoolManager.t) (rm : ReputationManager.t)
    : t * MempoolManager.t * ReputationManager.t :=
  let em :=
    match lastBlock em with
    | None =>
        mk (Some (Z.max 1 (getBlockNumber node - 1000)))
          (eventAggregator em) (eventAggregatorTxHash em)
    | Some _ => em
    end in
  let events := queryFilter node (default 0 (lastBlock em)) in
  foldl (fun st ev => handleEvent ev st.1.1 st.1.2 st.2) (em, mm, rm) events.

End EventsManager.

(** ** BundleManager *)

Module BundleManager.
Import ReputationManager.

Definition THROTTLED_ENTITY_BUNDLE_COUNT : Z := 4.

Record SendBundleReturn : Type := mkSendBundleReturn {
  transactionHash : string;
  userOpHashes : list string
}.

(** The configuration fields of the class. The managers it holds
    references to are passed to the methods. *)
Record t : Type := mk {
  beneficiary : string;
  minSignerBalance : Z;
  maxBundleGas : Z;
  conditionalRpc : bool;
  mergeToAccountRootHash : bool
}.

(** How the attempt to send [handleOps] ends: with a transaction hash
    (and the hashes [getUserOpHashes] computes), with a revert that
    parses as [FailedOp(opIndex, reason)], or with an error that does
    not parse, of which only [e.error?.code] is looked at. *)
Inductive HandleOpsOutcome : Type :=
  | Sent (ret : string) (hashes : list string)
  | FailedOp (opIndex : nat) (reason : string)
  | NonFailedOpError (code : option Z).

(** The EntryPoint and the node as the bundle manager uses them. *)
Record EntryPoint : Type := mkEntryPoint {
  balanceOf : string -> Z;
  getProofStorageHash : string -> string;
  handleOps : list UserOperation -> string -> HandleOpsOutcome
}.

(** [a ?? b]: [b] only when [a] is [null] or [undefined]. *)
Definition nullish {A : Type} (a : option A) (b : A) : A :=
  match a with
  | Some v => v
  | None => b
  end.

(** The local variables of [createBundle]. *)
Record Locals : Type := mkLocals {
  bundle : list UserOperation;
  paymasterDeposit : gmap string Z;
  stakedEntityCount : gmap string Z;
  senders : gset string;
  storageMap : gmap string StorageEntry;
  totalGas : Z
}.

Definition initLocals : Locals := mkLocals [] ∅ ∅ ∅ ∅ 0.

Inductive Flow : Type := Continue | Break.

(** The test of the inner [for] over the keys of the validation's
    storage map: some address other than the sender is a known sender. *)
Definition storageConflict (knownSenders : list string) (op : UserOperation)
    (sm : gmap string StorageEntry) : bool :=
  existsb
    (fun storageAddress =>
       negb (String.eqb (toLowerCase storageAddress) (toLowerCase (sender op)))
       && MempoolManager.includes knownSenders (toLowerCase storageAddress))
    (map fst (map_to_list sm)).

(** The part of the loop body after the gas test: paymaster deposit,
    entity counts, storage map, and the admission. *)
Definition accept (bm : t) (ep : EntryPoint) (op : UserOperation)
    (paymaster factory : option string)
    (validationResult : ValidationManager.ValidateUserOpResult)
    (newTotalGas : Z) (st : Locals) : Flow * Locals :=
  let prefund0 :=
    ValidationManager.prefund
      (ValidationManager.returnInfo (ValidationManager.validation validationResult)) in
  let paid :=
    match paymaster with
    | Some p =>
        let deposits :=
          match paymasterDeposit st !! p with
          | None => <[p := balanceOf ep p]> (paymasterDeposit st)
          | Some _ => paymasterDeposit st
          end in
        let deposit := default 0 (deposits !! p) in
        if deposit <? prefund0 then
          inl (mkLocals (bundle st) deposits (stakedEntityCount st) (senders st)
                 (storageMap st) (totalGas st))
        else
          inr (<[p := deposit - prefund0]> deposits,
               <[p := nullish (stakedEntityCount st !! p) 0 + 1]> (stakedEntityCount st))
    | None => inr (paymasterDeposit st, stakedEntityCount st)
    end in
  match paid with
  | inl st' => (Continue, st')
  | inr (deposits, counts) =>
      let counts :=
        match factory with
        | Some f => <[f := nullish (counts !! f) 0 + 1]> counts
        | None => counts
        end in
      let sm :=
        if mergeToAccountRootHash bm && conditionalRpc bm
           && Nat.leb (String.length (initCode op)) 2
        then <[toLowerCase (sender op) := Root (getProofStorageHash ep (sender op))]>
               (storageMap st)
        else storageMap st in
      let sm := mergeStorageMap sm (ValidationManager.storageMap validationResult) in
      (Continue,
       mkLocals (bundle st ++ [op]) deposits counts ({[sender op]} ∪ senders st)
         sm newTotalGas)
  end.

(** What the tests at the head of the loop body decide for an entry:
    it is passed over (after which the mempool manager may have lost
    it), or it goes on to the gas test with its validation result. *)
Inductive Screened : Type :=
  | Skip (mm' : MempoolManager.t)
  | Candidate (validationResult : ValidationManager.ValidateUserOpResult).

(** The loop body down to the storage-conflict test: reputation of the
    paymaster and of the factory, one operation for each sender, second
    validation, storage conflict. *)
Definition screen (vm : ValidationManager.t)
    (chain : ValidationManager.Chain) (rm : ReputationManager.t)
    (knownSenders : list string) (entry : MempoolManager.MempoolEntry)
    (st : Locals) (mm : MempoolManager.t) : Screened :=
  let op := MempoolManager.userOp entry in
  let paymaster := getAddr (Some (paymasterAndData op)) in
  let factory := getAddr (Some (initCode op)) in
  let paymasterStatus := getStatus paymaster rm in
  let deployerStatus := getStatus factory rm in
  if ReputationStatus_eqb paymasterStatus BANNED
     || ReputationStatus_eqb deployerStatus BANNED
  then Skip (MempoolManager.removeUserOp (MempoolManager.ByUserOp op) mm)
  else if match paymaster with
          | Some p =>
              nullish (Some (ReputationStatus_eqb paymasterStatus THROTTLED))
                (THROTTLED_ENTITY_BUNDLE_COUNT <? nullish (stakedEntityCount st !! p) 0)
          | None => false
          end
  then Skip mm
  else if match factory with
          | Some f =>
              nullish (Some (ReputationStatus_eqb deployerStatus THROTTLED))
                (THROTTLED_ENTITY_BUNDLE_COUNT <? nullish (stakedEntityCount st !! f) 0)
          | None => false
          end
  then Skip mm
  else if bool_decide (sender op ∈ senders st)
  then Skip mm
  else
    match ValidationManager.validateUserOp vm chain op
            (Some (MempoolManager.referencedContracts entry)) with
    | Throw _ => Skip (MempoolManager.removeUserOp (MempoolManager.ByUserOp op) mm)
    | Ok validationResult =>
        if storageConflict knownSenders op
             (ValidationManager.storageMap validationResult)
        then Skip mm
        else Candidate validationResult
    end.

(** [userOpGasCost]: [preOpGas] of the second validation plus the
    operation's [callGasLimit]. *)
Definition userOpGasCost (op : UserOperation)
    (validationResult : ValidationManager.ValidateUserOpResult) : Z :=
  ValidationManager.preOpGas
    (ValidationManager.returnInfo (ValidationManager.validation validationResult))
  + callGasLimit op.

(** One round of [mainLoop]: the tests, then the gas test that ends the
    loop, then the admission. *)
Definition iteration (bm : t) (vm : ValidationManager.t)
    (chain : ValidationManager.Chain) (ep : EntryPoint) (rm : ReputationManager.t)
    (knownSenders : list string) (entry : MempoolManager.MempoolEntry)
    (st : Locals) (mm : MempoolManager.t) : Flow * Locals * MempoolManager.t :=
  let op := MempoolManager.userOp entry in
  match screen vm chain rm knownSenders entry st mm with
  | Skip mm' => (Continue, st, mm')
  | Candidate validationResult =>
      let paymaster := getAddr (Some (paymasterAndData op)) in
      let factory := getAddr (Some (initCode op)) in
      let newTotalGas := totalGas st + userOpGasCost op validationResult in
      if maxBundleGas bm <? newTotalGas then (Break, st, mm)
      else
        let '(flow, st') :=
          accept bm ep op paymaster factory validationResult newTotalGas st in
        (flow, st', mm)
  end.

Fixpoint mainLoop (bm : t) (vm : ValidationManager.t)
    (chain : ValidationManager.Chain) (ep : EntryPoint) (rm : ReputationManager.t)
    (knownSenders : list string) (entries : list MempoolManager.MempoolEntry)
    (st : Locals) (mm : MempoolManager.t) : Flow * Locals * MempoolManager.t :=
  match entries with
  | [] => (Continue, st, mm)
  | entry :: rest =>
      match iteration bm vm chain ep rm knownSenders entry st mm with
      | (Break, st', mm') => (Break, st', mm')
      | (Continue, st', mm') => mainLoop bm vm chain ep rm knownSenders rest st' mm'
      end
  end.

(** [createBundle]: the bundle and the storage map, and the mempool
    manager after the removals of the loop. *)
Definition createBundle (bm : t) (vm : ValidationManager.t)
    (chain : ValidationManager.Chain) (ep : EntryPoint) (rm : ReputationManager.t)
    (mm : MempoolManager.t)
    : Result (list UserOperation * gmap string StorageEntry) * MempoolManager.t :=
  match MempoolManager.getSortedForInclusion mm with
  | Throw e => (Throw e, mm)
  | Ok entries =>
      let knownSenders := MempoolManager.getKnownSenders mm in
      let '(_, st, mm') :=
        mainLoop bm vm chain ep rm knownSenders entries initLocals mm in
      (Ok (bundle st, storageMap st), mm')
  end.

Definition checkFatal (code : option Z) : Result unit :=
  match code with
  | Some c => if c =? -32601 then Throw JsError else Ok tt
  | None => Ok tt
  end.

(** [sendBundle]: the [try] block is the call of [handleOps]; the
    [catch] block attributes a [FailedOp]. Reading a field of
    [userOps[opIndex]] when the index is out of range is a [TypeError]. *)
Definition sendBundle (ep : EntryPoint) (userOps : list UserOperation)
    (beneficiary0 : string) (mm : MempoolManager.t) (rm : ReputationManager.t)
    : Result (option SendBundleReturn) * MempoolManager.t * ReputationManager.t :=
  match handleOps ep userOps beneficiary0 with
  | Sent ret hashes => (Ok (Some (mkSendBundleReturn ret hashes)), mm, rm)
  | NonFailedOpError code =>
      match checkFatal code with
      | Throw e => (Throw e, mm, rm)
      | Ok _ => (Ok None, mm, rm)
      end
  | FailedOp opIndex reasonStr =>
      match userOps !! opIndex with
      | None => (Throw JsError, mm, rm)
      | Some op =>
          if startsWith "AA3" reasonStr then
            (Ok None, mm, crashedHandleOps (getAddr (Some (paymasterAndData op))) rm)
          else if startsWith "AA2" reasonStr then
            (Ok None, mm, crashedHandleOps (Some (sender op)) rm)
          else if startsWith "AA1" reasonStr then
            (Ok None, mm, crashedHandleOps (getAddr (Some (initCode op))) rm)
          else
            (Ok None, MempoolManager.removeUserOp (MempoolManager.ByUserOp op) mm, rm)
      end
  end.

(** The signer as [_selectBeneficiary] reads it. *)
Record Signer : Type := mkSigner {
  signerAddress : string;
  signerBalance : Z
}.

Definition _selectBeneficiary (bm : t) (signer : Signer) : string :=
  if signerBalance signer <=? minSignerBalance bm then signerAddress signer
  else beneficiary bm.

(** [sendNextBundle] (inside the mutex): the past events, the bundle, and
    the sending of a bundle that is not empty. *)
Definition sendNextBundle (bm : t) (vm : ValidationManager.t)
    (chain : ValidationManager.Chain) (ep : EntryPoint)
    (node : EventsManager.Node) (signer : Signer)
    (em : EventsManager.t) (mm : MempoolManager.t) (rm : ReputationManager.t)
    : Result (option SendBundleReturn)
      * EventsManager.t * MempoolManager.t * ReputationManager.t :=
  let '(em, mm, rm) := EventsManager.handlePastEvents node em mm rm in
  match createBundle bm vm chain ep rm mm with
  | (Throw e, mm) => (Throw e, em, mm, rm)
  | (Ok (bundle0, _), mm) =>
      if Nat.eqb (length bundle0) 0 then (Ok None, em, mm, rm)
      else
        let beneficiary0 := _selectBeneficiary bm signer in
        let '(ret, mm, rm) := sendBundle ep bundle0 beneficiary0 mm rm in
        (ret, em, mm, rm)
  end.

End BundleManager.

(** ** Reachable mempool states *)

(** The states of a [MempoolManager] that calls of its public methods
    produce, starting from a new manager. [addUserOp] is taken with every
    argument and every state of the reputation manager, and the state it
    leaves is reachable whether it returned or threw. *)
Inductive reachable : MempoolManager.t -> Prop :=
  | reachable_new : reachable MempoolManager.new
  | reachable_addUserOp op h pf refs sInfo pInfo fInfo aInfo mm rm :
      reachable mm ->
      reachable
        (MempoolManager.addUserOp op h pf refs sInfo pInfo fInfo aInfo mm rm).1.2
  | reachable_removeUserOp arg mm :
      reachable mm -> reachable (MempoolManager.removeUserOp arg mm)
  | reachable_clearState mm :
      reachable mm -> reachable (MempoolManager.clearState mm)
  | reachable_incrementEntryCount a mm :
      reachable mm -> reachable (MempoolManager.incrementEntryCount a mm)
  | reachable_decrementEntryCount a mm :
      reachable mm -> reachable (MempoolManager.decrementEntryCount a mm).

(** Every count stored in the map is at least one. *)
Definition countsPositive (m : gmap string Z) : Prop :=
  forall k c, m !! k = Some c -> 1 <= c.

(** The three increments of the path of [addUserOp] that adds an entry. *)
Definition incrementRoles (op : UserOperation) (mm : MempoolManager.t)
    : MempoolManager.t :=
  let mm := MempoolManager.incrementEntryCount (Some (sender op)) mm in
  let mm := MempoolManager.incrementEntryCount
              (getAddr (Some (paymasterAndData op))) mm in
  MempoolManager.incrementEntryCount (getAddr (Some (initCode op))) mm.

(** ** The gas of a bundle *)

(** The validation result of the simulation alone; the code hashes of an
    earlier validation do not enter it. *)
Definition simulated (vm : ValidationManager.t) (chain : ValidationManager.Chain)
    (op : UserOperation) : option ValidationManager.ValidationResult :=
  match ValidationManager.simulate vm chain op None with
  | Ok (res, _, _) => Some res
  | Throw _ => None
  end.

(** [preOpGas + callGasLimit] of an operation, [preOpGas] being the one
    its simulation reports. *)
Definition gasCost (vm : ValidationManager.t) (chain : ValidationManager.Chain)
    (op : UserOperation) : Z :=
  match simulated vm chain op with
  | Some res =>
      ValidationManager.preOpGas (ValidationManager.returnInfo res) + callGasLimit op
  | None => 0
  end.

Definition sumGas (vm : ValidationManager.t) (chain : ValidationManager.Chain)
    (ops : list UserOperation) : Z :=
  foldr (fun op acc => gasCost vm chain op + acc) 0 ops.

(** The prefund the simulation of an operation reports. *)
Definition prefundOf (vm : ValidationManager.t) (chain : ValidationManager.Chain)
    (op : UserOperation) : Z :=
  match simulated vm chain op with
  | Some res => ValidationManager.prefund (ValidationManager.returnInfo res)
  | None => 0
  end.

(** The prefunds of the operations of a list that a paymaster pays. *)
Definition paidBy (vm : ValidationManager.t) (chain : ValidationManager.Chain)
    (p : string) (ops : list UserOperation) : Z :=
  foldr (fun op acc =>
           (if decide (getAddr (Some (paymasterAndData op)) = Some p)
            then prefundOf vm chain op else 0) + acc)
        0 ops.

(** What holds of an operation of the bundle: it is the operation of an
    entry of the list the loop runs over, its paymaster and its factory
    have the status OK, and its second validation succeeded. *)
Definition selected (vm : ValidationManager.t) (chain : ValidationManager.Chain)
    (rm : ReputationManager.t) (entries : list MempoolManager.MempoolEntry)
    (op : UserOperation) : Prop :=
  exists entry vr,
    entry ∈ entries /\ MempoolManager.userOp entry = op
    /\ ReputationManager.getStatus (getAddr (Some (paymasterAndData op))) rm
       = ReputationManager.OK
    /\ ReputationManager.getStatus (getAddr (Some (initCode op))) rm
       = ReputationManager.OK
    /\ ValidationManager.validateUserOp vm chain op
         (Some (MempoolManager.referencedContracts entry)) = Ok vr.

(** The invariant of the build loop: [totalGas] is the gas of the
    operations in the bundle, and is within the budget. *)
Definition gasInvariant (bm : BundleManager.t) (vm : ValidationManager.t)
    (chain : ValidationManager.Chain) (st : BundleManager.Locals) : Prop :=
  BundleManager.totalGas st = sumGas vm chain (BundleManager.bundle st)
  /\ BundleManager.totalGas st <= BundleManager.maxBundleGas bm.

(** ** The specification's reading of two rules *)

(** The time range as the specification words it: violated when
    [validAfter > now], or when [validUntil] is nonzero and
    [validUntil < now + 30]. *)
Definition spec_timeRangeViolated (now validAfter0 validUntil0 : Z) : bool :=
  (now <? validAfter0) || (negb (validUntil0 =? 0) && (validUntil0 <? now + 30)).

(** The number of mempool entries in which the address plays a role. *)
Definition spec_entriesOf (a : string) (mm : MempoolManager.t) : nat :=
  length
    (filter
       (fun e =>
          let op := MempoolManager.userOp e in
          toLowerCase (sender op) = a
          \/ toLowerCase <$> getAddr (Some (paymasterAndData op)) = Some a
          \/ toLowerCase <$> getAddr (Some (initCode op)) = Some a)
       (MempoolManager.mempool mm)).

(** Whether a stored entry is the one an argument of [removeUserOp]
    designates: the same hash, or the same sender and nonce. *)
Definition designates (arg : MempoolManager.UserOpOrHash)
    (e : MempoolManager.MempoolEntry) : bool :=
  match arg with
  | MempoolManager.ByHash h => String.eqb (MempoolManager.userOpHash e) h
  | MempoolManager.ByUserOp op =>
      String.eqb (sender (MempoolManager.userOp e)) (sender op)
      && String.eqb (nonce (MempoolManager.userOp e)) (nonce op)
  end.

(** ** Auxiliary notions for the properties of the managers *)

(** The order of the reputation statuses, from the best to the worst. *)
Definition statusRank (st : ReputationManager.ReputationStatus) : Z :=
  match st with
  | ReputationManager.OK => 0
  | ReputationManager.THROTTLED => 1
  | ReputationManager.BANNED => 2
  end.

(** Every entry is stored under the lower-case form of the address it
    records, as [_getOrCreate] and [setReputation] store it. *)
Definition wellKeyed (rm : ReputationManager.t) : Prop :=
  forall k e, ReputationManager.entries rm !! k = Some e ->
              toLowerCase (ReputationManager.address e) = k.

(** The sender and the nonce of a stored entry, both as they are written,
    the key of replacement. *)
Definition keyOf (e : MempoolManager.MempoolEntry) : string * string :=
  (sender (MempoolManager.userOp e), nonce (MempoolManager.userOp e)).

(** No two entries of the mempool have the same sender and the same
    nonce, both compared as written, which is the comparison [===] of
    [_findBySenderNonce]: one account in two letter cases, or one number
    in two spellings, are two keys. *)
Definition uniqueKeys (mm : MempoolManager.t) : Prop :=
  NoDup (keyOf <$> MempoolManager.mempool mm).

(** The priority fee of an entry, the sorting key of the bundle builder. *)
Definition feeOf (e : MempoolManager.MempoolEntry) : Z :=
  maxPriorityFeePerGas (MempoolManager.userOp e).

(** The count stored for a key, zero for a key that is absent. *)
Definition countOf (m : gmap string Z) (k : string) : Z := default 0 (m !! k).

(** One when the key is the lower-case form of the address, zero when it
    is not or when there is no address. *)
Definition isKey (a : option string) (k : string) : Z :=
  match a with
  | Some a => if decide (k = toLowerCase a) then 1 else 0
  | None => 0
  end.

(** [hourlyCron] run [n] times. *)
Definition hourlyCronTimes (n : nat) (rm : ReputationManager.t) : ReputationManager.t :=
  Nat.iter n ReputationManager.hourlyCron rm.

(** The numbers of operations seen and included that the manager holds
    for a key, zero for a key without an entry. *)
Definition seenOf (rm : ReputationManager.t) (k : string) : Z :=
  from_option ReputationManager.opsSeen 0 (ReputationManager.entries rm !! k).

Definition includedOf (rm : ReputationManager.t) (k : string) : Z :=
  from_option ReputationManager.opsIncluded 0 (ReputationManager.entries rm !! k).

(** One state of the reputation manager comes from another by credits
    of inclusion only: the parameters and the lists are the same, no
    count of seen operations changed, and no count of included
    operations went down. *)
Definition onlyCredited (rm rm' : ReputationManager.t) : Prop :=
  ReputationManager.params rm' = ReputationManager.params rm
  /\ ReputationManager.whitelist rm' = ReputationManager.whitelist rm
  /\ ReputationManager.blackList rm' = ReputationManager.blackList rm
  /\ forall k, seenOf rm' k = seenOf rm k /\ includedOf rm k <= includedOf rm' k.

(** The events [handlePastEvents] reads: the logs from [lastBlock] on, or
    from 1000 blocks back when [lastBlock] is not set. *)
Definition pastEvents (node : EventsManager.Node) (em : EventsManager.t)
    : list EventsManager.Event :=
  EventsManager.queryFilter node
    (match EventsManager.lastBlock em with
     | Some b => b
     | None => Z.max 1 (EventsManager.getBlockNumber node - 1000)
     end).

(** A [UserOperationEvent] of the list reports the hash. *)
Definition mined (events : list EventsManager.Event) (h : string) : Prop :=
  exists ev s p, ev ∈ events
                 /\ EventsManager.args ev = EventsManager.UserOperationEvent h s p.

(** ** Sample data *)

Module Sample.

Definition hex40 (c : ascii) : string :=
  String "0" (String "x" (String.concat EmptyString (repeat (String c EmptyString) 40))).

(** Senders: 0xaaa...aa1 to 0xaaa...aa6. *)
Definition senderN (last : ascii) : string :=
  String "0" (String "x"
    (String.concat EmptyString (repeat "a"%string 39) +:+ String last EmptyString)).

Definition paymasterP : string := hex40 "b".
Definition factoryF : string := hex40 "f".

Definition noHashes : ReferencedCodeHashes := mkReferencedCodeHashes [] EmptyString.

(** An operation without factory: [initCode = 0x]. *)
Definition mkOp (sender0 : string) (nonce0 : string) (fee : Z) (pmd : string)
    : UserOperation :=
  mkUserOperation sender0 nonce0 "0x" "0x" 20000 100000 50000 fee fee pmd "0x".

Definition unstaked (a : string) : StakeInfo := mkStakeInfo a 0 0.

Definition rm0 : ReputationManager.t :=
  ReputationManager.mk ReputationManager.BundlerReputationParams 1000 86400 ∅ ∅ ∅.

(** A reputation manager whose black list holds the paymaster. *)
Definition rmBlack : ReputationManager.t :=
  ReputationManager.mk ReputationManager.BundlerReputationParams 1000 86400
    ∅ {[paymasterP]} ∅.

Definition rmOf (a : string) (seen included : Z) : ReputationManager.t :=
  ReputationManager.mk ReputationManager.BundlerReputationParams 1000 86400
    {[a := ReputationManager.mkReputationEntry a seen included None]} ∅ ∅.

(** [addUserOp] of an operation with the given paymaster data, keeping
    the two managers. *)
Definition submit (op : UserOperation)
    (st : MempoolManager.t * ReputationManager.t)
    : MempoolManager.t * ReputationManager.t :=
  let pInfo := unstaked <$> getAddr (Some (paymasterAndData op)) in
  let r := MempoolManager.addUserOp op (sender op) 1000 noHashes
             (unstaked (sender op)) pInfo None None st.1 st.2 in
  (r.1.2, r.2).

Definition sixOps : list UserOperation :=
  map (fun c => mkOp (senderN c) "0x0" 7 paymasterP)
    ["1"; "2"; "3"; "4"; "5"; "6"]%char.

(** The managers after the six operations were added. *)
Definition afterSix : MempoolManager.t * ReputationManager.t :=
  foldl (fun st op => submit op st) (MempoolManager.new, rm0) sixOps.

Definition vmUnsafe : ValidationManager.t := ValidationManager.mk true.

Definition resultWith (validAfter0 : Z) (validUntil0 : option Z) (op : UserOperation)
    : ValidationManager.ValidationResult :=
  ValidationManager.mkValidationResult
    (ValidationManager.mkReturnInfo 60000 1000 false validAfter0 validUntil0)
    (unstaked (sender op))
    None
    (unstaked <$> getAddr (Some (paymasterAndData op)))
    None.

(** A chain on which every simulation succeeds with the given time
    range, read at the given time. *)
Definition chainAt (now validAfter0 : Z) (validUntil0 : option Z)
    : ValidationManager.Chain :=
  ValidationManager.mkChain now (fun _ => EmptyString)
    (fun op => Ok (resultWith validAfter0 validUntil0 op))
    (fun op => Ok (Some (resultWith validAfter0 validUntil0 op), [], ∅)).

Definition chain0 : ValidationManager.Chain :=
  chainAt 1700000000 0 (Some 281474976710655).

Definition ep0 : BundleManager.EntryPoint :=
  BundleManager.mkEntryPoint (fun _ => 10 ^ 18) (fun _ => EmptyString)
    (fun _ _ => BundleManager.FailedOp 0 "AA33 reverted").

Definition bmWith (maxBundleGas0 : Z) : BundleManager.t :=
  BundleManager.mk (hex40 "e") 0 maxBundleGas0 false false.

End Sample.

(** ** Basic facts *)

Lemma toLowerCase_length s : String.length (toLowerCase s) = String.length s.
Proof. induction s as [|c s IH]; simpl; congruence. Qed.

Lemma getAddr_short d :
  (String.length d < 42)%nat -> getAddr (Some d) = None.
Proof.
  intros H. unfold getAddr, hexlify. rewrite toLowerCase_length.
  destruct (Nat.leb_spec 42 (String.length d)); [lia | reflexivity].
Qed.

Section EntryCounts.
Import MempoolManager.

Lemma incrementEntryCount_mempool a mm :
  mempool (incrementEntryCount a mm) = mempool mm.
Proof. destruct a; reflexivity. Qed.

Lemma decrementEntryCount_mempool a mm :
  mempool (decrementEntryCount a mm) = mempool mm.
Proof.
  destruct a as [a|]; [|reflexivity]. unfold decrementEntryCount; simpl.
  destruct (_entryCount mm !! toLowerCase a); [|reflexivity].
  destruct (_ <=? 0); reflexivity.
Qed.

Lemma incrementEntryCount_positive a mm :
  countsPositive (_entryCount mm) ->
  countsPositive (_entryCount (incrementEntryCount a mm)).
Proof.
  intros Hpos. destruct a as [a|]; [|exact Hpos].
  intros k c. unfold incrementEntryCount; simpl.
  rewrite lookup_insert. case_decide as Hk.
  - intros [= <-]. destruct (_entryCount mm !! toLowerCase a) as [c0|] eqn:E; simpl.
    + apply Hpos in E. lia.
    + lia.
  - apply Hpos.
Qed.

Lemma decrementEntryCount_positive a mm :
  countsPositive (_entryCount mm) ->
  countsPositive (_entryCount (decrementEntryCount a mm)).
Proof.
  intros Hpos. destruct a as [a|]; [|exact Hpos].
  unfold decrementEntryCount; simpl.
  destruct (_entryCount mm !! toLowerCase a) as [c0|] eqn:E; [|exact Hpos].
  destruct (Z.leb_spec (c0 - 1) 0) as [Hle|Hgt]; intros k c; simpl.
  - rewrite lookup_delete. case_decide; [discriminate | apply Hpos].
  - rewrite lookup_insert. case_decide; [intros [= <-]; lia | apply Hpos].
Qed.

Lemma incrementRoles_positive op mm :
  countsPositive (_entryCount mm) ->
  countsPositive (_entryCount (incrementRoles op mm)).
Proof.
  intros H. unfold incrementRoles.
  do 3 apply incrementEntryCount_positive. exact H.
Qed.

(** Whatever [addUserOp] does to the mempool and however it ends, the
    entry counts it leaves are the ones it found or these after the
    three increments. *)
Lemma addUserOp_entryCount op h pf refs sInfo pInfo fInfo aInfo mm rm :
  let mm' := (addUserOp op h pf refs sInfo pInfo fInfo aInfo mm rm).1.2 in
  _entryCount mm' = _entryCount mm \/
  _entryCount mm' = _entryCount (incrementRoles op mm).
Proof.
  unfold addUserOp.
  destruct (negb (_findBySenderNonce (sender op) (nonce op) mm =? -1)).
  - left. destruct (mempool mm !! _) as [old|]; [|reflexivity].
    destruct (checkReplaceUserOp old _); [|reflexivity].
    destruct (updateSeenStatus _ _ _ _) as [r rm']. reflexivity.
  - right.
    assert (Hinc :
      (let mm0 := incrementEntryCount (Some (sender op)) mm in
       let mm1 := match getAddr (Some (paymasterAndData op)) with
                  | Some _ => incrementEntryCount (getAddr (Some (paymasterAndData op))) mm0
                  | None => mm0 end in
       match getAddr (Some (initCode op)) with
       | Some _ => incrementEntryCount (getAddr (Some (initCode op))) mm1
       | None => mm1 end) = incrementRoles op mm).
    { unfold incrementRoles.
      destruct (getAddr (Some (paymasterAndData op)));
        destruct (getAddr (Some (initCode op))); reflexivity. }
    cbv zeta in Hinc. rewrite Hinc.
    destruct (checkReputation _ _ _ _ _ _); [|reflexivity].
    destruct (checkMultipleRolesViolation _ _); [|reflexivity].
    destruct (updateSeenStatus _ _ _ _) as [r rm']. reflexivity.
Qed.

Lemma removeUserOp_positive arg mm :
  countsPositive (_entryCount mm) ->
  countsPositive (_entryCount (removeUserOp arg mm)).
Proof.
  intros H. unfold removeUserOp.
  destruct (negb _); [|exact H].
  destruct (mempool mm !! _) as [e|]; [|exact H].
  do 3 apply decrementEntryCount_positive. exact H.
Qed.

Lemma reachable_countsPositive mm :
  reachable mm -> countsPositive (_entryCount mm).
Proof.
  induction 1 as [ | op h pf refs sI pI fI aI mm rm _ IH | arg mm _ IH
                   | mm _ IH | a mm _ IH | a mm _ IH ].
  - intros k c. simpl. rewrite lookup_empty. discriminate.
  - destruct (addUserOp_entryCount op h pf refs sI pI fI aI mm rm) as [E|E];
      rewrite E; [exact IH | apply incrementRoles_positive, IH].
  - apply removeUserOp_positive, IH.
  - intros k c. simpl. rewrite lookup_empty. discriminate.
  - apply incrementEntryCount_positive, IH.
  - apply decrementEntryCount_positive, IH.
Qed.

(** [findFrom] gives [-1] or an index of the list, counted from [i]. *)
Lemma findFrom_range {A} (p : A -> bool) l i :
  findFrom p l i = -1 \/ i <= findFrom p l i < i + Z.of_nat (length l).
Proof.
  revert i. induction l as [|x l IH]; intros i; simpl; [left; reflexivity|].
  destruct (p x); [right; lia|].
  destruct (IH (i + 1)) as [->|H]; [left; reflexivity | right; lia].
Qed.

End EntryCounts.

Section Removal.
Import MempoolManager.

Lemma findFrom_none {A} (p : A -> bool) l i :
  (forall x, In x l -> p x = false) -> findFrom p l i = -1.
Proof.
  revert i. induction l as [|x l IH]; intros i Hall; simpl; [reflexivity|].
  rewrite (Hall x (or_introl eq_refl)). apply IH.
  intros y Hy. apply Hall. right. exact Hy.
Qed.

Lemma removeUserOp_index arg mm :
  (forall e, In e (mempool mm) -> designates arg e = false) ->
  match arg with
  | ByHash h => _findByHash h mm
  | ByUserOp op => _findBySenderNonce (sender op) (nonce op) mm
  end = -1.
Proof.
  intros Hno. destruct arg as [h|op]; apply findFrom_none; exact Hno.
Qed.
End Removal.

Section Blame.
Import ReputationManager.

Lemma startsWith_AA1_not_AA3 r :
  startsWith "AA1" r = true -> startsWith "AA3" r = false.
Proof.
  unfold startsWith. destruct r as [|a [|b [|c r]]]; cbn [String.prefix];
    repeat match goal with
           | |- context [ascii_dec ?x ?y] =>
               is_var y; destruct (ascii_dec x y) as [<-|]
           end; try discriminate.
  all: intros _; destruct (ascii_dec "3" "1"); [discriminate | reflexivity].
Qed.

Lemma startsWith_AA1_not_AA2 r :
  startsWith "AA1" r = true -> startsWith "AA2" r = false.
Proof.
  unfold startsWith. destruct r as [|a [|b [|c r]]]; cbn [String.prefix];
    repeat match goal with
           | |- context [ascii_dec ?x ?y] =>
               is_var y; destruct (ascii_dec x y) as [<-|]
           end; try discriminate.
  all: intros _; destruct (ascii_dec "2" "1"); [discriminate | reflexivity].
Qed.

(** What [crashedHandleOps] leaves under the key of the address. *)
Lemma crashedHandleOps_lookup a rm :
  entries (crashedHandleOps (Some a) rm) !! toLowerCase a =
  Some (match entries rm !! toLowerCase a with
        | Some e => mkReputationEntry (address e) (opsSeen e + 10000) 0 (status e)
        | None => mkReputationEntry (toLowerCase a) 10000 0 None
        end).
Proof.
  unfold crashedHandleOps, _getOrCreate, store.
  destruct (entries rm !! toLowerCase a) as [e|]; simpl;
    rewrite lookup_insert_eq; reflexivity.
Qed.

Lemma crashedHandleOps_other a k rm :
  k <> toLowerCase a ->
  entries (crashedHandleOps (Some a) rm) !! k = entries rm !! k.
Proof.
  intros Hk. unfold crashedHandleOps, _getOrCreate, store.
  destruct (entries rm !! toLowerCase a) as [e|]; simpl;
    rewrite !lookup_insert_ne by congruence; reflexivity.
Qed.
End Blame.

(** ** The claims *)

(** C7. When [handleOps] reverts with [FailedOp(opIndex, reason)] and the
    reason starts with AA3, [sendBundle] calls [crashedHandleOps] on the
    paymaster of the failing operation: the paymaster's [opsSeen] becomes
    its former value (zero for an address not seen before) plus 10000,
    its [opsIncluded] becomes 0, and the mempool manager is left as it
    was, so the failing operation stays in the mempool. *)
Theorem sendBundle_AA3_blames_paymaster
    (ep : BundleManager.EntryPoint) (userOps : list UserOperation) (ben : string)
    (mm : MempoolManager.t) (rm : ReputationManager.t)
    (opIndex : nat) (reason : string) (op : UserOperation) (pm : string) :
  BundleManager.handleOps ep userOps ben = BundleManager.FailedOp opIndex reason ->
  userOps !! opIndex = Some op ->
  startsWith "AA3" reason = true ->
  getAddr (Some (paymasterAndData op)) = Some pm ->
  let seenBefore :=
    match ReputationManager.entries rm !! toLowerCase pm with
    | Some e => ReputationManager.opsSeen e
    | None => 0
    end in
  let out := BundleManager.sendBundle ep userOps ben mm rm in
  out = (Ok None, mm, ReputationManager.crashedHandleOps (Some pm) rm)
  /\ out.1.2 = mm
  /\ exists e,
       ReputationManager.entries out.2 !! toLowerCase pm = Some e
       /\ ReputationManager.opsSeen e = seenBefore + 10000
       /\ ReputationManager.opsIncluded e = 0.
Proof.
  intros Hrev Hop Haa Hpm seenBefore. cbv zeta.
  assert (Hout : BundleManager.sendBundle ep userOps ben mm rm
                 = (Ok None, mm, ReputationManager.crashedHandleOps (Some pm) rm)).
  { unfold BundleManager.sendBundle. rewrite Hrev, Hop, Haa, Hpm. reflexivity. }
  rewrite Hout. split; [reflexivity|]. split; [reflexivity|].
  cbn [fst snd]. rewrite crashedHandleOps_lookup. eexists. split; [reflexivity|].
  unfold seenBefore.
  destruct (ReputationManager.entries rm !! toLowerCase pm); simpl; split; reflexivity.
Qed.

Lemma sendBundle_AA3_blames_paymaster_witness :
  let op := Sample.mkOp (Sample.senderN "1") "0x0" 7 Sample.paymasterP in
  let out := BundleManager.sendBundle Sample.ep0 [op] Sample.paymasterP
               MempoolManager.new (Sample.rmOf Sample.paymasterP 6 3) in
  out.1.2 = MempoolManager.new
  /\ exists e,
       ReputationManager.entries out.2 !! toLowerCase Sample.paymasterP = Some e
       /\ ReputationManager.opsSeen e = 6 + 10000
       /\ ReputationManager.opsIncluded e = 0.
Proof.
  intros op out.
  exact (proj2 (sendBundle_AA3_blames_paymaster Sample.ep0 [op] Sample.paymasterP
                  MempoolManager.new (Sample.rmOf Sample.paymasterP 6 3)
                  0%nat "AA33 reverted" op Sample.paymasterP
                  eq_refl eq_refl eq_refl eq_refl)).
Defined.

(** C8. In every reachable state of the mempool manager, a count stored
    for an address is at least one: [entryCount] returns [undefined] or a
    value that is 1 or more. *)
Theorem entryCount_at_least_one (mm : MempoolManager.t) (a : string) (c : Z) :
  reachable mm -> MempoolManager.entryCount a mm = Some c -> 1 <= c.
Proof.
  intros Hreach. apply (reachable_countsPositive mm Hreach).
Qed.

Lemma entryCount_at_least_one_witness :
  let op := Sample.mkOp (Sample.senderN "1") "0x0" 7 Sample.paymasterP in
  let mm := (MempoolManager.addUserOp op "0x01" 1000 Sample.noHashes
               (Sample.unstaked (sender op)) None None None
               MempoolManager.new Sample.rm0).1.2 in
  reachable mm /\ MempoolManager.entryCount Sample.paymasterP mm = Some 1 /\ 1 <= 1.
Proof.
  intros op mm.
  assert (Hreach : reachable mm) by (apply reachable_addUserOp, reachable_new).
  assert (Hcount : MempoolManager.entryCount Sample.paymasterP mm = Some 1)
    by (vm_compute; reflexivity).
  exact (conj Hreach (conj Hcount
           (entryCount_at_least_one mm Sample.paymasterP 1 Hreach Hcount))).
Defined.

(** C9. When the argument of [removeUserOp] (a hash or an operation)
    designates no stored entry, the call returns and the mempool manager,
    its entries and its counts alike, is what it was. *)
Theorem removeUserOp_absent (arg : MempoolManager.UserOpOrHash) (mm : MempoolManager.t) :
  (forall e, In e (MempoolManager.mempool mm) -> designates arg e = false) ->
  MempoolManager.removeUserOp arg mm = mm.
Proof.
  intros Hno. unfold MempoolManager.removeUserOp.
  rewrite (removeUserOp_index arg mm Hno). reflexivity.
Qed.

Lemma removeUserOp_absent_witness :
  let mm := Sample.afterSix.1 in
  let op7 := Sample.mkOp (Sample.senderN "7") "0x0" 7 Sample.paymasterP in
  let op1' := Sample.mkOp (Sample.senderN "1") "0x00" 7 Sample.paymasterP in
  length (MempoolManager.mempool mm) = 6%nat
  /\ MempoolManager.entryCount Sample.paymasterP mm = Some 6
  /\ MempoolManager.removeUserOp (MempoolManager.ByUserOp op7) mm = mm
  /\ MempoolManager.removeUserOp (MempoolManager.ByUserOp op1') mm = mm
  /\ MempoolManager.removeUserOp (MempoolManager.ByHash "0x02") mm = mm.
Proof.
  intros mm op7 op1'.
  assert (Hno : forall arg,
            Forall (fun e => designates arg e = false) (MempoolManager.mempool mm) ->
            forall e, In e (MempoolManager.mempool mm) -> designates arg e = false).
  { intros arg HF. apply (proj1 (List.Forall_forall _ _) HF). }
  split; [vm_compute; reflexivity|]. split; [vm_compute; reflexivity|].
  split; [|split].
  - apply (removeUserOp_absent (MempoolManager.ByUserOp op7) mm).
    apply Hno. apply (bool_decide_unpack _). vm_compute. exact I.
  - apply (removeUserOp_absent (MempoolManager.ByUserOp op1') mm).
    apply Hno. apply (bool_decide_unpack _). vm_compute. exact I.
  - apply (removeUserOp_absent (MempoolManager.ByHash "0x02") mm).
    apply Hno. apply (bool_decide_unpack _). vm_compute. exact I.
Defined.

(** C10. [updateSeenStatus] and [crashedHandleOps] called without an
    address leave the reputation manager unchanged; so when a [FailedOp]
    is blamed on the paymaster (AA3) of an operation whose
    [paymasterAndData] is too short to hold an address, or on the factory
    (AA1) of one whose [initCode] is, [sendBundle] creates and modifies no
    reputation entry. *)
Theorem absent_address_leaves_reputation (rm : ReputationManager.t) :
  ReputationManager.updateSeenStatus None rm = rm
  /\ ReputationManager.crashedHandleOps None rm = rm
  /\ forall (ep : BundleManager.EntryPoint) (userOps : list UserOperation)
            (ben : string) (mm : MempoolManager.t)
            (opIndex : nat) (reason : string) (op : UserOperation),
       BundleManager.handleOps ep userOps ben = BundleManager.FailedOp opIndex reason ->
       userOps !! opIndex = Some op ->
       (startsWith "AA3" reason = true
        /\ (String.length (paymasterAndData op) < 42)%nat)
       \/ (startsWith "AA1" reason = true
           /\ (String.length (initCode op) < 42)%nat) ->
       (BundleManager.sendBundle ep userOps ben mm rm).2 = rm.
Proof.
  split; [reflexivity|]. split; [reflexivity|].
  intros ep userOps ben mm opIndex reason op Hrev Hop Hcase.
  unfold BundleManager.sendBundle. rewrite Hrev, Hop.
  destruct Hcase as [[Haa Hlen]|[Haa Hlen]].
  - rewrite Haa, (getAddr_short _ Hlen). reflexivity.
  - rewrite (startsWith_AA1_not_AA3 _ Haa), (startsWith_AA1_not_AA2 _ Haa), Haa,
      (getAddr_short _ Hlen). reflexivity.
Qed.

Lemma absent_address_leaves_reputation_witness :
  let op := Sample.mkOp (Sample.senderN "1") "0x0" 7 "0x" in
  (BundleManager.sendBundle Sample.ep0 [op] Sample.paymasterP
     MempoolManager.new (Sample.rmOf Sample.paymasterP 6 3)).2
  = Sample.rmOf Sample.paymasterP 6 3.
Proof.
  intros op.
  apply (proj2 (proj2 (absent_address_leaves_reputation
                         (Sample.rmOf Sample.paymasterP 6 3)))
           Sample.ep0 [op] Sample.paymasterP MempoolManager.new
           0%nat "AA33 reverted" op eq_refl eq_refl).
  left. split; [reflexivity | simpl; lia].
Defined.

Section Ageing.
Import ReputationManager.

(** [hourlyCron] acts on each entry by [hourlyCron_entry]. *)
Lemma hourlyCron_lookup k rm :
  entries (hourlyCron rm) !! k = entries rm !! k ≫= hourlyCron_entry.
Proof. unfold hourlyCron. simpl. apply lookup_omap. Qed.

(** What the code does to an entry it keeps: [opsSeen] is aged as the
    specification says and does not grow; [opsIncluded] is computed from
    the aged [opsSeen], not from [opsIncluded]. *)
Lemma hourlyCron_entry_kept entry entry' :
  hourlyCron_entry entry = Some entry' ->
  opsSeen entry' = opsSeen entry * 23 / 24
  /\ opsIncluded entry' = (opsSeen entry * 23 / 24) * 23 / 24
  /\ (0 <= opsSeen entry -> opsSeen entry' <= opsSeen entry).
Proof.
  unfold hourlyCron_entry.
  destruct (_ && _); [discriminate|]. intros [= <-]. simpl.
  split; [reflexivity|]. split; [reflexivity|].
  intros H. apply Z.div_le_upper_bound; lia.
Qed.

(** No entry is left with both counters at zero. *)
Lemma hourlyCron_no_zero_entry k rm entry' :
  entries (hourlyCron rm) !! k = Some entry' ->
  ~ (opsSeen entry' = 0 /\ opsIncluded entry' = 0).
Proof.
  rewrite hourlyCron_lookup.
  destruct (entries rm !! k) as [entry|]; [|discriminate]. simpl.
  unfold hourlyCron_entry.
  destruct (_ && _) eqn:E; [discriminate|]. intros [= <-]. simpl.
  intros [H1 H2]. rewrite H2, H1 in E. discriminate.
Qed.
End Ageing.

(** C2. [hourlyCron] on an entry seen 1000 times and never included: the
    code ages [opsSeen] to 958 and then sets [opsIncluded] from the aged
    [opsSeen], to 918, where the claim has [floor(0 * 23 / 24) = 0]; the
    counter grew. *)
Theorem hourlyCron_recomputes_opsIncluded_from_opsSeen :
  ReputationManager.entries
    (ReputationManager.hourlyCron (Sample.rmOf Sample.paymasterP 1000 0))
    !! Sample.paymasterP
  = Some (ReputationManager.mkReputationEntry Sample.paymasterP 958 918 None)
  /\ 0 * 23 / 24 = 0.
Proof. split; [vm_compute; reflexivity | reflexivity]. Qed.

Section Adding.
Import MempoolManager.

(** When no entry has the sender and nonce of the operation and
    [addUserOp] returns, the entry is at the end of the mempool and the
    counts are these after the three increments. *)
Lemma addUserOp_new_entry op h pf refs sInfo pInfo fInfo aInfo mm rm mm' rm' :
  _findBySenderNonce (sender op) (nonce op) mm = -1 ->
  addUserOp op h pf refs sInfo pInfo fInfo aInfo mm rm = (Ok tt, mm', rm') ->
  mempool mm' = mempool mm ++ [mkMempoolEntry op h pf refs (addr <$> aInfo)]
  /\ _entryCount mm' = _entryCount (incrementRoles op mm).
Proof.
  intros Hidx. unfold addUserOp. rewrite Hidx. cbn [Z.eqb negb].
  assert (Hinc :
    (let mm0 := incrementEntryCount (Some (sender op)) mm in
     let mm1 := match getAddr (Some (paymasterAndData op)) with
                | Some _ => incrementEntryCount (getAddr (Some (paymasterAndData op))) mm0
                | None => mm0 end in
     match getAddr (Some (initCode op)) with
     | Some _ => incrementEntryCount (getAddr (Some (initCode op))) mm1
     | None => mm1 end) = incrementRoles op mm).
  { unfold incrementRoles.
    destruct (getAddr (Some (paymasterAndData op)));
      destruct (getAddr (Some (initCode op))); reflexivity. }
  cbv zeta in Hinc. rewrite Hinc.
  destruct (checkReputation _ _ _ _ _ _); [|discriminate].
  destruct (checkMultipleRolesViolation _ _); [|discriminate].
  destruct (updateSeenStatus _ _ _ _) as [r rm1].
  intros [= _ <- _]. simpl.
  unfold incrementRoles. rewrite !incrementEntryCount_mempool.
  split; reflexivity.
Qed.
End Adding.

(** C1. A failed [addUserOp] leaves its increments behind: adding, to a
    new mempool, an operation whose paymaster is on the black list throws
    the reputation error after the counts of the sender and of the
    paymaster were incremented; the mempool is empty and both counts are
    1, in a reachable state. *)
Theorem addUserOp_failure_keeps_increments :
  let s1 := Sample.senderN "1" in
  let op := Sample.mkOp s1 "0x0" 7 Sample.paymasterP in
  let out := MempoolManager.addUserOp op "0x01" 1000 Sample.noHashes
               (Sample.unstaked s1) (Some (Sample.unstaked Sample.paymasterP))
               None None MempoolManager.new Sample.rmBlack in
  out.1.1 = Throw (RpcError Reputation)
  /\ reachable out.1.2
  /\ MempoolManager.mempool out.1.2 = []
  /\ MempoolManager.entryCount s1 out.1.2 = Some 1
  /\ spec_entriesOf s1 out.1.2 = 0%nat
  /\ MempoolManager.entryCount Sample.paymasterP out.1.2 = Some 1
  /\ spec_entriesOf Sample.paymasterP out.1.2 = 0%nat.
Proof.
  intros s1 op out.
  split; [vm_compute; reflexivity|].
  split; [apply reachable_addUserOp, reachable_new|].
  repeat split; vm_compute; reflexivity.
Qed.

Section Replacement.
Import MempoolManager.

(** With fees that are safe integers, a replacement is accepted exactly
    when both binary64 comparisons hold, and is refused with
    [InvalidFields] otherwise. *)
Lemma checkReplaceUserOp_safe oldEntry entry :
  Z.abs (maxPriorityFeePerGas (userOp oldEntry)) <= MAX_SAFE_INTEGER ->
  Z.abs (maxPriorityFeePerGas (userOp entry)) <= MAX_SAFE_INTEGER ->
  Z.abs (maxFeePerGas (userOp oldEntry)) <= MAX_SAFE_INTEGER ->
  Z.abs (maxFeePerGas (userOp entry)) <= MAX_SAFE_INTEGER ->
  checkReplaceUserOp oldEntry entry =
  if Float64.geb (Float64.ofZ (maxPriorityFeePerGas (userOp entry)))
       (Float64.mul (Float64.ofZ (maxPriorityFeePerGas (userOp oldEntry)))
          Float64.lit_1_1)
     && Float64.geb (Float64.ofZ (maxFeePerGas (userOp entry)))
          (Float64.mul (Float64.ofZ (maxFeePerGas (userOp oldEntry)))
             Float64.lit_1_1)
  then Ok tt else Throw (RpcError InvalidFields).
Proof.
  intros H1 H2 H3 H4. unfold checkReplaceUserOp, toNumber.
  repeat match goal with
         | H : Z.abs ?x <= _ |- context [Z.abs ?x <=? ?m] =>
             destruct (Z.leb_spec (Z.abs x) m); [|lia]
         end.
  cbn [bindR]. unfold requireCond.
  destruct (Float64.geb _ _); cbn [bindR andb]; [|reflexivity].
  destruct (Float64.geb _ _); reflexivity.
Qed.

(** The product [10 * 1.1] is the double 11, so the step from 10 to 11
    is accepted. *)
Example replace_10_by_11 :
  checkReplaceUserOp
    (mkMempoolEntry (Sample.mkOp (Sample.senderN "1") "0x0" 10 "0x") "0x01" 0
       Sample.noHashes None)
    (mkMempoolEntry (Sample.mkOp (Sample.senderN "1") "0x0" 11 "0x") "0x02" 0
       Sample.noHashes None)
  = Ok tt.
Proof. vm_compute. reflexivity. Qed.
End Replacement.

(** C5. A replacement whose two fees are exactly 10% higher is refused:
    with fees of 100 in the stored operation and 110 in the replacement,
    [100 * 1.1] is the double 110.00000000000001, the comparison
    [110 >= 100 * 1.1] is false, and [addUserOp] throws [InvalidFields]
    and leaves the stored operation in place. *)
Theorem replacement_of_100_by_110_refused :
  let s1 := Sample.senderN "1" in
  let old := Sample.mkOp s1 "0x0" 100 "0x" in
  let new := Sample.mkOp s1 "0x0" 110 "0x" in
  let st := Sample.submit old (MempoolManager.new, Sample.rm0) in
  let out := MempoolManager.addUserOp new "0x02" 1000 Sample.noHashes
               (Sample.unstaked s1) None None None st.1 st.2 in
  MempoolManager.dump st.1 = [old]
  /\ 10 * maxPriorityFeePerGas new = 11 * maxPriorityFeePerGas old
  /\ 10 * maxFeePerGas new = 11 * maxFeePerGas old
  /\ Float64.mul (Float64.ofZ 100) Float64.lit_1_1
     = S754_finite false 7740561859543041 (-46)
  /\ Float64.ofZ 110 = S754_finite false 7740561859543040 (-46)
  /\ out.1.1 = Throw (RpcError InvalidFields)
  /\ MempoolManager.dump out.1.2 = [old].
Proof. intros s1 old new st out. repeat split; vm_compute; reflexivity. Qed.

Section Throttling.
Import BundleManager ReputationManager.
Variables (vm : ValidationManager.t) (chain : ValidationManager.Chain)
          (rm : ReputationManager.t) (knownSenders : list string).

(** The tests of the loop read the local variables only through
    [senders]: the counts in [stakedEntityCount] have no part in the
    decision, the right operand of [??] never being evaluated. *)
Lemma screen_ignores_stakedEntityCount entry st st' mm :
  senders st = senders st' ->
  screen vm chain rm knownSenders entry st mm
  = screen vm chain rm knownSenders entry st' mm.
Proof.
  intros Hs. unfold screen. cbn [nullish]. rewrite Hs. reflexivity.
Qed.

(** An entry whose paymaster is throttled, no entity of it being banned,
    is passed over and stays in the mempool. *)
Lemma screen_throttled_paymaster entry st mm p :
  getAddr (Some (paymasterAndData (MempoolManager.userOp entry))) = Some p ->
  getStatus (Some p) rm = THROTTLED ->
  getStatus (getAddr (Some (initCode (MempoolManager.userOp entry)))) rm <> BANNED ->
  screen vm chain rm knownSenders entry st mm = Skip mm.
Proof.
  intros Hp Hthr Hf. unfold screen. rewrite Hp, Hthr. cbn [nullish].
  destruct (getStatus (getAddr (Some (initCode (MempoolManager.userOp entry)))) rm);
    [reflexivity | reflexivity | congruence].
Qed.
End Throttling.

(** C4. The count test of the build loop never fires. Six operations of
    six senders share one paymaster whose status is OK; after the first
    five are admitted the paymaster's [stakedEntityCount] is 5, more than
    4, and [createBundle] still admits the sixth: the bundle is the six
    operations and the mempool is untouched. *)
Theorem createBundle_takes_sixth_op_of_paymaster :
  let mm := Sample.afterSix.1 in
  let rm := Sample.afterSix.2 in
  let bm := Sample.bmWith 5000000 in
  let firstFive :=
    BundleManager.mainLoop bm Sample.vmUnsafe Sample.chain0 Sample.ep0 rm
      (MempoolManager.getKnownSenders mm) (take 5 (MempoolManager.mempool mm))
      BundleManager.initLocals mm in
  let out := BundleManager.createBundle bm Sample.vmUnsafe Sample.chain0
               Sample.ep0 rm mm in
  MempoolManager.dump mm = Sample.sixOps
  /\ MempoolManager.getSortedForInclusion mm = Ok (MempoolManager.mempool mm)
  /\ ReputationManager.getStatus (Some Sample.paymasterP) rm = ReputationManager.OK
  /\ BundleManager.stakedEntityCount firstFive.1.2 !! Sample.paymasterP = Some 5
  /\ (exists sm, out.1 = Ok (Sample.sixOps, sm))
  /\ out.2 = mm.
Proof.
  intros mm rm bm firstFive out.
  split; [vm_compute; reflexivity|].
  split; [vm_compute; reflexivity|].
  split; [vm_compute; reflexivity|].
  split; [vm_compute; reflexivity|].
  split; [|vm_compute; reflexivity].
  eexists (match out.1 with Ok (_, sm) => sm | Throw _ => ∅ end).
  vm_compute. reflexivity.
Qed.

(** C3, as the claim has it, fails on the code in two places. A result
    with [validUntil = 0] is not taken as without expiry: read at time
    1000 it is rejected as expired, though the claimed range is not
    violated. And [validUntil = now + 30] is rejected as expiring too
    soon, the comparison being strict. *)
Lemma validUntil_zero_and_boundary_rejected :
  let op := Sample.mkOp (Sample.senderN "1") "0x0" 7 "0x" in
  (ValidationManager.validateUserOp Sample.vmUnsafe (Sample.chainAt 1000 0 (Some 0))
     op None = Throw (RpcError NotInTimeRange)
   /\ spec_timeRangeViolated 1000 0 0 = false)
  /\ (ValidationManager.validateUserOp Sample.vmUnsafe
        (Sample.chainAt 1000 0 (Some 1030)) op None = Throw (RpcError NotInTimeRange)
      /\ spec_timeRangeViolated 1000 0 1030 = false).
Proof. intros op. repeat split; vm_compute; reflexivity. Qed.

(** C3, amended. Once the code hashes agree, the simulation has returned
    a result and the signature has not failed, [validateUserOp] throws
    [NotInTimeRange] if and only if [validAfter > now], or [validUntil]
    is present and [validUntil <= now + 30]. An absent [validUntil] is the
    only value without expiry; [validUntil = now + 29] is rejected, and so
    is [validUntil = 0] at any time from 0 on. *)
Theorem validateUserOp_NotInTimeRange
    (vm : ValidationManager.t) (chain : ValidationManager.Chain) (op : UserOperation)
    (prev : option ReferencedCodeHashes) (res : ValidationManager.ValidationResult)
    (codeHashes : ReferencedCodeHashes) (sm : gmap string StorageEntry) :
  ValidationManager.checkCodeHashes chain prev = Ok tt ->
  ValidationManager.simulate vm chain op prev = Ok (res, codeHashes, sm) ->
  ValidationManager.sigFailed (ValidationManager.returnInfo res) = false ->
  let now := ValidationManager.clock chain in
  let ri := ValidationManager.returnInfo res in
  let rejected :=
    ValidationManager.validateUserOp vm chain op prev = Throw (RpcError NotInTimeRange) in
  (rejected <->
     now < ValidationManager.validAfter ri
     \/ exists vu, ValidationManager.validUntil ri = Some vu /\ vu <= now + 30)
  /\ (ValidationManager.validUntil ri = Some (now + 29) -> rejected)
  /\ (0 <= now -> ValidationManager.validUntil ri = Some 0 -> rejected)
  /\ (ValidationManager.validUntil ri = None ->
      ValidationManager.validAfter ri <= now -> ~ rejected).
Proof.
  intros Hcode Hsim Hsig now ri rejected.
  assert (Hiff : rejected <->
     now < ValidationManager.validAfter ri
     \/ exists vu, ValidationManager.validUntil ri = Some vu /\ vu <= now + 30).
  { unfold rejected, ValidationManager.validateUserOp.
    rewrite Hcode, Hsim. cbn [bindR]. rewrite Hsig. cbn [negb requireCond bindR].
    unfold ValidationManager.checkTimeRange, requireCond,
      ValidationManager.VALID_UNTIL_FUTURE_SECONDS.
    fold ri now.
    assert (Hrest : forall r : Result ValidationManager.ValidateUserOpResult,
      r = (check (if match ValidationManager.aggregatorInfo res with
                     | Some _ => false | None => true end
                  then Ok tt else Throw (RpcError UnsupportedSignatureAggregator));
           do extraGas <-
             toNumber (verificationGasLimit op
                       - (ValidationManager.preOpGas ri - preVerificationGas op));
           check (if 2000 <=? extraGas then Ok tt
                  else Throw (RpcError SimulateValidation));
           Ok (ValidationManager.mkValidateUserOpResult res codeHashes sm)) ->
      r <> Throw (RpcError NotInTimeRange)).
    { intros r ->. destruct (ValidationManager.aggregatorInfo res); cbn [bindR];
        [discriminate|].
      destruct (toNumber _) as [g|e] eqn:Etn; cbn [bindR].
      - destruct (2000 <=? g); cbn [bindR]; discriminate.
      - unfold toNumber in Etn. destruct (_ <=? _) in Etn; [discriminate|].
        injection Etn as <-. discriminate. }
    destruct (Z.leb_spec (ValidationManager.validAfter ri) now) as [Ha|Ha];
      cbn [bindR].
    2: { split; [intros _; left; lia | reflexivity]. }
    destruct (ValidationManager.validUntil ri) as [vu|] eqn:Evu.
    - destruct (Z.leb_spec now vu) as [Hb|Hb]; cbn [bindR].
      2: { split; [intros _; right; exists vu; split; [reflexivity|lia]
                  | reflexivity]. }
      destruct (Z.ltb_spec (now + 30) vu) as [Hc|Hc]; cbn [bindR].
      2: { split; [intros _; right; exists vu; split; [reflexivity|lia]
                  | reflexivity]. }
      split.
      + intros H. exfalso. exact (Hrest _ eq_refl H).
      + intros [H|[vu' [[= <-] H]]]; lia.
    - cbn [bindR]. split.
      + intros H. exfalso. exact (Hrest _ eq_refl H).
      + intros [H|[vu' [[=] H]]]; lia. }
  split; [exact Hiff|]. split; [|split].
  - intros E. apply Hiff. right. exists (now + 29). split; [exact E | lia].
  - intros Hnow E. apply Hiff. right. exists 0. split; [exact E | lia].
  - intros E Hafter Hrej. apply Hiff in Hrej.
    destruct Hrej as [H|[vu [E' _]]]; [lia | congruence].
Qed.

Lemma validateUserOp_NotInTimeRange_witness :
  let op := Sample.mkOp (Sample.senderN "1") "0x0" 7 "0x" in
  ValidationManager.validateUserOp Sample.vmUnsafe
    (Sample.chainAt 1000 0 (Some 1029)) op None
  = Throw (RpcError NotInTimeRange).
Proof.
  intros op.
  exact (proj1 (proj2 (validateUserOp_NotInTimeRange Sample.vmUnsafe
                         (Sample.chainAt 1000 0 (Some 1029)) op None
                         (Sample.resultWith 0 (Some 1029) op)
                         (mkReferencedCodeHashes [] EmptyString) ∅
                         eq_refl eq_refl eq_refl))
           eq_refl).
Defined.

Section GasBound.
Import BundleManager.
Variables (bm : t) (vm : ValidationManager.t) (chain : ValidationManager.Chain)
          (ep : EntryPoint) (rm : ReputationManager.t) (knownSenders : list string).

Lemma simulate_simulated op prev res h sm :
  ValidationManager.simulate vm chain op prev = Ok (res, h, sm) ->
  simulated vm chain op = Some res.
Proof.
  unfold simulated, ValidationManager.simulate.
  destruct (negb (ValidationManager.unsafe vm)).
  - destruct (ValidationManager.traceSimulateValidation chain op)
      as [[[r ca] sm0]|e]; cbn [bindR]; [|discriminate].
    destruct r as [r|]; [|discriminate]. intros [= -> _ _]. reflexivity.
  - destruct (ValidationManager.callSimulateValidation chain op) as [r|e];
      cbn [bindR]; [|discriminate].
    intros [= -> _ _]. reflexivity.
Qed.

(** The gas the loop charges for a validated operation is the gas of
    its simulation. *)
Lemma validateUserOp_gasCost op prev vr :
  ValidationManager.validateUserOp vm chain op prev = Ok vr ->
  gasCost vm chain op = userOpGasCost op vr.
Proof.
  unfold ValidationManager.validateUserOp.
  destruct (ValidationManager.checkCodeHashes chain prev); cbn [bindR];
    [|discriminate].
  destruct (ValidationManager.simulate vm chain op prev) as [[[res h] sm]|e] eqn:Esim;
    cbn [bindR]; [|discriminate].
  destruct (requireCond _ InvalidSignature); cbn [bindR]; [|discriminate].
  destruct (ValidationManager.checkTimeRange _ _); cbn [bindR]; [|discriminate].
  destruct (requireCond _ UnsupportedSignatureAggregator); cbn [bindR];
    [|discriminate].
  destruct (toNumber _); cbn [bindR]; [|discriminate].
  destruct (requireCond _ SimulateValidation); cbn [bindR]; [|discriminate].
  intros [= <-]. unfold gasCost, userOpGasCost.
  rewrite (simulate_simulated _ _ _ _ _ Esim). reflexivity.
Qed.

Lemma screen_candidate entry st mm vr :
  screen vm chain rm knownSenders entry st mm = Candidate vr ->
  ValidationManager.validateUserOp vm chain (MempoolManager.userOp entry)
    (Some (MempoolManager.referencedContracts entry)) = Ok vr.
Proof.
  unfold screen.
  repeat match goal with
         | |- (if ?c then _ else _) = _ -> _ => destruct c; [discriminate|]
         end.
  destruct (ValidationManager.validateUserOp _ _ _ _) as [vr'|e]; [|discriminate].
  destruct (storageConflict _ _ _); [discriminate|].
  intros [= ->]. reflexivity.
Qed.

Lemma sumGas_snoc ops op :
  sumGas vm chain (ops ++ [op]) = sumGas vm chain ops + gasCost vm chain op.
Proof.
  unfold sumGas. induction ops as [|x ops IH]; simpl; [lia|].
  rewrite IH. lia.
Qed.

(** [accept] goes on with the loop, and either leaves the bundle and the
    total as they are or appends the operation and sets the new total. *)
Lemma accept_shape op pm f vr newTotalGas st flow st' :
  accept bm ep op pm f vr newTotalGas st = (flow, st') ->
  flow = Continue
  /\ ((bundle st' = bundle st /\ totalGas st' = totalGas st)
      \/ (bundle st' = bundle st ++ [op] /\ totalGas st' = newTotalGas)).
Proof.
  unfold accept. destruct pm as [p|].
  - destruct (_ <? _).
    + intros [= <- <-]. split; [reflexivity|]. left. split; reflexivity.
    + intros [= <- <-]. split; [reflexivity|]. right. split; reflexivity.
  - intros [= <- <-]. split; [reflexivity|]. right. split; reflexivity.
Qed.

Lemma iteration_gasInvariant entry st mm flow st' mm' :
  gasInvariant bm vm chain st ->
  iteration bm vm chain ep rm knownSenders entry st mm = (flow, st', mm') ->
  gasInvariant bm vm chain st'.
Proof.
  intros [Hsum Hle]. unfold iteration.
  destruct (screen vm chain rm knownSenders entry st mm) as [mm1|vr] eqn:Escr.
  - intros [= _ <- _]. split; assumption.
  - destruct (Z.ltb_spec (maxBundleGas bm)
                (totalGas st + userOpGasCost (MempoolManager.userOp entry) vr))
      as [Hover|Hfits].
    + intros [= _ <- _]. split; assumption.
    + destruct (accept _ _ _ _ _ _ _ _) as [fl st1] eqn:Eadm.
      intros [= _ <- _].
      apply accept_shape in Eadm. destruct Eadm as [_ [[Hb Ht]|[Hb Ht]]].
      * unfold gasInvariant. rewrite Hb, Ht. split; assumption.
      * unfold gasInvariant. rewrite Hb, Ht, sumGas_snoc.
        rewrite (validateUserOp_gasCost _ _ _ (screen_candidate _ _ _ _ Escr)).
        split; lia.
Qed.

Lemma mainLoop_gasInvariant entries st mm flow st' mm' :
  gasInvariant bm vm chain st ->
  mainLoop bm vm chain ep rm knownSenders entries st mm = (flow, st', mm') ->
  gasInvariant bm vm chain st'.
Proof.
  revert st mm. induction entries as [|entry rest IH]; intros st mm Hinv; simpl.
  - intros [= _ <- _]. exact Hinv.
  - destruct (iteration bm vm chain ep rm knownSenders entry st mm)
      as [[fl st1] mm1] eqn:Eit.
    pose proof (iteration_gasInvariant _ _ _ _ _ _ Hinv Eit) as Hinv1.
    destruct fl.
    + apply IH. exact Hinv1.
    + intros [= _ <- _]. exact Hinv1.
Qed.

(** The loop over a list that continues through a prefix goes on with
    the rest from the state the prefix left. *)
Lemma mainLoop_app pre rest st mm st1 mm1 :
  mainLoop bm vm chain ep rm knownSenders pre st mm = (Continue, st1, mm1) ->
  mainLoop bm vm chain ep rm knownSenders (pre ++ rest) st mm
  = mainLoop bm vm chain ep rm knownSenders rest st1 mm1.
Proof.
  revert st mm. induction pre as [|entry pre IH]; intros st mm; simpl.
  - intros [= <- <-]. reflexivity.
  - destruct (iteration bm vm chain ep rm knownSenders entry st mm)
      as [[fl st2] mm2].
    destruct fl; [apply IH | discriminate].
Qed.

(** An entry that passes the tests and does not fit ends the loop, and
    nothing has changed. *)
Lemma iteration_break entry st mm vr :
  screen vm chain rm knownSenders entry st mm = Candidate vr ->
  maxBundleGas bm < totalGas st + userOpGasCost (MempoolManager.userOp entry) vr ->
  iteration bm vm chain ep rm knownSenders entry st mm = (Break, st, mm).
Proof.
  intros Escr Hover. unfold iteration. rewrite Escr.
  destruct (Z.ltb_spec (maxBundleGas bm)
              (totalGas st + userOpGasCost (MempoolManager.userOp entry) vr));
    [reflexivity | lia].
Qed.
End GasBound.

(** C6. With a budget [maxBundleGas] that is not negative, the gas
    [preOpGas + callGasLimit] summed over the operations of a bundle that
    [createBundle] returns is at most [maxBundleGas]. And when the loop
    has gone through the entries before some entry without stopping, and
    this entry passes the tests and would take the total over the budget,
    the loop stops there: [createBundle] returns the bundle built so far. *)
Theorem createBundle_within_maxBundleGas
    (bm : BundleManager.t) (vm : ValidationManager.t)
    (chain : ValidationManager.Chain) (ep : BundleManager.EntryPoint)
    (rm : ReputationManager.t) (mm : MempoolManager.t) :
  0 <= BundleManager.maxBundleGas bm ->
  (forall b sm mm',
     BundleManager.createBundle bm vm chain ep rm mm = (Ok (b, sm), mm') ->
     sumGas vm chain b <= BundleManager.maxBundleGas bm)
  /\ (forall pre entry post st1 mm1 vr,
        MempoolManager.getSortedForInclusion mm = Ok (pre ++ entry :: post) ->
        BundleManager.mainLoop bm vm chain ep rm (MempoolManager.getKnownSenders mm)
          pre BundleManager.initLocals mm = (BundleManager.Continue, st1, mm1) ->
        BundleManager.screen vm chain rm (MempoolManager.getKnownSenders mm)
          entry st1 mm1 = BundleManager.Candidate vr ->
        BundleManager.maxBundleGas bm
        < BundleManager.totalGas st1
          + BundleManager.userOpGasCost (MempoolManager.userOp entry) vr ->
        BundleManager.createBundle bm vm chain ep rm mm
        = (Ok (BundleManager.bundle st1, BundleManager.storageMap st1), mm1)).
Proof.
  intros Hmax. split.
  - intros b sm mm'. unfold BundleManager.createBundle.
    destruct (MempoolManager.getSortedForInclusion mm) as [entries|e]; [|discriminate].
    destruct (BundleManager.mainLoop _ _ _ _ _ _ _ _ _) as [[fl st] mm1] eqn:Eloop.
    intros [= <- _ _].
    assert (Hinit : gasInvariant bm vm chain BundleManager.initLocals)
      by (split; simpl; [reflexivity | exact Hmax]).
    destruct (mainLoop_gasInvariant _ _ _ _ _ _ _ _ _ _ _ _ Hinit Eloop) as [Hsum Hle].
    rewrite <- Hsum. exact Hle.
  - intros pre entry post st1 mm1 vr Hsorted Hpre Hscr Hover.
    unfold BundleManager.createBundle. rewrite Hsorted.
    rewrite (mainLoop_app _ _ _ _ _ _ _ _ _ _ _ _ Hpre). simpl.
    rewrite (iteration_break _ _ _ _ _ _ _ _ _ _ Hscr Hover). reflexivity.
Qed.

Lemma createBundle_within_maxBundleGas_witness :
  sumGas Sample.vmUnsafe Sample.chain0 (take 2 Sample.sixOps) <= 200000.
Proof.
  pose (out := BundleManager.createBundle (Sample.bmWith 200000) Sample.vmUnsafe
                 Sample.chain0 Sample.ep0 Sample.afterSix.2 Sample.afterSix.1).
  apply (proj1 (createBundle_within_maxBundleGas (Sample.bmWith 200000)
                  Sample.vmUnsafe Sample.chain0 Sample.ep0
                  Sample.afterSix.2 Sample.afterSix.1 ltac:(simpl; lia))
           (take 2 Sample.sixOps)
           (match out.1 with Ok (_, sm) => sm | Throw _ => ∅ end)
           out.2).
  vm_compute. reflexivity.
Defined.

(** ** Further properties of the reputation manager *)

Lemma lower_ascii_idemp c : lower_ascii (lower_ascii c) = lower_ascii c.
Proof. destruct c as [[] [] [] [] [] [] [] []]; vm_compute; reflexivity. Qed.

Lemma toLowerCase_idemp s : toLowerCase (toLowerCase s) = toLowerCase s.
Proof.
  induction s as [|c s IH]; simpl; [reflexivity|].
  rewrite lower_ascii_idemp, IH. reflexivity.
Qed.

Section Statuses.
Import ReputationManager.

(** X1. Reputation and mempool-count lookups do not depend on the case
    of the address they are given. *)
Theorem lookups_ignore_case (a : string) (rm : ReputationManager.t)
    (mm : MempoolManager.t) :
  getStatus (Some (toLowerCase a)) rm = getStatus (Some a) rm
  /\ calculateMaxAllowedMempoolOpsUnstaked (toLowerCase a) rm
     = calculateMaxAllowedMempoolOpsUnstaked a rm
  /\ MempoolManager.entryCount (toLowerCase a) mm = MempoolManager.entryCount a mm.
Proof.
  unfold getStatus, calculateMaxAllowedMempoolOpsUnstaked, MempoolManager.entryCount.
  rewrite !toLowerCase_idemp. repeat split; reflexivity.
Qed.

(** X2. The lists override the counters: an address whose lower-case
    form is on the white list is OK whatever its entry; one that is on
    the black list and not on the white list is BANNED; one that is on
    neither list and has no entry is OK. *)
Theorem getStatus_lists (a : string) (rm : ReputationManager.t) :
  (toLowerCase a ∈ whitelist rm -> getStatus (Some a) rm = OK)
  /\ (toLowerCase a ∉ whitelist rm -> toLowerCase a ∈ blackList rm ->
      getStatus (Some a) rm = BANNED)
  /\ (toLowerCase a ∉ whitelist rm -> toLowerCase a ∉ blackList rm ->
      entries rm !! toLowerCase a = None -> getStatus (Some a) rm = OK).
Proof.
  unfold getStatus. repeat split.
  - intros H. rewrite bool_decide_eq_true_2 by exact H. reflexivity.
  - intros Hw Hb. rewrite bool_decide_eq_false_2 by exact Hw.
    rewrite bool_decide_eq_true_2 by exact Hb. reflexivity.
  - intros Hw Hb He. rewrite bool_decide_eq_false_2 by exact Hw.
    rewrite bool_decide_eq_false_2 by exact Hb. rewrite He. reflexivity.
Qed.

Lemma getStatus_lists_witness :
  getStatus (Some Sample.paymasterP) Sample.rmBlack = BANNED.
Proof.
  apply (proj1 (proj2 (getStatus_lists Sample.paymasterP Sample.rmBlack))).
  - compute_done.
  - compute_done.
Defined.
End Statuses.

Section Punishment.
Import ReputationManager.

(** The status of an address that is on no list, from the counters of
    its entry. *)
Lemma getStatus_entry a rm e :
  toLowerCase a ∉ whitelist rm -> toLowerCase a ∉ blackList rm ->
  entries rm !! toLowerCase a = Some e ->
  getStatus (Some a) rm =
  let m := opsSeen e / minInclusionDenominator (params rm) in
  if m <=? opsIncluded e + throttlingSlack (params rm) then OK
  else if m <=? opsIncluded e + banSlack (params rm) then THROTTLED
  else BANNED.
Proof.
  intros Hw Hb He. unfold getStatus.
  rewrite bool_decide_eq_false_2 by exact Hw.
  rewrite bool_decide_eq_false_2 by exact Hb. rewrite He. reflexivity.
Qed.

(** X3. [crashedHandleOps] bans: with parameters whose two slacks are
    below [10000 / minInclusionDenominator] (both profiles of the code
    are such), an address that is on no list and whose [opsSeen] was not
    negative has the status BANNED after the call. *)
Theorem crashedHandleOps_bans (a : string) (rm : ReputationManager.t) :
  0 < minInclusionDenominator (params rm) ->
  throttlingSlack (params rm) < 10000 / minInclusionDenominator (params rm) ->
  banSlack (params rm) < 10000 / minInclusionDenominator (params rm) ->
  toLowerCase a ∉ whitelist rm -> toLowerCase a ∉ blackList rm ->
  (forall e, entries rm !! toLowerCase a = Some e -> 0 <= opsSeen e) ->
  getStatus (Some a) (crashedHandleOps (Some a) rm) = BANNED.
Proof.
  intros Hd Hthr Hban Hw Hb Hseen.
  pose proof (crashedHandleOps_lookup a rm) as Hl.
  assert (Hw' : toLowerCase a ∉ whitelist (crashedHandleOps (Some a) rm)).
  { unfold crashedHandleOps, _getOrCreate, store.
    destruct (entries rm !! toLowerCase a); exact Hw. }
  assert (Hb' : toLowerCase a ∉ blackList (crashedHandleOps (Some a) rm)).
  { unfold crashedHandleOps, _getOrCreate, store.
    destruct (entries rm !! toLowerCase a); exact Hb. }
  assert (Hp : params (crashedHandleOps (Some a) rm) = params rm).
  { unfold crashedHandleOps, _getOrCreate, store.
    destruct (entries rm !! toLowerCase a); reflexivity. }
  rewrite (getStatus_entry _ _ _ Hw' Hb' Hl), Hp. cbv zeta.
  set (d := minInclusionDenominator (params rm)) in *.
  assert (Hm : forall s, 0 <= s -> 10000 / d <= (s + 10000) / d).
  { intros s Hs. apply Z.div_le_mono; lia. }
  destruct (entries rm !! toLowerCase a) as [e|] eqn:E; simpl.
  - specialize (Hm (opsSeen e) (Hseen e eq_refl)).
    repeat match goal with
           | |- context [?x <=? ?y] => destruct (Z.leb_spec x y)
           end; try reflexivity; lia.
  - change (0 + 10000) with 10000.
    repeat match goal with
           | |- context [?x <=? ?y] => destruct (Z.leb_spec x y)
           end; try reflexivity; lia.
Qed.

Lemma crashedHandleOps_bans_witness :
  getStatus (Some Sample.paymasterP)
    (crashedHandleOps (Some Sample.paymasterP) (Sample.rmOf Sample.paymasterP 6 3))
  = BANNED.
Proof.
  apply (crashedHandleOps_bans Sample.paymasterP (Sample.rmOf Sample.paymasterP 6 3)).
  - reflexivity.
  - reflexivity.
  - reflexivity.
  - compute_done.
  - compute_done.
  - intros e He. vm_compute in He. injection He as <-. vm_compute. discriminate.
Defined.

(** X4. Seeing never helps, inclusion never hurts: with a positive
    denominator, [updateSeenStatus] does not improve the status of any
    address; and with a throttling slack that is not negative,
    [updateIncludedStatus] does not worsen the status of any address. *)
Theorem status_monotone (a b : string) (rm : ReputationManager.t) :
  (0 < minInclusionDenominator (params rm) ->
   statusRank (getStatus (Some b) rm)
   <= statusRank (getStatus (Some b) (updateSeenStatus (Some a) rm)))
  /\ (0 <= throttlingSlack (params rm) ->
      statusRank (getStatus (Some b) (updateIncludedStatus a rm))
      <= statusRank (getStatus (Some b) rm)).
Proof.
  split.
  - intros Hd. unfold getStatus, updateSeenStatus, _getOrCreate, store.
    destruct (entries rm !! toLowerCase a) as [e|] eqn:E; simpl;
      destruct (bool_decide (toLowerCase b ∈ whitelist rm)); simpl; try lia;
      destruct (bool_decide (toLowerCase b ∈ blackList rm)); simpl; try lia;
      rewrite ?insert_insert_eq, lookup_insert; case_decide as Hk; simpl.
    + rewrite <- Hk, E.
      assert (opsSeen e / minInclusionDenominator (params rm)
              <= (opsSeen e + 1) / minInclusionDenominator (params rm))
        by (apply Z.div_le_mono; lia).
      repeat match goal with
             | |- context [?x <=? ?y] => destruct (Z.leb_spec x y)
             end; simpl; lia.
    + lia.
    + rewrite <- Hk, E. simpl.
      repeat match goal with
             | |- context [?x <=? ?y] => destruct (Z.leb_spec x y)
             end; simpl; lia.
    + lia.
  - intros Hthr. unfold getStatus, updateIncludedStatus, _getOrCreate, store.
    destruct (entries rm !! toLowerCase a) as [e|] eqn:E; simpl;
      destruct (bool_decide (toLowerCase b ∈ whitelist rm)); simpl; try lia;
      destruct (bool_decide (toLowerCase b ∈ blackList rm)); simpl; try lia;
      rewrite ?insert_insert_eq, lookup_insert; case_decide as Hk; simpl.
    + rewrite <- Hk, E.
      repeat match goal with
             | |- context [?x <=? ?y] => destruct (Z.leb_spec x y)
             end; simpl; lia.
    + lia.
    + rewrite <- Hk, E. simpl.
      assert (0 / minInclusionDenominator (params rm) = 0) by apply Zdiv_0_l.
      repeat match goal with
             | |- context [?x <=? ?y] => destruct (Z.leb_spec x y)
             end; simpl; lia.
    + lia.
Qed.
End Punishment.

Lemma status_monotone_witness :
  statusRank (ReputationManager.getStatus (Some Sample.paymasterP) Sample.rm0)
  <= statusRank (ReputationManager.getStatus (Some Sample.paymasterP)
                   (ReputationManager.updateSeenStatus (Some Sample.paymasterP)
                      Sample.rm0)).
Proof.
  exact (proj1 (status_monotone Sample.paymasterP Sample.paymasterP Sample.rm0)
           eq_refl).
Defined.

Section Forgetting.
Import ReputationManager.

Lemma hourlyCron_entry_None e :
  hourlyCron_entry e = None <-> 0 <= opsSeen e <= 1.
Proof.
  unfold hourlyCron_entry.
  destruct (Z.eqb_spec (opsSeen e * 23 / 24) 0) as [Hz|Hnz].
  - rewrite Hz. simpl. split; [intros _|reflexivity].
    assert (0 <= opsSeen e * 23 < 24).
    { apply Z.div_small_iff in Hz; lia. }
    lia.
  - rewrite andb_false_r. split; [discriminate|]. intros H. exfalso. apply Hnz.
    apply Z.div_small. lia.
Qed.

(** X5. [hourlyCron] deletes exactly the entries whose [opsSeen] is 0 or
    1, whatever their [opsIncluded]: a key is absent after the call if
    and only if it was absent before or its entry had such an [opsSeen]. *)
Theorem hourlyCron_deletes_iff (k : string) (rm : ReputationManager.t) :
  entries (hourlyCron rm) !! k = None <->
  entries rm !! k = None
  \/ exists e, entries rm !! k = Some e /\ 0 <= opsSeen e <= 1.
Proof.
  rewrite hourlyCron_lookup.
  destruct (entries rm !! k) as [e|]; simpl.
  - rewrite hourlyCron_entry_None. split.
    + intros H. right. exists e. split; [reflexivity | exact H].
    + intros [H|[e' [[= <-] H]]]; [discriminate | exact H].
  - split; [intros _; left; reflexivity | reflexivity].
Qed.

Lemma hourlyCronTimes_forgets n : forall rm k,
  match entries rm !! k with
  | Some e => 0 <= opsSeen e < Z.of_nat n
  | None => True
  end ->
  entries (hourlyCronTimes n rm) !! k = None.
Proof.
  unfold hourlyCronTimes. induction n as [|n IH]; intros rm k H.
  - simpl. destruct (entries rm !! k); [lia | reflexivity].
  - rewrite Nat.iter_succ_r. apply IH. rewrite hourlyCron_lookup.
    destruct (entries rm !! k) as [e|]; simpl; [|exact I].
    destruct (hourlyCron_entry e) as [e'|] eqn:E; [|exact I].
    destruct (hourlyCron_entry_kept _ _ E) as [Hs _]. rewrite Hs.
    assert (~ (0 <= opsSeen e <= 1)).
    { intros Habs. apply hourlyCron_entry_None in Habs. congruence. }
    split.
    + apply Z.div_pos; lia.
    + apply Z.div_lt_upper_bound; lia.
Qed.

(** X6. Ageing forgets: an entry whose [opsSeen] is [s >= 0] is gone after
    [s + 1] runs of [hourlyCron] during which it is not updated. *)
Theorem hourlyCron_eventually_forgets (k : string) (e : ReputationEntry)
    (rm : ReputationManager.t) :
  entries rm !! k = Some e ->
  0 <= opsSeen e ->
  entries (hourlyCronTimes (S (Z.to_nat (opsSeen e))) rm) !! k = None.
Proof.
  intros He Hs. apply hourlyCronTimes_forgets. rewrite He. lia.
Qed.

Lemma hourlyCron_eventually_forgets_witness :
  entries (hourlyCronTimes 7 (Sample.rmOf Sample.paymasterP 6 3))
    !! Sample.paymasterP = None.
Proof.
  exact (hourlyCron_eventually_forgets Sample.paymasterP
           (mkReputationEntry Sample.paymasterP 6 3 None)
           (Sample.rmOf Sample.paymasterP 6 3) eq_refl ltac:(simpl; lia)).
Defined.

(** X7. [checkStake] passes exactly for an address that is on the white
    list as it is written, or that is not banned and has the minimal
    stake and the minimal unstake delay; it fails with the reputation
    error for a banned address and with the stake error otherwise. *)
Theorem checkStake_iff (info : StakeInfo) (rm : ReputationManager.t) :
  let staked :=
    minStake rm <= stake info /\ minUnstakeDelay rm <= unstakeDelaySec info in
  let banned := getStatus (Some (addr info)) rm = BANNED in
  (checkStake (Some info) rm = Ok tt <->
     (addr info ∈ whitelist rm) \/ (~ banned /\ staked))
  /\ (checkStake (Some info) rm = Throw (RpcError Reputation) <->
        (addr info ∉ whitelist rm) /\ banned)
  /\ (checkStake (Some info) rm = Throw (RpcError InsufficientStake) <->
        (addr info ∉ whitelist rm) /\ ~ banned /\ ~ staked).
Proof.
  cbv zeta. unfold checkStake, isWhitelisted, requireCond.
  destruct (bool_decide_reflect (addr info ∈ whitelist rm)) as [Hw|Hw].
  { intuition discriminate. }
  destruct (getStatus (Some (addr info)) rm) eqn:Est;
    cbn [ReputationStatus_eqb negb bindR];
    try (intuition (discriminate || congruence)).
  all: destruct (Z.leb_spec (minStake rm) (stake info)); cbn [bindR];
    [destruct (Z.leb_spec (minUnstakeDelay rm) (unstakeDelaySec info))|];
    intuition (discriminate || lia).
Qed.
End Forgetting.

Section DumpAndSet.
Import ReputationManager.

(** The status of any address is the same in two managers that differ
    only by a change of the entries that keeps the two counters. *)
Lemma getStatus_fmap (f : ReputationEntry -> ReputationEntry) a rm :
  (forall e, opsSeen (f e) = opsSeen e /\ opsIncluded (f e) = opsIncluded e) ->
  getStatus a (set_entries (f <$> entries rm) rm) = getStatus a rm.
Proof.
  intros Hf. destruct a as [a|]; [|reflexivity]. unfold getStatus. simpl.
  rewrite lookup_fmap. destruct (entries rm !! toLowerCase a) as [e|]; simpl;
    [|reflexivity].
  destruct (Hf e) as [-> ->]. reflexivity.
Qed.

Lemma foldl_setEntry_fields l rm :
  params (foldl setEntry rm l) = params rm
  /\ minStake (foldl setEntry rm l) = minStake rm
  /\ minUnstakeDelay (foldl setEntry rm l) = minUnstakeDelay rm
  /\ blackList (foldl setEntry rm l) = blackList rm
  /\ whitelist (foldl setEntry rm l) = whitelist rm.
Proof.
  revert rm. induction l as [|x l IH]; intros rm; simpl; [tauto|].
  destruct (IH (setEntry rm x)) as (-> & -> & -> & -> & ->). tauto.
Qed.

Lemma foldl_setEntry_lookup (l : list (string * ReputationEntry)) : forall rm j,
  NoDup l.*1 ->
  (forall k e, (k, e) ∈ l -> toLowerCase (address e) = k) ->
  entries (foldl setEntry rm l.*2) !! j =
  match (list_to_map l : gmap string ReputationEntry) !! j with
  | Some e => Some (ReputationManager.clearStatus e)
  | None => entries rm !! j
  end.
Proof.
  induction l as [|[k e] l IH]; intros rm j Hnd Hkey; simpl.
  - rewrite lookup_empty. reflexivity.
  - apply NoDup_cons in Hnd as [Hk Hnd].
    rewrite IH; [|exact Hnd|intros k' e' H'; apply Hkey; right; exact H'].
    assert (Hke : toLowerCase (address e) = k) by (apply Hkey; left).
    unfold setEntry at 1. simpl. rewrite Hke.
    rewrite !lookup_insert. case_decide as Hj.
    + subst j. rewrite (not_elem_of_list_to_map_1 _ _ Hk). reflexivity.
    + reflexivity.
Qed.

(** [dump] does not see a change of the entries that keeps the address
    and the two counters. *)
Lemma dump_fmap (f : ReputationEntry -> ReputationEntry) rm :
  (forall e, address (f e) = address e
             /\ opsSeen (f e) = opsSeen e /\ opsIncluded (f e) = opsIncluded e) ->
  dump (set_entries (f <$> entries rm) rm) = dump rm.
Proof.
  intros Hf.
  assert (E : set_entries
                (withStatus (set_entries (f <$> entries rm) rm) <$> (f <$> entries rm))
                rm
              = set_entries (withStatus rm <$> entries rm) rm).
  { f_equal. rewrite <- map_fmap_compose. apply map_fmap_ext. intros k e _.
    unfold compose, withStatus. destruct (Hf e) as (-> & -> & ->).
    rewrite getStatus_fmap; [reflexivity|]. intros e'. apply Hf. }
  unfold dump. cbv zeta.
  change (set_entries
            (withStatus (set_entries (f <$> entries rm) rm)
             <$> entries (set_entries (f <$> entries rm) rm))
            (set_entries (f <$> entries rm) rm))
    with (set_entries
            (withStatus (set_entries (f <$> entries rm) rm) <$> (f <$> entries rm))
            rm).
  rewrite E. reflexivity.
Qed.

Lemma foldl_setEntry_Permutation (p : list ReputationEntry) rm :
  wellKeyed rm ->
  p ≡ₚ (map_to_list (entries rm)).*2 ->
  entries (foldl setEntry rm p) = ReputationManager.clearStatus <$> entries rm.
Proof.
  intros Hwk Hp.
  pose (keyed := fun e : ReputationEntry => (toLowerCase (address e), e)).
  assert (Hl : keyed <$> (map_to_list (entries rm)).*2 = map_to_list (entries rm)).
  { rewrite <- list_fmap_compose.
    rewrite <- (list_fmap_id (map_to_list (entries rm))) at 2.
    apply list_fmap_ext. intros i [k e] Hin. apply list_elem_of_lookup_2 in Hin.
    apply elem_of_map_to_list in Hin. unfold compose, keyed. simpl.
    rewrite (Hwk _ _ Hin). reflexivity. }
  assert (Hperm : keyed <$> p ≡ₚ map_to_list (entries rm)).
  { rewrite <- Hl. apply fmap_Permutation. exact Hp. }
  assert (Hsnd : (keyed <$> p).*2 = p).
  { rewrite <- list_fmap_compose. apply list_fmap_id. }
  assert (Hnd : NoDup (keyed <$> p).*1).
  { rewrite Hperm. apply NoDup_fst_map_to_list. }
  apply map_eq. intros j. rewrite <- Hsnd at 1.
  rewrite foldl_setEntry_lookup.
  - rewrite (list_to_map_proper _ _ Hnd Hperm), list_to_map_to_list, lookup_fmap.
    destruct (entries rm !! j); reflexivity.
  - exact Hnd.
  - intros k' e' Hin. apply list_elem_of_fmap in Hin as (e0 & [= -> ->] & _).
    reflexivity.
Qed.

(** X8. The dump round trip: in a manager whose entries are stored under
    the lower-case form of their address, [setReputation] applied to the
    entries that [dump] returned, listed in any order (the code lists
    them in the order of insertion, the model in the order of the keys),
    leaves the state as [dump] left it and returns the same entries; and
    a further [dump] changes nothing either. *)
Theorem setReputation_of_dump (rm : ReputationManager.t)
    (p : list ReputationEntry) :
  wellKeyed rm ->
  p ≡ₚ (dump rm).1 ->
  (setReputation p (dump rm).2).2 = (dump rm).2
  /\ (setReputation p (dump rm).2).1 ≡ₚ p
  /\ (dump (dump rm).2).2 = (dump rm).2
  /\ (dump (dump rm).2).1 ≡ₚ (dump rm).1.
Proof.
  intros Hwk Hp.
  assert (Hidem : dump (dump rm).2 = dump rm).
  { change ((dump rm).2) with (set_entries (withStatus rm <$> entries rm) rm).
    apply dump_fmap. intros e. repeat split; reflexivity. }
  set (rm1 := (dump rm).2) in *.
  assert (Hwk1 : wellKeyed rm1).
  { intros k e Hin.
    change (entries rm1) with (withStatus rm <$> entries rm) in Hin.
    rewrite lookup_fmap in Hin.
    destruct (entries rm !! k) as [e0|] eqn:E0; [|discriminate].
    injection Hin as <-. simpl. apply (Hwk _ _ E0). }
  assert (Hfold : foldl setEntry rm1 p
                  = set_entries (ReputationManager.clearStatus <$> entries rm1) rm1).
  { destruct (foldl_setEntry_fields p rm1) as (Hpa & Hs & Hu & Hb & Hw).
    pose proof (foldl_setEntry_Permutation p rm1 Hwk1 Hp) as He.
    destruct (foldl setEntry rm1 p) as [pa s u es b w].
    simpl in *. subst. reflexivity. }
  assert (Hset : setReputation p rm1 = dump rm).
  { unfold setReputation. rewrite Hfold.
    rewrite dump_fmap; [exact Hidem|]. intros e. repeat split; reflexivity. }
  rewrite Hset, Hidem. repeat split; try reflexivity. symmetry. exact Hp.
Qed.

Lemma setReputation_of_dump_witness :
  let rm := ReputationManager.updateSeenStatus (Some Sample.factoryF)
              (Sample.rmOf Sample.paymasterP 6 3) in
  let p := reverse (dump rm).1 in
  length p = 2%nat /\ p <> (dump rm).1
  /\ (setReputation p (dump rm).2).2 = (dump rm).2
  /\ (setReputation p (dump rm).2).1 ≡ₚ p
  /\ (dump (dump rm).2).2 = (dump rm).2
  /\ (dump (dump rm).2).1 ≡ₚ (dump rm).1.
Proof.
  intros rm p.
  split; [vm_compute; reflexivity|]. split; [vm_compute; discriminate|].
  apply (setReputation_of_dump rm p).
  - change (map_Forall (fun k e => toLowerCase (address e) = k) (entries rm)).
    apply (bool_decide_unpack _). vm_compute. exact I.
  - apply reverse_Permutation.
Defined.
End DumpAndSet.

(** ** Further properties of the mempool manager *)

Section Keys.
Import MempoolManager.

(** What a search that succeeds has found: the first element, from the
    start of the list, that satisfies the test. *)
Lemma findFrom_found {A} (p : A -> bool) (l : list A) : forall i j,
  findFrom p l i = j -> j <> -1 -> 0 <= i ->
  exists x, l !! Z.to_nat (j - i) = Some x /\ p x = true /\ i <= j
            /\ forall k y, (k < Z.to_nat (j - i))%nat -> l !! k = Some y -> p y = false.
Proof.
  induction l as [|x l IH]; intros i j Hf Hj Hi; simpl in Hf; [congruence|].
  destruct (p x) eqn:Px.
  - subst j. exists x. replace (i - i) with 0 by lia. simpl.
    repeat split; [exact Px | lia | intros k y Hk; lia].
  - destruct (IH (i + 1) j Hf Hj ltac:(lia)) as (y & Hy & Py & Hle & Hbefore).
    exists y. replace (Z.to_nat (j - i)) with (S (Z.to_nat (j - (i + 1)))) by lia.
    simpl. repeat split; [exact Hy | exact Py | lia |].
    intros [|k] z Hk Hz; simpl in Hz.
    + injection Hz as <-. exact Px.
    + apply (Hbefore k z); [lia | exact Hz].
Qed.

Lemma findFrom_missing {A} (p : A -> bool) (l : list A) : forall i,
  findFrom p l i = -1 -> 0 <= i -> forall x, x ∈ l -> p x = false.
Proof.
  induction l as [|x l IH]; intros i Hf Hi y Hy; [inversion Hy|].
  simpl in Hf. destruct (p x) eqn:Px; [lia|].
  apply elem_of_cons in Hy as [->|Hy]; [exact Px | exact (IH _ Hf ltac:(lia) _ Hy)].
Qed.

Lemma sameKey_test e s n :
  (String.eqb (sender (userOp e)) s && String.eqb (nonce (userOp e)) n) = true
  <-> keyOf e = (s, n).
Proof.
  unfold keyOf. rewrite andb_true_iff, !String.eqb_eq.
  split; [intros [-> ->]; reflexivity | intros [= -> ->]; split; reflexivity].
Qed.

(** The three ways [addUserOp] leaves the list of entries: as it was
    (and then it threw, or replaced an entry by itself); with the entry
    of the same sender and nonce replaced, where it stood; with the new
    entry at the end, when no entry had its sender and nonce. *)
Lemma addUserOp_mempool op h pf refs sInfo pInfo fInfo aInfo mm rm :
  let out := addUserOp op h pf refs sInfo pInfo fInfo aInfo mm rm in
  let entry := mkMempoolEntry op h pf refs (addr <$> aInfo) in
  let index := _findBySenderNonce (sender op) (nonce op) mm in
  (exists e, out.1.1 = Throw e /\ mempool out.1.2 = mempool mm /\ out.2 = rm)
  \/ (index <> -1 /\ mempool out.1.2 = <[Z.to_nat index := entry]> (mempool mm))
  \/ (index = -1 /\ mempool out.1.2 = mempool mm ++ [entry]).
Proof.
  cbv zeta. unfold addUserOp.
  destruct (Z.eqb_spec (_findBySenderNonce (sender op) (nonce op) mm) (-1)) as [Hi|Hi];
    cbn [negb].
  - destruct (checkReputation _ _ _ _ _ _) as [[]|e] eqn:E1.
    2: { left. exists e. cbn [fst snd].
         split; [reflexivity|]. split; [|reflexivity].
         destruct (getAddr (Some (paymasterAndData op)));
           destruct (getAddr (Some (initCode op)));
           rewrite ?incrementEntryCount_mempool; reflexivity. }
    destruct (checkMultipleRolesViolation _ _) as [[]|e] eqn:E2.
    2: { left. exists e. cbn [fst snd].
         split; [reflexivity|]. split; [|reflexivity].
         destruct (getAddr (Some (paymasterAndData op)));
           destruct (getAddr (Some (initCode op)));
           rewrite ?incrementEntryCount_mempool; reflexivity. }
    destruct (updateSeenStatus _ _ _ _) as [r rm']. right. right.
    split; [exact Hi|]. cbn [fst snd mempool].
    destruct (getAddr (Some (paymasterAndData op)));
      destruct (getAddr (Some (initCode op)));
      rewrite ?incrementEntryCount_mempool; reflexivity.
  - destruct (mempool mm !! _) as [old|].
    2: { left. exists JsError. repeat split; reflexivity. }
    destruct (checkReplaceUserOp old _) as [[]|e].
    2: { left. exists e. repeat split; reflexivity. }
    destruct (updateSeenStatus _ _ _ _) as [r rm']. right. left.
    split; [exact Hi | reflexivity].
Qed.

Lemma addUserOp_uniqueKeys op h pf refs sInfo pInfo fInfo aInfo mm rm :
  uniqueKeys mm ->
  uniqueKeys (addUserOp op h pf refs sInfo pInfo fInfo aInfo mm rm).1.2.
Proof.
  intros Hu. unfold uniqueKeys in *.
  destruct (addUserOp_mempool op h pf refs sInfo pInfo fInfo aInfo mm rm)
    as [(e & _ & -> & _)|[[Hi ->]|[Hi ->]]]; [exact Hu| |].
  - unfold _findBySenderNonce in Hi |- *.
    destruct (findFrom_found _ _ _ _ eq_refl Hi ltac:(lia)) as (old & Hold & Pold & _).
    rewrite Z.sub_0_r in Hold. apply sameKey_test in Pold.
    rewrite list_fmap_insert.
    rewrite list_insert_id; [exact Hu|].
    rewrite list_lookup_fmap, Hold. simpl. rewrite Pold. reflexivity.
  - rewrite fmap_app. apply NoDup_app. split; [exact Hu|]. split.
    + intros k Hk Hin. apply list_elem_of_singleton in Hin. subst k.
      apply list_elem_of_fmap in Hk as (x & Hx & Hxin).
      pose proof (findFrom_missing _ _ _ Hi ltac:(lia) x Hxin) as Hp.
      cbv beta in Hp.
      assert (keyOf x = (sender op, nonce op)) as Hk by (rewrite <- Hx; reflexivity).
      apply sameKey_test in Hk. congruence.
    + apply NoDup_singleton.
Qed.

Lemma removeUserOp_mempool arg mm :
  ((forall e, e ∈ mempool mm -> designates arg e = false)
   /\ removeUserOp arg mm = mm)
  \/ exists i e, mempool mm !! i = Some e /\ designates arg e = true
                 /\ (forall k y, (k < i)%nat -> mempool mm !! k = Some y ->
                                 designates arg y = false)
                 /\ mempool (removeUserOp arg mm) = delete i (mempool mm).
Proof.
  unfold removeUserOp.
  set (index := match arg with
                | ByHash h => _findByHash h mm
                | ByUserOp op => _findBySenderNonce (sender op) (nonce op) mm
                end).
  destruct (Z.eqb_spec index (-1)) as [Hi|Hi]; cbn [negb].
  { left. split; [|reflexivity]. unfold index in Hi.
    destruct arg as [h|op]; exact (findFrom_missing _ _ _ Hi ltac:(lia)). }
  assert (Hfound : exists x, mempool mm !! Z.to_nat index = Some x
                             /\ designates arg x = true
                             /\ forall k y, (k < Z.to_nat index)%nat ->
                                  mempool mm !! k = Some y -> designates arg y = false).
  { unfold index in *. destruct arg as [h|op];
      destruct (findFrom_found _ _ _ _ eq_refl Hi ltac:(lia)) as (x & Hx & Px & _ & Hb);
      rewrite Z.sub_0_r in Hx, Hb; exists x; repeat split; assumption. }
  destruct Hfound as (x & Hx & Px & Hb). rewrite Hx. right.
  exists (Z.to_nat index), x. repeat split; try assumption.
  rewrite !decrementEntryCount_mempool. reflexivity.
Qed.

Lemma removeUserOp_uniqueKeys arg mm :
  uniqueKeys mm -> uniqueKeys (removeUserOp arg mm).
Proof.
  intros Hu. unfold uniqueKeys in *.
  destruct (removeUserOp_mempool arg mm) as [[_ ->]|(i & e & _ & _ & _ & ->)];
    [exact Hu|].
  rewrite list_fmap_delete. eapply sublist_NoDup; [exact Hu | apply sublist_delete].
Qed.

Lemma uniqueKeys_of_reachable mm : reachable mm -> uniqueKeys mm.
Proof.
  induction 1 as [ | op h pf refs sI pI fI aI mm rm _ IH | arg mm _ IH
                   | mm _ IH | a mm _ IH | a mm _ IH ].
  - apply NoDup_nil_2.
  - apply addUserOp_uniqueKeys, IH.
  - apply removeUserOp_uniqueKeys, IH.
  - apply NoDup_nil_2.
  - unfold uniqueKeys. rewrite incrementEntryCount_mempool. exact IH.
  - unfold uniqueKeys. rewrite decrementEntryCount_mempool. exact IH.
Qed.

Lemma afterSix_reachable : reachable Sample.afterSix.1.
Proof.
  unfold Sample.afterSix, Sample.sixOps. simpl foldl. unfold Sample.submit.
  cbn [fst snd].
  repeat apply reachable_addUserOp. apply reachable_new.
Qed.

(** X9. At most one entry for each sender and nonce as written: in every
    reachable state of the mempool manager no two entries have the same
    sender string and the same nonce string, the two values that
    [_findBySenderNonce] compares with [===]. (Two spellings of one
    nonce, [0x0] and [0x00], are different nonces to the code, and so
    here.) *)
Theorem reachable_uniqueKeys (mm : MempoolManager.t) :
  reachable mm -> uniqueKeys mm.
Proof. exact (uniqueKeys_of_reachable mm). Qed.

Lemma reachable_uniqueKeys_witness :
  let s1 := Sample.senderN "1" in
  let st := Sample.submit (Sample.mkOp s1 "0x00" 7 "0x")
              (Sample.submit (Sample.mkOp s1 "0x0" 7 "0x")
                 (MempoolManager.new, Sample.rm0)) in
  keyOf <$> mempool st.1 = [(s1, "0x0"); (s1, "0x00")]
  /\ uniqueKeys st.1
  /\ uniqueKeys Sample.afterSix.1.
Proof.
  intros s1 st. split; [vm_compute; reflexivity|]. split.
  - apply (reachable_uniqueKeys st.1).
    unfold st, Sample.submit. cbn [fst snd].
    repeat apply reachable_addUserOp. apply reachable_new.
  - exact (reachable_uniqueKeys Sample.afterSix.1 afterSix_reachable).
Defined.

Lemma removeUserOp_no_key op mm :
  uniqueKeys mm ->
  forall e, e ∈ mempool (removeUserOp (ByUserOp op) mm) ->
            designates (ByUserOp op) e = false.
Proof.
  intros Hu.
  destruct (removeUserOp_mempool (ByUserOp op) mm)
    as [[Hno ->]|(i & x & Hx & Px & _ & ->)]; [exact Hno|].
  intros y Hy. destruct (designates (ByUserOp op) y) eqn:Py; [|reflexivity].
  exfalso. apply sameKey_test in Px, Py.
  apply list_elem_of_lookup in Hy as [k Hk].
  unfold uniqueKeys in Hu.
  destruct (decide (k < i)%nat) as [Hlt|Hge].
  - rewrite list_lookup_delete_lt in Hk by exact Hlt.
    assert (i = k); [|lia].
    apply (NoDup_lookup _ _ _ (sender op, nonce op) Hu);
      rewrite list_lookup_fmap; [rewrite Hx | rewrite Hk]; simpl; congruence.
  - rewrite list_lookup_delete_ge in Hk by lia.
    assert (i = S k); [|lia].
    apply (NoDup_lookup _ _ _ (sender op, nonce op) Hu);
      rewrite list_lookup_fmap; [rewrite Hx | rewrite Hk]; simpl; congruence.
Qed.

(** X10. A removed operation is gone: in a state where no two entries
    have the same sender and nonce as written (every reachable state is
    such), after [removeUserOp] of an operation no entry has its sender
    and its nonce as written, and [_findBySenderNonce] gives [-1]. *)
Theorem removeUserOp_removes (op : UserOperation) (mm : MempoolManager.t) :
  uniqueKeys mm ->
  let mm' := removeUserOp (ByUserOp op) mm in
  (forall e, e ∈ mempool mm' -> keyOf e <> (sender op, nonce op))
  /\ _findBySenderNonce (sender op) (nonce op) mm' = -1.
Proof.
  intros Hu mm'. pose proof (removeUserOp_no_key op mm Hu) as Hnone. split.
  - intros e He Hk. apply sameKey_test in Hk.
    specialize (Hnone e He). simpl in Hnone. congruence.
  - apply findFrom_none. intros x Hx. apply list_elem_of_In in Hx. exact (Hnone x Hx).
Qed.

Lemma removeUserOp_removes_witness :
  let op := Sample.mkOp (Sample.senderN "3") "0x0" 7 Sample.paymasterP in
  _findBySenderNonce (sender op) (nonce op)
    (removeUserOp (ByUserOp op) Sample.afterSix.1) = -1.
Proof.
  intros op.
  exact (proj2 (removeUserOp_removes op Sample.afterSix.1
                  (uniqueKeys_of_reachable _ afterSix_reachable))).
Defined.
End Keys.

Section Sorting.
Import MempoolManager.

Lemma insertByCost_Permutation e l : Permutation (insertByCost e l) (e :: l).
Proof.
  induction l as [|x l IH]; simpl; [reflexivity|].
  destruct (_ <=? _); [reflexivity|].
  rewrite IH. apply perm_swap.
Qed.

Lemma insertByCost_sorted e l :
  StronglySorted (fun a b => feeOf a <= feeOf b) l ->
  StronglySorted (fun a b => feeOf a <= feeOf b) (insertByCost e l).
Proof.
  induction 1 as [|x l Hs IH Hx]; simpl.
  - repeat constructor.
  - fold (feeOf e) (feeOf x). destruct (Z.leb_spec (feeOf e) (feeOf x)) as [Hle|Hgt].
    + constructor; [constructor; assumption|].
      constructor; [exact Hle|].
      eapply Forall_impl; [exact Hx|]. intros y Hy. simpl in Hy. lia.
    + constructor; [exact IH|].
      rewrite (insertByCost_Permutation e l). constructor; [lia | exact Hx].
Qed.

(** Insertion keeps the order of the entries of any given fee. *)
Lemma insertByCost_stable c e l :
  filter (fun x => feeOf x = c) (insertByCost e l)
  = filter (fun x => feeOf x = c) (e :: l).
Proof.
  induction l as [|x l IH]; simpl; [reflexivity|].
  fold (feeOf e) (feeOf x). destruct (Z.leb_spec (feeOf e) (feeOf x)) as [Hle|Hgt];
    [reflexivity|].
  rewrite !filter_cons in *. rewrite IH.
  destruct (decide (feeOf x = c)), (decide (feeOf e = c)); try reflexivity. lia.
Qed.

Lemma sortByCost_facts l :
  Permutation (sortByCost l) l
  /\ StronglySorted (fun a b => feeOf a <= feeOf b) (sortByCost l)
  /\ forall c, filter (fun x => feeOf x = c) (sortByCost l)
               = filter (fun x => feeOf x = c) l.
Proof.
  unfold sortByCost. induction l as [|x l IH]; simpl.
  - repeat split; constructor.
  - destruct IH as (Hp & Hs & Hst). repeat split.
    + rewrite insertByCost_Permutation. constructor. exact Hp.
    + apply insertByCost_sorted, Hs.
    + intros c. rewrite insertByCost_stable, !filter_cons, Hst. reflexivity.
Qed.

Lemma getSortedForInclusion_Permutation mm l :
  getSortedForInclusion mm = Ok l -> Permutation l (mempool mm).
Proof.
  unfold getSortedForInclusion. destruct (_ && _); [discriminate|].
  intros [= <-]. apply sortByCost_facts.
Qed.

(** X11. The inclusion order: when [getSortedForInclusion] returns, its
    result holds the entries of the mempool, each as often as the mempool
    does, in ascending order of [maxPriorityFeePerGas], and the entries
    of equal fee are in the order they have in the mempool. It returns
    whenever every fee is a safe integer. *)
Theorem getSortedForInclusion_sorted (mm : MempoolManager.t) :
  (forall l, getSortedForInclusion mm = Ok l ->
     Permutation l (mempool mm)
     /\ StronglySorted (fun a b => feeOf a <= feeOf b) l
     /\ forall c, filter (fun x => feeOf x = c) l
                  = filter (fun x => feeOf x = c) (mempool mm))
  /\ ((forall e, e ∈ mempool mm -> Z.abs (feeOf e) <= MAX_SAFE_INTEGER) ->
      exists l, getSortedForInclusion mm = Ok l).
Proof.
  split.
  - intros l. unfold getSortedForInclusion. destruct (_ && _); [discriminate|].
    intros [= <-]. apply sortByCost_facts.
  - intros Hsafe. unfold getSortedForInclusion.
    assert (E : forallb (fun e => Z.abs (maxPriorityFeePerGas (userOp e))
                                  <=? MAX_SAFE_INTEGER) (mempool mm) = true).
    { apply forallb_forall. intros e He. apply list_elem_of_In in He.
      apply Z.leb_le. exact (Hsafe e He). }
    rewrite E, andb_false_r. eexists. reflexivity.
Qed.
End Sorting.

Section RoundTrips.
Import MempoolManager.

Lemma isKey_range a k : 0 <= isKey a k <= 1.
Proof. destruct a as [a|]; simpl; [destruct (decide _)|]; lia. Qed.

Lemma countsPositive_countOf m k : countsPositive m -> 0 <= countOf m k.
Proof.
  intros H. unfold countOf. destruct (m !! k) as [c|] eqn:E; simpl; [|lia].
  apply H in E. lia.
Qed.

(** Two maps of positive counts that count alike are the same map. *)
Lemma countsPositive_eq m1 m2 :
  countsPositive m1 -> countsPositive m2 ->
  (forall k, countOf m1 k = countOf m2 k) -> m1 = m2.
Proof.
  intros H1 H2 Hc. apply map_eq. intros k. specialize (Hc k). unfold countOf in Hc.
  destruct (m1 !! k) as [c1|] eqn:E1, (m2 !! k) as [c2|] eqn:E2; simpl in Hc.
  - congruence.
  - apply H1 in E1. lia.
  - apply H2 in E2. lia.
  - reflexivity.
Qed.

Lemma incrementEntryCount_countOf a mm k :
  countOf (_entryCount (incrementEntryCount a mm)) k
  = countOf (_entryCount mm) k + isKey a k.
Proof.
  unfold incrementEntryCount. destruct a as [a|]; simpl; [|lia]. unfold countOf.
  rewrite lookup_insert. destruct (decide (k = toLowerCase a)) as [->|Hk].
  - rewrite decide_True by reflexivity. reflexivity.
  - rewrite decide_False by congruence. lia.
Qed.

Lemma decrementEntryCount_countOf a mm k :
  countsPositive (_entryCount mm) ->
  countOf (_entryCount (decrementEntryCount a mm)) k
  = countOf (_entryCount mm) k
    - (if 1 <=? countOf (_entryCount mm) k then isKey a k else 0).
Proof.
  intros Hpos. unfold decrementEntryCount. destruct a as [a|]; simpl.
  2: { destruct (_ <=? _); lia. }
  destruct (_entryCount mm !! toLowerCase a) as [c|] eqn:E.
  - pose proof (Hpos _ _ E) as Hc.
    destruct (Z.leb_spec (c - 1) 0); simpl; unfold countOf.
    + rewrite lookup_delete. destruct (decide (k = toLowerCase a)) as [->|Hk].
      * rewrite decide_True by reflexivity. rewrite E. simpl.
        destruct (Z.leb_spec 1 c); lia.
      * rewrite decide_False by congruence. destruct (_ <=? _); lia.
    + rewrite lookup_insert. destruct (decide (k = toLowerCase a)) as [->|Hk].
      * rewrite decide_True by reflexivity. rewrite E. simpl.
        destruct (Z.leb_spec 1 c); lia.
      * rewrite decide_False by congruence. destruct (_ <=? _); lia.
  - unfold countOf. destruct (decide (k = toLowerCase a)) as [->|Hk].
    + rewrite E. simpl. lia.
    + destruct (_ <=? _); lia.
Qed.

(** X12. Counting up and down: with positive counts, decrementing after
    incrementing the count of an address gives back the state. *)
Theorem decrement_after_increment (a : option string) (mm : MempoolManager.t) :
  countsPositive (_entryCount mm) ->
  decrementEntryCount a (incrementEntryCount a mm) = mm.
Proof.
  intros Hpos.
  assert (Hm : mempool (decrementEntryCount a (incrementEntryCount a mm)) = mempool mm)
    by (rewrite decrementEntryCount_mempool, incrementEntryCount_mempool; reflexivity).
  assert (Hc : _entryCount (decrementEntryCount a (incrementEntryCount a mm))
               = _entryCount mm).
  { apply countsPositive_eq.
    - apply decrementEntryCount_positive, incrementEntryCount_positive, Hpos.
    - exact Hpos.
    - intros k.
      rewrite decrementEntryCount_countOf
        by (apply incrementEntryCount_positive, Hpos).
      rewrite incrementEntryCount_countOf.
      pose proof (countsPositive_countOf _ k Hpos).
      pose proof (isKey_range a k).
      repeat match goal with
             | |- context [?x <=? ?y] => destruct (Z.leb_spec x y)
             end; lia. }
  destruct (decrementEntryCount a (incrementEntryCount a mm)), mm.
  simpl in *. congruence.
Qed.

Lemma decrement_after_increment_witness :
  decrementEntryCount (Some Sample.paymasterP)
    (incrementEntryCount (Some Sample.paymasterP) MempoolManager.new)
  = MempoolManager.new.
Proof.
  apply (decrement_after_increment (Some Sample.paymasterP) MempoolManager.new).
  intros k c H. simpl in H. rewrite lookup_empty in H. discriminate.
Defined.

Lemma findFrom_last {A} (p : A -> bool) l e : forall i,
  (forall x, x ∈ l -> p x = false) -> p e = true ->
  findFrom p (l ++ [e]) i = i + Z.of_nat (length l).
Proof.
  induction l as [|x l IH]; intros i Hno He; simpl.
  - rewrite He. lia.
  - rewrite (Hno x) by (left). rewrite IH; [lia | | exact He].
    intros y Hy. apply Hno. right. exact Hy.
Qed.

(** X13. Adding and removing: when [addUserOp] has added an operation as
    a new entry to a mempool manager whose counts are positive, removing
    that operation gives back the mempool manager as it was before, its
    entries and its counts alike. *)
Theorem removeUserOp_after_addUserOp
    op h pf refs sInfo pInfo fInfo aInfo
    (mm mm' : MempoolManager.t) (rm rm' : ReputationManager.t) :
  countsPositive (_entryCount mm) ->
  _findBySenderNonce (sender op) (nonce op) mm = -1 ->
  addUserOp op h pf refs sInfo pInfo fInfo aInfo mm rm = (Ok tt, mm', rm') ->
  removeUserOp (ByUserOp op) mm' = mm.
Proof.
  intros Hpos Hidx Hadd.
  destruct (addUserOp_new_entry _ _ _ _ _ _ _ _ _ _ _ _ Hidx Hadd) as [Hmem Hcnt].
  set (entry := mkMempoolEntry op h pf refs (addr <$> aInfo)) in *.
  assert (Hfind : _findBySenderNonce (sender op) (nonce op) mm'
                  = Z.of_nat (length (mempool mm))).
  { unfold _findBySenderNonce. rewrite Hmem. rewrite findFrom_last; [lia| |].
    - exact (findFrom_missing _ _ _ Hidx ltac:(lia)).
    - simpl. rewrite !String.eqb_refl. reflexivity. }
  unfold removeUserOp. rewrite Hfind.
  destruct (Z.eqb_spec (Z.of_nat (length (mempool mm))) (-1)); [lia|]. cbn [negb].
  rewrite Nat2Z.id, Hmem.
  rewrite lookup_app_r by lia. rewrite Nat.sub_diag. cbn [lookup list_lookup userOp entry].
  replace (delete (length (mempool mm)) (mempool mm ++ [entry])) with (mempool mm)
    by (rewrite (delete_middle (mempool mm) [] entry), app_nil_r; reflexivity).
  set (m0 := mk (mempool mm) (_entryCount mm')).
  assert (Hpos0 : countsPositive (_entryCount m0)).
  { unfold m0. simpl. rewrite Hcnt. apply incrementRoles_positive, Hpos. }
  set (m1 := decrementEntryCount (Some (sender op)) m0).
  set (m2 := decrementEntryCount (getAddr (Some (paymasterAndData op))) m1).
  set (m3 := decrementEntryCount (getAddr (Some (initCode op))) m2).
  assert (Hpos1 : countsPositive (_entryCount m1))
    by (apply decrementEntryCount_positive, Hpos0).
  assert (Hpos2 : countsPositive (_entryCount m2))
    by (apply decrementEntryCount_positive, Hpos1).
  assert (Hpos3 : countsPositive (_entryCount m3))
    by (apply decrementEntryCount_positive, Hpos2).
  assert (Hm : mempool m3 = mempool mm).
  { unfold m3, m2, m1. rewrite !decrementEntryCount_mempool. reflexivity. }
  assert (Hc : _entryCount m3 = _entryCount mm).
  { apply countsPositive_eq; [exact Hpos3 | exact Hpos|]. intros k.
    unfold m3. rewrite decrementEntryCount_countOf by exact Hpos2.
    unfold m2. rewrite decrementEntryCount_countOf by exact Hpos1.
    unfold m1. rewrite decrementEntryCount_countOf by exact Hpos0.
    unfold m0. cbn [_entryCount]. rewrite Hcnt. unfold incrementRoles.
    rewrite !incrementEntryCount_countOf.
    pose proof (countsPositive_countOf _ k Hpos) as H0.
    pose proof (isKey_range (Some (sender op)) k) as Hs.
    pose proof (isKey_range (getAddr (Some (paymasterAndData op))) k) as Hp.
    pose proof (isKey_range (getAddr (Some (initCode op))) k) as Hf.
    repeat match goal with
           | |- context [?x <=? ?y] => destruct (Z.leb_spec x y)
           end; lia. }
  destruct m3, mm. simpl in *. congruence.
Qed.

Lemma removeUserOp_after_addUserOp_witness :
  let op := Sample.mkOp (Sample.senderN "1") "0x0" 7 Sample.paymasterP in
  removeUserOp (ByUserOp op) (Sample.submit op (MempoolManager.new, Sample.rm0)).1
  = MempoolManager.new.
Proof.
  intros op.
  refine (removeUserOp_after_addUserOp op (sender op) 1000 Sample.noHashes
            (Sample.unstaked (sender op))
            (Sample.unstaked <$> getAddr (Some (paymasterAndData op))) None None
            MempoolManager.new _ Sample.rm0
            (Sample.submit op (MempoolManager.new, Sample.rm0)).2 _ eq_refl _).
  - intros k c H. simpl in H. rewrite lookup_empty in H. discriminate.
  - vm_compute. reflexivity.
Defined.
End RoundTrips.

Section Intake.
Import MempoolManager.

(** [addUserOp] of an operation whose sender and nonce no entry has. *)
Lemma addUserOp_fresh op h pf refs sInfo pInfo fInfo aInfo mm rm :
  _findBySenderNonce (sender op) (nonce op) mm = -1 ->
  addUserOp op h pf refs sInfo pInfo fInfo aInfo mm rm =
  let mm1 := incrementRoles op mm in
  match checkReputation sInfo pInfo fInfo aInfo mm1 rm with
  | Throw e => (Throw e, mm1, rm)
  | Ok _ =>
      match checkMultipleRolesViolation op mm1 with
      | Throw e => (Throw e, mm1, rm)
      | Ok _ =>
          let '(r, rm') := updateSeenStatus (addr <$> aInfo) op sInfo rm in
          (r, mk (mempool mm1 ++ [mkMempoolEntry op h pf refs (addr <$> aInfo)])
                (_entryCount mm1), rm')
      end
  end.
Proof.
  intros Hidx. unfold addUserOp. rewrite Hidx. cbn [Z.eqb negb].
  assert (Hinc :
    (let mm0 := incrementEntryCount (Some (sender op)) mm in
     let mm1 := match getAddr (Some (paymasterAndData op)) with
                | Some _ => incrementEntryCount (getAddr (Some (paymasterAndData op))) mm0
                | None => mm0 end in
     match getAddr (Some (initCode op)) with
     | Some _ => incrementEntryCount (getAddr (Some (initCode op))) mm1
     | None => mm1 end) = incrementRoles op mm).
  { unfold incrementRoles.
    destruct (getAddr (Some (paymasterAndData op)));
      destruct (getAddr (Some (initCode op))); reflexivity. }
  cbv zeta in Hinc. rewrite Hinc. reflexivity.
Qed.

(** [addUserOp] of an operation whose sender and nonce an entry has. *)
Lemma addUserOp_replace op h pf refs sInfo pInfo fInfo aInfo mm rm :
  _findBySenderNonce (sender op) (nonce op) mm <> -1 ->
  exists old,
    mempool mm !! Z.to_nat (_findBySenderNonce (sender op) (nonce op) mm) = Some old
    /\ keyOf old = (sender op, nonce op)
    /\ addUserOp op h pf refs sInfo pInfo fInfo aInfo mm rm =
       let entry := mkMempoolEntry op h pf refs (addr <$> aInfo) in
       match checkReplaceUserOp old entry with
       | Throw e => (Throw e, mm, rm)
       | Ok _ =>
           let '(r, rm') := updateSeenStatus (addr <$> aInfo) op sInfo rm in
           (r, mk (<[Z.to_nat (_findBySenderNonce (sender op) (nonce op) mm) := entry]>
                     (mempool mm)) (_entryCount mm), rm')
       end.
Proof.
  intros Hidx.
  destruct (findFrom_found _ _ _ _ eq_refl Hidx ltac:(lia)) as (old & Hold & Pold & _).
  rewrite Z.sub_0_r in Hold. apply sameKey_test in Pold.
  exists old. split; [exact Hold|]. split; [exact Pold|].
  unfold addUserOp.
  destruct (Z.eqb_spec (_findBySenderNonce (sender op) (nonce op) mm) (-1));
    [contradiction|].
  cbn [negb]. fold (_findBySenderNonce (sender op) (nonce op) mm) in Hold.
  rewrite Hold. reflexivity.
Qed.

Lemma checkStake_RpcError info rm : ReputationManager.checkStake info rm <> Throw JsError.
Proof.
  unfold ReputationManager.checkStake, requireCond.
  destruct info as [info|]; [|discriminate].
  destruct (ReputationManager.isWhitelisted _ _); [discriminate|].
  repeat (match goal with
          | |- context [if ?c then _ else _] => destruct c
          end; cbn [bindR]; try discriminate).
Qed.

(** The private [updateSeenStatus] always returns. *)
Lemma updateSeenStatus_returns ag op sInfo rm :
  (updateSeenStatus ag op sInfo rm).1 = Ok tt.
Proof.
  unfold updateSeenStatus.
  pose proof (checkStake_RpcError (Some sInfo) rm) as H.
  destruct (ReputationManager.checkStake (Some sInfo) rm) as [[]|[c|]];
    [reflexivity | reflexivity | congruence].
Qed.

(** X14. A call of [addUserOp] that throws leaves the entries of the
    mempool and the reputation manager as they were (only the counts of
    C1 may have moved); a call that returns has added the new entry at
    the end, when [_findBySenderNonce] found no entry of the sender and
    nonce as written, or replaced, in place, the entry it found. (An
    operation that repeats a stored nonce in another spelling is a new
    entry.) *)
Theorem addUserOp_outcomes op h pf refs sInfo pInfo fInfo aInfo
    (mm : MempoolManager.t) (rm : ReputationManager.t) :
  let out := addUserOp op h pf refs sInfo pInfo fInfo aInfo mm rm in
  let entry := mkMempoolEntry op h pf refs (addr <$> aInfo) in
  let index := _findBySenderNonce (sender op) (nonce op) mm in
  (forall e, out.1.1 = Throw e -> mempool out.1.2 = mempool mm /\ out.2 = rm)
  /\ (out.1.1 = Ok tt ->
      (index = -1 /\ mempool out.1.2 = mempool mm ++ [entry])
      \/ (index <> -1 /\ mempool out.1.2 = <[Z.to_nat index := entry]> (mempool mm)
          /\ _entryCount out.1.2 = _entryCount mm)).
Proof.
  cbv zeta.
  destruct (Z.eq_dec (_findBySenderNonce (sender op) (nonce op) mm) (-1)) as [Hi|Hi].
  - rewrite (addUserOp_fresh _ _ _ _ _ _ _ _ _ _ Hi). cbv zeta.
    assert (Hm : mempool (incrementRoles op mm) = mempool mm)
      by (unfold incrementRoles; rewrite !incrementEntryCount_mempool; reflexivity).
    destruct (checkReputation _ _ _ _ _ _) as [[]|e1].
    2: { split; [intros e _; split; [exact Hm | reflexivity] | discriminate]. }
    destruct (checkMultipleRolesViolation _ _) as [[]|e2].
    2: { split; [intros e _; split; [exact Hm | reflexivity] | discriminate]. }
    pose proof (updateSeenStatus_returns (addr <$> aInfo) op sInfo rm) as Hr.
    destruct (updateSeenStatus _ _ _ _) as [r rm']. simpl in Hr. subst r.
    split; [discriminate|]. intros _. left. split; [exact Hi|].
    cbn [fst snd mempool]. rewrite Hm. reflexivity.
  - destruct (addUserOp_replace op h pf refs sInfo pInfo fInfo aInfo mm rm Hi)
      as (old & Hold & _ & ->). cbv zeta.
    destruct (checkReplaceUserOp old _) as [[]|e1].
    2: { split; [intros e _; split; reflexivity | discriminate]. }
    pose proof (updateSeenStatus_returns (addr <$> aInfo) op sInfo rm) as Hr.
    destruct (updateSeenStatus _ _ _ _) as [r rm']. simpl in Hr. subst r.
    split; [discriminate|]. intros _. right. repeat split. exact Hi.
Qed.

(** X15. A replacement is decided by the fees alone: when
    [_findBySenderNonce] finds an entry with the sender and the nonce of
    the operation as written, [addUserOp] returns exactly when
    [checkReplaceUserOp] accepts the fees against that entry, whatever
    the reputation of the entities of the new operation and whatever
    roles its addresses play in the mempool. *)
Theorem replacement_decided_by_fees op h pf refs sInfo pInfo fInfo aInfo
    (mm : MempoolManager.t) (rm : ReputationManager.t) (old : MempoolEntry) :
  _findBySenderNonce (sender op) (nonce op) mm <> -1 ->
  mempool mm !! Z.to_nat (_findBySenderNonce (sender op) (nonce op) mm) = Some old ->
  (addUserOp op h pf refs sInfo pInfo fInfo aInfo mm rm).1.1
  = checkReplaceUserOp old (mkMempoolEntry op h pf refs (addr <$> aInfo)).
Proof.
  intros Hi Hold.
  destruct (addUserOp_replace op h pf refs sInfo pInfo fInfo aInfo mm rm Hi)
    as (old' & Hold' & _ & ->).
  assert (old' = old) as -> by congruence. cbv zeta.
  destruct (checkReplaceUserOp old _) as [[]|e1]; [|reflexivity].
  pose proof (updateSeenStatus_returns (addr <$> aInfo) op sInfo rm) as Hr.
  destruct (updateSeenStatus _ _ _ _) as [r rm']. exact Hr.
Qed.
End Intake.

Lemma replacement_decided_by_fees_witness :
  let s1 := Sample.senderN "1" in
  let old := Sample.mkOp s1 "0x0" 10 "0x" in
  let new := Sample.mkOp s1 "0x0" 11 Sample.paymasterP in
  let mm := (Sample.submit old (MempoolManager.new, Sample.rm0)).1 in
  (MempoolManager.addUserOp new "0x02" 1000 Sample.noHashes (Sample.unstaked s1)
     (Some (Sample.unstaked Sample.paymasterP)) None None mm Sample.rmBlack).1.1
  = Ok tt.
Proof.
  intros s1 old new mm.
  rewrite (replacement_decided_by_fees new "0x02" 1000 Sample.noHashes
             (Sample.unstaked s1) (Some (Sample.unstaked Sample.paymasterP))
             None None mm Sample.rmBlack
             (MempoolManager.mkMempoolEntry old s1 1000 Sample.noHashes None)).
  - vm_compute. reflexivity.
  - vm_compute. discriminate.
  - vm_compute. reflexivity.
Defined.

Section Admission.
Import MempoolManager.

Lemma includes_elem_of l x : includes l x = true <-> x ∈ l.
Proof.
  unfold includes. rewrite existsb_exists. split.
  - intros (y & Hy & E). apply String.eqb_eq in E. subst y.
    apply list_elem_of_In. exact Hy.
  - intros H. exists x. split; [apply list_elem_of_In; exact H | apply String.eqb_refl].
Qed.

Lemma incrementRoles_mempool op mm : mempool (incrementRoles op mm) = mempool mm.
Proof. unfold incrementRoles. rewrite !incrementEntryCount_mempool. reflexivity. Qed.

(** X16. One role for each address: an operation that would be a new
    entry is not added when its sender is the paymaster or the factory of
    a stored entry, or when its paymaster or its factory is the sender of
    a stored entry. [addUserOp] throws, with the code of
    [OpcodeValidation] unless a reputation check threw before, and the
    entries stay as they were. *)
Theorem addUserOp_rejects_second_role op h pf refs sInfo pInfo fInfo aInfo
    (mm : MempoolManager.t) (rm : ReputationManager.t) :
  _findBySenderNonce (sender op) (nonce op) mm = -1 ->
  toLowerCase (sender op) ∈ getKnownEntities mm
  \/ (exists p, getAddr (Some (paymasterAndData op)) = Some p
                /\ toLowerCase p ∈ getKnownSenders mm)
  \/ (exists f, getAddr (Some (initCode op)) = Some f
                /\ toLowerCase f ∈ getKnownSenders mm) ->
  let out := addUserOp op h pf refs sInfo pInfo fInfo aInfo mm rm in
  (exists e, out.1.1 = Throw e
             /\ (checkReputation sInfo pInfo fInfo aInfo (incrementRoles op mm) rm
                 = Ok tt -> e = RpcError OpcodeValidation))
  /\ mempool out.1.2 = mempool mm.
Proof.
  intros Hi Hrole. cbv zeta.
  rewrite (addUserOp_fresh _ _ _ _ _ _ _ _ _ _ Hi). cbv zeta.
  destruct (checkReputation _ _ _ _ _ _) as [[]|e1].
  2: { split; [exists e1; split; [reflexivity | discriminate]
              | apply incrementRoles_mempool]. }
  assert (Hroles : checkMultipleRolesViolation op (incrementRoles op mm)
                   = Throw (RpcError OpcodeValidation)).
  { unfold checkMultipleRolesViolation, getKnownEntities, getKnownSenders, requireCond.
    rewrite incrementRoles_mempool.
    fold (getKnownEntities mm) (getKnownSenders mm).
    destruct (includes (getKnownEntities mm) (toLowerCase (sender op))) eqn:E1;
      cbn [negb bindR]; [reflexivity|].
    destruct Hrole as [H|[(p & Hp & H)|(f & Hf & H)]].
    - apply includes_elem_of in H. congruence.
    - rewrite Hp. cbn [fmap option_fmap option_map from_option id].
      rewrite toLowerCase_idemp.
      apply includes_elem_of in H. rewrite H. reflexivity.
    - rewrite Hf. cbn [fmap option_fmap option_map from_option id].
      rewrite toLowerCase_idemp.
      apply includes_elem_of in H. rewrite H.
      match goal with
      | |- context [negb (includes ?l ?x)] => destruct (includes l x)
      end; reflexivity. }
  rewrite Hroles. split; [|apply incrementRoles_mempool].
  exists (RpcError OpcodeValidation). split; reflexivity.
Qed.

Lemma addUserOp_rejects_second_role_witness :
  let s1 := Sample.senderN "1" in
  let st := Sample.submit (Sample.mkOp s1 "0x0" 7 "0x") (MempoolManager.new, Sample.rm0) in
  let op := Sample.mkOp (Sample.senderN "2") "0x0" 7 s1 in
  (addUserOp op "0x02" 1000 Sample.noHashes (Sample.unstaked (Sample.senderN "2"))
     (Some (Sample.unstaked s1)) None None st.1 st.2).1.1
  = Throw (RpcError OpcodeValidation).
Proof.
  intros s1 st op.
  destruct (addUserOp_rejects_second_role op "0x02" 1000 Sample.noHashes
              (Sample.unstaked (Sample.senderN "2")) (Some (Sample.unstaked s1))
              None None st.1 st.2) as [(e & He & Hc) _].
  - vm_compute. reflexivity.
  - right. left. exists s1. split; [vm_compute; reflexivity|].
    apply includes_elem_of. vm_compute. reflexivity.
  - rewrite He. f_equal. apply Hc. vm_compute. reflexivity.
Defined.

(** X17. A banned sender is turned away first: an operation that would
    be a new entry and whose sender has the status BANNED makes
    [addUserOp] throw the reputation error, the entries staying as they
    were. *)
Theorem addUserOp_rejects_banned_sender op h pf refs sInfo pInfo fInfo aInfo
    (mm : MempoolManager.t) (rm : ReputationManager.t) :
  _findBySenderNonce (sender op) (nonce op) mm = -1 ->
  ReputationManager.getStatus (Some (addr sInfo)) rm = ReputationManager.BANNED ->
  let out := addUserOp op h pf refs sInfo pInfo fInfo aInfo mm rm in
  out.1.1 = Throw (RpcError Reputation) /\ mempool out.1.2 = mempool mm /\ out.2 = rm.
Proof.
  intros Hi Hban. cbv zeta.
  rewrite (addUserOp_fresh _ _ _ _ _ _ _ _ _ _ Hi). cbv zeta.
  assert (Hrep : checkReputation sInfo pInfo fInfo aInfo (incrementRoles op mm) rm
                 = Throw (RpcError Reputation)).
  { unfold checkReputation, checkReputationStatus at 1, ReputationManager.checkBanned.
    rewrite Hban. reflexivity. }
  rewrite Hrep. repeat split. apply incrementRoles_mempool.
Qed.

Lemma addUserOp_rejects_banned_sender_witness :
  let op := Sample.mkOp Sample.paymasterP "0x0" 7 "0x" in
  (addUserOp op "0x02" 1000 Sample.noHashes (Sample.unstaked Sample.paymasterP)
     None None None MempoolManager.new Sample.rmBlack).1.1
  = Throw (RpcError Reputation).
Proof.
  intros op.
  apply (addUserOp_rejects_banned_sender op "0x02" 1000 Sample.noHashes
           (Sample.unstaked Sample.paymasterP) None None None
           MempoolManager.new Sample.rmBlack).
  - reflexivity.
  - vm_compute. reflexivity.
Defined.

(** X18. The quota of a sender: when the sender of an operation that
    would be a new entry already counts four or more entries, is neither
    throttled nor banned nor on the white list, and its stake is below the
    minimal stake, [addUserOp] throws the stake error. *)
Theorem addUserOp_sender_quota op h pf refs sInfo pInfo fInfo aInfo
    (mm : MempoolManager.t) (rm : ReputationManager.t) :
  _findBySenderNonce (sender op) (nonce op) mm = -1 ->
  addr sInfo = sender op ->
  4 <= countOf (_entryCount mm) (toLowerCase (sender op)) ->
  ReputationManager.getStatus (Some (sender op)) rm = ReputationManager.OK ->
  sender op ∉ ReputationManager.whitelist rm ->
  stake sInfo < ReputationManager.minStake rm ->
  (addUserOp op h pf refs sInfo pInfo fInfo aInfo mm rm).1.1
  = Throw (RpcError InsufficientStake).
Proof.
  intros Hi Haddr Hcount Hok Hw Hstake.
  rewrite (addUserOp_fresh _ _ _ _ _ _ _ _ _ _ Hi). cbv zeta.
  assert (Hc : 5 <= default 0 (entryCount (addr sInfo) (incrementRoles op mm))).
  { rewrite Haddr. unfold entryCount.
    change (5 <= countOf (_entryCount (incrementRoles op mm)) (toLowerCase (sender op))).
    unfold incrementRoles. rewrite !incrementEntryCount_countOf.
    pose proof (isKey_range (getAddr (Some (paymasterAndData op)))
                  (toLowerCase (sender op))).
    pose proof (isKey_range (getAddr (Some (initCode op))) (toLowerCase (sender op))).
    simpl isKey at 1. rewrite decide_True by reflexivity. lia. }
  assert (Hfail : checkReputationStatus sInfo (Some MAX_MEMPOOL_USEROPS_PER_SENDER)
                    (incrementRoles op mm) rm = Throw (RpcError InsufficientStake)).
  { unfold checkReputationStatus, ReputationManager.checkBanned,
      ReputationManager.checkThrottled, ReputationManager.checkStake,
      ReputationManager.isWhitelisted,
      MAX_MEMPOOL_USEROPS_PER_SENDER, THROTTLED_ENTITY_MEMPOOL_COUNT.
    rewrite Haddr in *. rewrite Hok.
    cbn [ReputationManager.ReputationStatus_eqb negb requireCond bindR].
    destruct (Z.ltb_spec 4 (default 0 (entryCount (sender op) (incrementRoles op mm))));
      [|lia].
    cbn [bindR]. rewrite bool_decide_eq_false_2 by exact Hw.
    destruct (Z.leb_spec (ReputationManager.minStake rm) (stake sInfo)); [lia|].
    reflexivity. }
  unfold checkReputation. rewrite Hfail. reflexivity.
Qed.
End Admission.

Lemma addUserOp_sender_quota_witness :
  let s1 := Sample.senderN "1" in
  let st := foldl (fun st op => Sample.submit op st) (MempoolManager.new, Sample.rm0)
              (map (fun n => Sample.mkOp s1 n 7 "0x") ["0x0"; "0x1"; "0x2"; "0x3"]) in
  (MempoolManager.addUserOp (Sample.mkOp s1 "0x4" 7 "0x") "0x05" 1000 Sample.noHashes
     (Sample.unstaked s1) None None None st.1 st.2).1.1
  = Throw (RpcError InsufficientStake).
Proof.
  intros s1 st.
  apply (addUserOp_sender_quota (Sample.mkOp s1 "0x4" 7 "0x") "0x05" 1000 Sample.noHashes
           (Sample.unstaked s1) None None None st.1 st.2).
  - vm_compute. reflexivity.
  - reflexivity.
  - vm_compute. discriminate.
  - vm_compute. reflexivity.
  - compute_done.
  - reflexivity.
Defined.

(** ** Further properties of the bundle manager *)

Section BundleFacts.
Import BundleManager.
Variables (bm : t) (vm : ValidationManager.t) (chain : ValidationManager.Chain)
          (ep : EntryPoint) (rm : ReputationManager.t) (knownSenders : list string).

(** What the tests have established for an entry that goes on to the gas
    test. *)
Lemma screen_candidate_facts entry st mm vr :
  screen vm chain rm knownSenders entry st mm = Candidate vr ->
  let op := MempoolManager.userOp entry in
  ReputationManager.getStatus (getAddr (Some (paymasterAndData op))) rm
  = ReputationManager.OK
  /\ ReputationManager.getStatus (getAddr (Some (initCode op))) rm
     = ReputationManager.OK
  /\ (sender op ∉ senders st)
  /\ ValidationManager.validateUserOp vm chain op
       (Some (MempoolManager.referencedContracts entry)) = Ok vr
  /\ storageConflict knownSenders op (ValidationManager.storageMap vr) = false.
Proof.
  unfold screen. cbv zeta. cbn [nullish].
  set (op := MempoolManager.userOp entry).
  destruct (getAddr (Some (paymasterAndData op))) as [p|] eqn:Ep;
    destruct (getAddr (Some (initCode op))) as [f|] eqn:Ef;
    repeat match goal with
           | |- context [ReputationManager.getStatus ?a rm] =>
               let E := fresh "E" in
               destruct (ReputationManager.getStatus a rm) eqn:E
           end;
    cbn [ReputationManager.ReputationStatus_eqb orb]; try discriminate;
    destruct (bool_decide_reflect (sender op ∈ senders st)); try discriminate;
    destruct (ValidationManager.validateUserOp _ _ _ _) as [vr'|e]; try discriminate;
    destruct (storageConflict _ _ _) eqn:Esc; try discriminate;
    intros [= ->]; repeat split; assumption || reflexivity.
Qed.

(** An entry that is passed over is left in the mempool or removed from
    it, nothing else. *)
Lemma screen_skip entry st mm mm' :
  screen vm chain rm knownSenders entry st mm = Skip mm' ->
  mm' = mm
  \/ mm' = MempoolManager.removeUserOp
             (MempoolManager.ByUserOp (MempoolManager.userOp entry)) mm.
Proof.
  unfold screen.
  repeat match goal with
         | |- (if ?c then _ else _) = _ -> _ => destruct c
         | |- match ?c with _ => _ end = _ -> _ => destruct c
         end;
    intros [= <-]; auto.
Qed.

(** The two ways [accept] ends: the paymaster's deposit does not cover
    the prefund and only the cached deposit may be new; or the operation is
    appended to the bundle. *)
Lemma accept_cases op pm f vr newTotalGas st flow st' :
  accept bm ep op pm f vr newTotalGas st = (flow, st') ->
  flow = Continue
  /\ ((bundle st' = bundle st /\ senders st' = senders st
       /\ totalGas st' = totalGas st /\ storageMap st' = storageMap st
       /\ stakedEntityCount st' = stakedEntityCount st
       /\ exists p, pm = Some p
            /\ paymasterDeposit st'
               = match paymasterDeposit st !! p with
                 | None => <[p := balanceOf ep p]> (paymasterDeposit st)
                 | Some _ => paymasterDeposit st
                 end)
      \/ (bundle st' = bundle st ++ [op]
          /\ senders st' = {[sender op]} ∪ senders st
          /\ totalGas st' = newTotalGas
          /\ paymasterDeposit st'
             = match pm with
               | Some p =>
                   let d := match paymasterDeposit st !! p with
                            | None => balanceOf ep p
                            | Some d => d
                            end in
                   <[p := d - ValidationManager.prefund
                                (ValidationManager.returnInfo
                                   (ValidationManager.validation vr))]>
                     (paymasterDeposit st)
               | None => paymasterDeposit st
               end
          /\ match pm with
             | Some p =>
                 ValidationManager.prefund
                   (ValidationManager.returnInfo (ValidationManager.validation vr))
                 <= match paymasterDeposit st !! p with
                    | None => balanceOf ep p
                    | Some d => d
                    end
             | None => True
             end)).
Proof.
  unfold accept. destruct pm as [p|].
  - destruct (paymasterDeposit st !! p) as [d|] eqn:Ed.
    + rewrite Ed. cbn [default from_option id].
      destruct (Z.ltb_spec d (ValidationManager.prefund
                  (ValidationManager.returnInfo (ValidationManager.validation vr)))).
      * intros [= <- <-]. split; [reflexivity|]. left.
        repeat split. exists p. split; [reflexivity | rewrite Ed; reflexivity].
      * intros [= <- <-]. split; [reflexivity|]. right.
        repeat split. cbv zeta. assumption.
    + rewrite lookup_insert_eq. cbn [default from_option id].
      destruct (Z.ltb_spec (balanceOf ep p) (ValidationManager.prefund
                  (ValidationManager.returnInfo (ValidationManager.validation vr)))).
      * intros [= <- <-]. split; [reflexivity|]. left.
        repeat split. exists p. split; [reflexivity | rewrite Ed; reflexivity].
      * intros [= <- <-]. split; [reflexivity|]. right.
        repeat split; [|assumption]. cbn [paymasterDeposit]. cbv zeta.
        apply insert_insert_eq.
  - intros [= <- <-]. split; [reflexivity|]. right. repeat split.
Qed.

(** The three ways a round of the loop ends. *)
Lemma iteration_cases entry st mm flow st' mm' :
  iteration bm vm chain ep rm knownSenders entry st mm = (flow, st', mm') ->
  let op := MempoolManager.userOp entry in
  (flow = Continue /\ bundle st' = bundle st /\ senders st' = senders st
   /\ totalGas st' = totalGas st
   /\ (mm' = mm \/ mm' = MempoolManager.removeUserOp (MempoolManager.ByUserOp op) mm)
   /\ (paymasterDeposit st' = paymasterDeposit st
       \/ exists p, getAddr (Some (paymasterAndData op)) = Some p
                    /\ paymasterDeposit st !! p = None
                    /\ paymasterDeposit st'
                       = <[p := balanceOf ep p]> (paymasterDeposit st)))
  \/ (flow = Break /\ st' = st /\ mm' = mm)
  \/ (flow = Continue /\ mm' = mm
      /\ exists vr,
           screen vm chain rm knownSenders entry st mm = Candidate vr
           /\ totalGas st + userOpGasCost op vr <= maxBundleGas bm
           /\ accept bm ep op (getAddr (Some (paymasterAndData op)))
                (getAddr (Some (initCode op))) vr
                (totalGas st + userOpGasCost op vr) st = (Continue, st')
           /\ bundle st' = bundle st ++ [op]).
Proof.
  unfold iteration. cbv zeta.
  destruct (screen vm chain rm knownSenders entry st mm) as [mm1|vr] eqn:Escr.
  - intros [= <- <- <-]. left. repeat split; [|left; reflexivity].
    exact (screen_skip _ _ _ _ Escr).
  - destruct (Z.ltb_spec (maxBundleGas bm)
                (totalGas st + userOpGasCost (MempoolManager.userOp entry) vr)).
    + intros [= <- <- <-]. right. left. repeat split.
    + destruct (accept _ _ _ _ _ _ _ _) as [fl st1] eqn:Eacc.
      intros [= <- <- <-].
      destruct (accept_cases _ _ _ _ _ _ _ _ Eacc) as [-> [Hskip|Hadm]].
      * destruct Hskip as (Hb & Hs & Ht & _ & _ & p & Hp & Hd).
        left. repeat split; try assumption; [left; reflexivity|].
        destruct (paymasterDeposit st !! p) eqn:Ed.
        -- left. exact Hd.
        -- right. exists p. repeat split; assumption.
      * right. right. repeat split. exists vr.
        repeat split; try assumption; try reflexivity. apply Hadm.
Qed.

(** A property of the local variables and of the mempool manager that
    every round keeps holds when the loop ends. *)
Lemma mainLoop_invariant (P : Locals -> MempoolManager.t -> Prop) entries :
  (forall entry st mm flow st' mm',
     entry ∈ entries -> P st mm ->
     iteration bm vm chain ep rm knownSenders entry st mm = (flow, st', mm') ->
     P st' mm') ->
  forall st mm flow st' mm',
    P st mm ->
    mainLoop bm vm chain ep rm knownSenders entries st mm = (flow, st', mm') ->
    P st' mm'.
Proof.
  induction entries as [|entry rest IH]; intros Hstep st mm flow st' mm' HP; simpl.
  - intros [= _ <- <-]. exact HP.
  - destruct (iteration bm vm chain ep rm knownSenders entry st mm)
      as [[fl st1] mm1] eqn:Eit.
    assert (HP1 : P st1 mm1) by (eapply Hstep; [left | exact HP | exact Eit]).
    destruct fl.
    + apply IH; [|exact HP1]. intros e s m f s' m' He. apply Hstep. right. exact He.
    + intros [= _ <- <-]. exact HP1.
Qed.
End BundleFacts.

Section BundleContents.
Import BundleManager.
Variables (bm : t) (vm : ValidationManager.t) (chain : ValidationManager.Chain)
          (ep : EntryPoint) (rm : ReputationManager.t).

Lemma mainLoop_contents knownSenders entries mm0 flow st' mm' :
  mainLoop bm vm chain ep rm knownSenders entries initLocals mm0 = (flow, st', mm') ->
  NoDup (sender <$> bundle st')
  /\ (forall op, op ∈ bundle st' -> selected vm chain rm entries op)
  /\ MempoolManager.mempool mm' `sublist_of` MempoolManager.mempool mm0.
Proof.
  intros Hloop.
  pose (P := fun (st : Locals) (mm : MempoolManager.t) =>
    NoDup (sender <$> bundle st)
    /\ (forall op, op ∈ bundle st -> sender op ∈ senders st /\ selected vm chain rm entries op)
    /\ MempoolManager.mempool mm `sublist_of` MempoolManager.mempool mm0).
  assert (HP : P st' mm').
  { refine (mainLoop_invariant bm vm chain ep rm knownSenders P entries _
              initLocals mm0 flow st' mm' _ Hloop).
    - intros entry st mm fl st1 mm1 Hin (Hnd & Hsel & Hsub) Hit.
      destruct (iteration_cases _ _ _ _ _ _ _ _ _ _ _ _ Hit)
        as [(_ & Hb & Hs & _ & Hmm & _)|[(_ & -> & ->)|(_ & -> & vr & Hscr & _ & Eacc & Hb)]].
      + unfold P. rewrite Hb, Hs. split; [exact Hnd|]. split; [exact Hsel|].
        destruct Hmm as [->| ->]; [exact Hsub|].
        etransitivity; [|exact Hsub].
        destruct (removeUserOp_mempool
                    (MempoolManager.ByUserOp (MempoolManager.userOp entry)) mm)
          as [[_ ->]|(i & e & _ & _ & _ & ->)]; [reflexivity | apply sublist_delete].
      + split; [exact Hnd|]. split; [exact Hsel | exact Hsub].
      + destruct (screen_candidate_facts _ _ _ _ _ _ _ _ Hscr)
          as (Hp & Hf & Hnot & Hval & _).
        destruct (accept_cases _ _ _ _ _ _ _ _ _ _ Eacc) as [_ [Hskip|Hadm]].
        { destruct Hskip as (Hb' & _). rewrite Hb' in Hb.
          apply (f_equal length) in Hb. rewrite length_app in Hb. simpl in Hb. lia. }
        destruct Hadm as (_ & Hs & _).
        unfold P. rewrite Hb, Hs. split; [|split; [|exact Hsub]].
        * rewrite fmap_app. apply NoDup_app. split; [exact Hnd|]. split.
          -- intros s Hs1 Hs2. apply list_elem_of_singleton in Hs2. subst s.
             apply list_elem_of_fmap in Hs1 as (o & Ho & Hoin).
             apply Hnot. rewrite Ho. apply (Hsel o Hoin).
          -- apply NoDup_singleton.
        * intros op H. apply elem_of_app in H as [H|H].
          -- split; [apply elem_of_union_r|]; apply (Hsel op H).
          -- apply list_elem_of_singleton in H. subst op. split.
             ++ apply elem_of_union_l, elem_of_singleton. reflexivity.
             ++ exists entry, vr. repeat split; assumption.
    - split; [apply NoDup_nil_2|]. split; [intros op H; inversion H | reflexivity]. }
  destruct HP as (Hnd & Hsel & Hsub). repeat split; [exact Hnd | | exact Hsub].
  intros op Hop. apply (Hsel op Hop).
Qed.
End BundleContents.

Section BundleTheorems.
Import BundleManager.

(** X19. No sender string twice in a bundle: the senders of the
    operations of a bundle that [createBundle] returns are pairwise
    different as strings, which is how the set of senders of the build
    loop compares them. (One account written in two letter cases is two
    senders to the code, and an operation of each can be bundled.) *)
Theorem createBundle_senders_distinct
    (bm : BundleManager.t) (vm : ValidationManager.t)
    (chain : ValidationManager.Chain) (ep : BundleManager.EntryPoint)
    (rm : ReputationManager.t) (mm mm' : MempoolManager.t)
    (b : list UserOperation) (sm : gmap string StorageEntry) :
  createBundle bm vm chain ep rm mm = (Ok (b, sm), mm') ->
  NoDup (sender <$> b).
Proof.
  unfold createBundle.
  destruct (MempoolManager.getSortedForInclusion mm) as [entries|e]; [|discriminate].
  destruct (mainLoop _ _ _ _ _ _ _ _ _) as [[fl st] mm1] eqn:Eloop.
  intros [= <- _ _].
  exact (proj1 (mainLoop_contents _ _ _ _ _ _ _ _ _ _ _ Eloop)).
Qed.

Lemma createBundle_senders_distinct_witness :
  let lower := Sample.mkOp (Sample.senderN "b") "0x0" 7 "0x" in
  let upper := Sample.mkOp (Sample.senderN "B") "0x0" 7 "0x" in
  let st := Sample.submit upper (Sample.submit lower (MempoolManager.new, Sample.rm0)) in
  let out := createBundle (Sample.bmWith 5000000) Sample.vmUnsafe Sample.chain0
               Sample.ep0 st.2 st.1 in
  fst <$> (match out.1 with Ok x => Some x | Throw _ => None end)
  = Some [lower; upper]
  /\ toLowerCase (sender upper) = toLowerCase (sender lower)
  /\ NoDup (sender <$> [lower; upper])
  /\ NoDup (sender <$> Sample.sixOps).
Proof.
  intros lower upper st out.
  split; [vm_compute; reflexivity|]. split; [vm_compute; reflexivity|]. split.
  - apply (createBundle_senders_distinct (Sample.bmWith 5000000) Sample.vmUnsafe
             Sample.chain0 Sample.ep0 st.2 st.1 out.2
             [lower; upper] (match out.1 with Ok (_, sm) => sm | Throw _ => ∅ end)).
    vm_compute. reflexivity.
  - pose (out6 := createBundle (Sample.bmWith 5000000) Sample.vmUnsafe Sample.chain0
                    Sample.ep0 Sample.afterSix.2 Sample.afterSix.1).
    apply (createBundle_senders_distinct (Sample.bmWith 5000000) Sample.vmUnsafe
             Sample.chain0 Sample.ep0 Sample.afterSix.2 Sample.afterSix.1 out6.2
             Sample.sixOps (match out6.1 with Ok (_, sm) => sm | Throw _ => ∅ end)).
    vm_compute. reflexivity.
Defined.

(** X20. What gets into a bundle: every operation of a bundle that
    [createBundle] returns is the operation of an entry of the mempool,
    its paymaster and its factory (if any) have the reputation status OK,
    and its second validation, against the code hashes of the entry,
    succeeded. *)
Theorem createBundle_selects
    (bm : BundleManager.t) (vm : ValidationManager.t)
    (chain : ValidationManager.Chain) (ep : BundleManager.EntryPoint)
    (rm : ReputationManager.t) (mm mm' : MempoolManager.t)
    (b : list UserOperation) (sm : gmap string StorageEntry) (op : UserOperation) :
  createBundle bm vm chain ep rm mm = (Ok (b, sm), mm') ->
  op ∈ b ->
  selected vm chain rm (MempoolManager.mempool mm) op.
Proof.
  unfold createBundle.
  destruct (MempoolManager.getSortedForInclusion mm) as [entries|e] eqn:Esort;
    [|discriminate].
  destruct (mainLoop _ _ _ _ _ _ _ _ _) as [[fl st] mm1] eqn:Eloop.
  intros [= <- _ _] Hop.
  destruct (proj1 (proj2 (mainLoop_contents _ _ _ _ _ _ _ _ _ _ _ Eloop)) op Hop)
    as (entry & vr & Hin & Hrest).
  exists entry, vr. split; [|exact Hrest].
  rewrite <- (getSortedForInclusion_Permutation mm entries Esort). exact Hin.
Qed.
End BundleTheorems.

Section BundleTheorems2.
Import BundleManager.

Lemma createBundle_selects_witness :
  selected Sample.vmUnsafe Sample.chain0 Sample.afterSix.2
    (MempoolManager.mempool Sample.afterSix.1)
    (Sample.mkOp (Sample.senderN "1") "0x0" 7 Sample.paymasterP).
Proof.
  pose (out := createBundle (Sample.bmWith 5000000) Sample.vmUnsafe Sample.chain0
                 Sample.ep0 Sample.afterSix.2 Sample.afterSix.1).
  apply (createBundle_selects (Sample.bmWith 5000000) Sample.vmUnsafe
           Sample.chain0 Sample.ep0 Sample.afterSix.2 Sample.afterSix.1 out.2
           Sample.sixOps (match out.1 with Ok (_, sm) => sm | Throw _ => ∅ end)).
  - vm_compute. reflexivity.
  - unfold Sample.sixOps. simpl. left.
Defined.

(** X21. The build loop only removes: however [createBundle] ends, the
    entries of the mempool after it are entries that were there before,
    in the same order. *)
Theorem createBundle_only_removes
    (bm : BundleManager.t) (vm : ValidationManager.t)
    (chain : ValidationManager.Chain) (ep : BundleManager.EntryPoint)
    (rm : ReputationManager.t) (mm : MempoolManager.t) :
  MempoolManager.mempool (createBundle bm vm chain ep rm mm).2
  `sublist_of` MempoolManager.mempool mm.
Proof.
  unfold createBundle.
  destruct (MempoolManager.getSortedForInclusion mm) as [entries|e]; [|reflexivity].
  destruct (mainLoop _ _ _ _ _ _ _ _ _) as [[fl st] mm1] eqn:Eloop.
  exact (proj2 (proj2 (mainLoop_contents _ _ _ _ _ _ _ _ _ _ _ Eloop))).
Qed.

Lemma validateUserOp_prefund vm chain op prev vr :
  ValidationManager.validateUserOp vm chain op prev = Ok vr ->
  prefundOf vm chain op
  = ValidationManager.prefund
      (ValidationManager.returnInfo (ValidationManager.validation vr)).
Proof.
  unfold ValidationManager.validateUserOp.
  destruct (ValidationManager.checkCodeHashes chain prev); cbn [bindR];
    [|discriminate].
  destruct (ValidationManager.simulate vm chain op prev) as [[[res h] sm]|e] eqn:Esim;
    cbn [bindR]; [|discriminate].
  destruct (requireCond _ InvalidSignature); cbn [bindR]; [|discriminate].
  destruct (ValidationManager.checkTimeRange _ _); cbn [bindR]; [|discriminate].
  destruct (requireCond _ UnsupportedSignatureAggregator); cbn [bindR];
    [|discriminate].
  destruct (toNumber _); cbn [bindR]; [|discriminate].
  destruct (requireCond _ SimulateValidation); cbn [bindR]; [|discriminate].
  intros [= <-]. unfold prefundOf.
  rewrite (simulate_simulated _ _ _ _ _ _ _ Esim). reflexivity.
Qed.

Lemma paidBy_snoc vm chain p ops op :
  paidBy vm chain p (ops ++ [op])
  = paidBy vm chain p ops
    + (if decide (getAddr (Some (paymasterAndData op)) = Some p)
       then prefundOf vm chain op else 0).
Proof.
  unfold paidBy. induction ops as [|x ops IH]; cbn [foldr app]; [lia|]. rewrite IH. lia.
Qed.

(** X22. A paymaster is not overdrawn: with deposits that are not
    negative, the prefunds of the operations of a bundle that a paymaster
    pays add up to at most the deposit [balanceOf] reports for it. *)
Theorem createBundle_paymaster_deposit
    (bm : BundleManager.t) (vm : ValidationManager.t)
    (chain : ValidationManager.Chain) (ep : BundleManager.EntryPoint)
    (rm : ReputationManager.t) (mm mm' : MempoolManager.t)
    (b : list UserOperation) (sm : gmap string StorageEntry) (p : string) :
  (forall q, 0 <= balanceOf ep q) ->
  createBundle bm vm chain ep rm mm = (Ok (b, sm), mm') ->
  paidBy vm chain p b <= balanceOf ep p.
Proof.
  intros Hbal. unfold createBundle.
  destruct (MempoolManager.getSortedForInclusion mm) as [entries|e]; [|discriminate].
  destruct (mainLoop _ _ _ _ _ _ _ _ _) as [[fl st] mm1] eqn:Eloop.
  intros [= <- _ _].
  pose (Q := fun (st : Locals) (_ : MempoolManager.t) =>
    forall q, match paymasterDeposit st !! q with
              | Some d => 0 <= d /\ d + paidBy vm chain q (bundle st) = balanceOf ep q
              | None => paidBy vm chain q (bundle st) = 0
              end).
  assert (HQ : Q st mm1).
  { refine (mainLoop_invariant bm vm chain ep rm _ Q entries _
              initLocals mm fl st mm1 _ Eloop).
    - intros entry st0 mm0 fl0 st1 mm2 _ HQ Hit q.
      destruct (iteration_cases _ _ _ _ _ _ _ _ _ _ _ _ Hit)
        as [(_ & Hb & _ & _ & _ & Hd)|[(_ & -> & _)|(_ & _ & vr & Hscr & _ & Eacc & Hb)]].
      + rewrite Hb. destruct Hd as [->|(p0 & _ & Hnone & ->)]; [apply HQ|].
        rewrite lookup_insert. case_decide as Hq; [|apply HQ].
        subst q. specialize (HQ p0). rewrite Hnone in HQ.
        split; [apply Hbal | lia].
      + apply HQ.
      + destruct (accept_cases _ _ _ _ _ _ _ _ _ _ Eacc) as [_ [Hskip|Hadm]].
        { destruct Hskip as (Hb' & _). rewrite Hb' in Hb.
          apply (f_equal length) in Hb. rewrite length_app in Hb. simpl in Hb. lia. }
        destruct Hadm as (_ & _ & _ & Hdep & Hle).
        destruct (screen_candidate_facts _ _ _ _ _ _ _ _ Hscr) as (_ & _ & _ & Hval & _).
        rewrite Hb, paidBy_snoc, Hdep.
        rewrite (validateUserOp_prefund _ _ _ _ _ Hval).
        destruct (getAddr (Some (paymasterAndData (MempoolManager.userOp entry))))
          as [p0|] eqn:Ep.
        * cbv zeta. rewrite lookup_insert. case_decide as Hq.
          -- subst q. rewrite decide_True by reflexivity.
             specialize (HQ p0).
             destruct (paymasterDeposit st0 !! p0) as [d|]; [destruct HQ|]; split; lia.
          -- rewrite decide_False by congruence. specialize (HQ q).
             destruct (paymasterDeposit st0 !! q);
               [destruct HQ; split; lia | lia].
        * rewrite decide_False by discriminate. specialize (HQ q).
          destruct (paymasterDeposit st0 !! q); [destruct HQ; split; lia | lia].
    - intros q. simpl. rewrite lookup_empty. reflexivity. }
  specialize (HQ p). specialize (Hbal p).
  destruct (paymasterDeposit st !! p); [destruct HQ|]; lia.
Qed.

Lemma createBundle_paymaster_deposit_witness :
  paidBy Sample.vmUnsafe Sample.chain0 Sample.paymasterP Sample.sixOps
  <= balanceOf Sample.ep0 Sample.paymasterP.
Proof.
  pose (out := createBundle (Sample.bmWith 5000000) Sample.vmUnsafe Sample.chain0
                 Sample.ep0 Sample.afterSix.2 Sample.afterSix.1).
  apply (createBundle_paymaster_deposit (Sample.bmWith 5000000) Sample.vmUnsafe
           Sample.chain0 Sample.ep0 Sample.afterSix.2 Sample.afterSix.1 out.2
           Sample.sixOps (match out.1 with Ok (_, sm) => sm | Throw _ => ∅ end)).
  - intros q. vm_compute. discriminate.
  - vm_compute. reflexivity.
Defined.

(** X23. A removed operation is not bundled: in a state where the
    senders and nonces are unique, the bundle that [createBundle] builds
    after [removeUserOp] of an operation holds no operation of its sender
    and nonce. *)
Theorem removed_op_not_bundled
    (bm : BundleManager.t) (vm : ValidationManager.t)
    (chain : ValidationManager.Chain) (ep : BundleManager.EntryPoint)
    (rm : ReputationManager.t) (mm mm' : MempoolManager.t)
    (op o : UserOperation) (b : list UserOperation) (sm : gmap string StorageEntry) :
  uniqueKeys mm ->
  createBundle bm vm chain ep rm
    (MempoolManager.removeUserOp (MempoolManager.ByUserOp op) mm)
  = (Ok (b, sm), mm') ->
  o ∈ b ->
  ~ (sender o = sender op /\ nonce o = nonce op).
Proof.
  intros Hu. unfold createBundle.
  destruct (MempoolManager.getSortedForInclusion _) as [entries|e] eqn:Esort;
    [|discriminate].
  destruct (mainLoop _ _ _ _ _ _ _ _ _) as [[fl st] mm1] eqn:Eloop.
  intros [= <- _ _] Ho [Hs Hn].
  destruct (proj1 (proj2 (mainLoop_contents _ _ _ _ _ _ _ _ _ _ _ Eloop)) o Ho)
    as (entry & vr & Hin & Hop & _).
  rewrite (getSortedForInclusion_Permutation _ _ Esort) in Hin.
  pose proof (removeUserOp_no_key op mm Hu entry Hin) as Hno.
  simpl in Hno. rewrite Hop, Hs, Hn, !String.eqb_refl in Hno.
  discriminate.
Qed.
End BundleTheorems2.

Section AfterFailure.
Import BundleManager.

Lemma removed_op_not_bundled_witness :
  let op3 := Sample.mkOp (Sample.senderN "3") "0x0" 7 Sample.paymasterP in
  let op1 := Sample.mkOp (Sample.senderN "1") "0x0" 7 Sample.paymasterP in
  let out := createBundle (Sample.bmWith 5000000) Sample.vmUnsafe Sample.chain0
               Sample.ep0 Sample.afterSix.2
               (MempoolManager.removeUserOp (MempoolManager.ByUserOp op3)
                  Sample.afterSix.1) in
  fst <$> (match out.1 with Ok x => Some x | Throw _ => None end)
  = Some (delete 2%nat Sample.sixOps)
  /\ ~ (sender op1 = sender op3 /\ nonce op1 = nonce op3).
Proof.
  intros op3 op1 out. split; [vm_compute; reflexivity|].
  apply (removed_op_not_bundled (Sample.bmWith 5000000) Sample.vmUnsafe
           Sample.chain0 Sample.ep0 Sample.afterSix.2 Sample.afterSix.1 out.2
           op3 op1 (delete 2%nat Sample.sixOps)
           (match out.1 with Ok (_, sm) => sm | Throw _ => ∅ end)).
  - exact (uniqueKeys_of_reachable _ afterSix_reachable).
  - vm_compute. reflexivity.
  - unfold Sample.sixOps. simpl. left.
Defined.

Lemma crashedHandleOps_fields a rm :
  ReputationManager.params (ReputationManager.crashedHandleOps a rm)
  = ReputationManager.params rm
  /\ ReputationManager.whitelist (ReputationManager.crashedHandleOps a rm)
     = ReputationManager.whitelist rm
  /\ ReputationManager.blackList (ReputationManager.crashedHandleOps a rm)
     = ReputationManager.blackList rm.
Proof.
  destruct a as [a|]; [|repeat split].
  unfold ReputationManager.crashedHandleOps, ReputationManager._getOrCreate,
    ReputationManager.store.
  destruct (ReputationManager.entries rm !! toLowerCase a); repeat split.
Qed.

(** The status after [crashedHandleOps], as in X3, for use below. *)
Lemma crashedHandleOps_status a rm :
  0 < ReputationManager.minInclusionDenominator (ReputationManager.params rm) ->
  ReputationManager.throttlingSlack (ReputationManager.params rm)
  < 10000 / ReputationManager.minInclusionDenominator (ReputationManager.params rm) ->
  ReputationManager.banSlack (ReputationManager.params rm)
  < 10000 / ReputationManager.minInclusionDenominator (ReputationManager.params rm) ->
  toLowerCase a ∉ ReputationManager.whitelist rm ->
  (forall e, ReputationManager.entries rm !! toLowerCase a = Some e ->
             0 <= ReputationManager.opsSeen e) ->
  ReputationManager.getStatus (Some a) (ReputationManager.crashedHandleOps (Some a) rm)
  <> ReputationManager.OK.
Proof.
  intros Hd Hthr Hban Hw Hseen.
  destruct (crashedHandleOps_fields (Some a) rm) as (Hp & Hwl & Hbl).
  unfold ReputationManager.getStatus. rewrite Hwl, Hbl, Hp.
  rewrite bool_decide_eq_false_2 by exact Hw.
  destruct (bool_decide (toLowerCase a ∈ ReputationManager.blackList rm));
    [discriminate|].
  rewrite crashedHandleOps_lookup.
  set (d := ReputationManager.minInclusionDenominator (ReputationManager.params rm)) in *.
  assert (Hm : forall s, 0 <= s -> 10000 / d <= (s + 10000) / d)
    by (intros s Hs; apply Z.div_le_mono; lia).
  destruct (ReputationManager.entries rm !! toLowerCase a) as [e|] eqn:E; simpl.
  - specialize (Hm _ (Hseen e eq_refl)).
    repeat match goal with
           | |- context [?x <=? ?y] => destruct (Z.leb_spec x y)
           end; try discriminate; lia.
  - change (0 + 10000) with 10000.
    repeat match goal with
           | |- context [?x <=? ?y] => destruct (Z.leb_spec x y)
           end; try discriminate; lia.
Qed.

(** X24. A paymaster blamed for a failed bundle is kept out of the next
    ones: after [sendBundle] has attributed a [FailedOp] whose reason
    starts with AA3 to the paymaster of the failing operation (the
    paymaster not being on the white list, the slacks being below
    [10000 / minInclusionDenominator]), no bundle that [createBundle]
    builds with the resulting reputation holds an operation of that
    paymaster. *)
Theorem blamed_paymaster_not_bundled
    (ep : EntryPoint) (userOps : list UserOperation) (ben : string)
    (mm0 : MempoolManager.t) (rm : ReputationManager.t)
    (opIndex : nat) (reason : string) (op : UserOperation) (pm : string)
    (bm : BundleManager.t) (vm : ValidationManager.t)
    (chain : ValidationManager.Chain) (ep' : EntryPoint)
    (mm mm' : MempoolManager.t) (b : list UserOperation)
    (sm : gmap string StorageEntry) (o : UserOperation) :
  handleOps ep userOps ben = FailedOp opIndex reason ->
  userOps !! opIndex = Some op ->
  startsWith "AA3" reason = true ->
  getAddr (Some (paymasterAndData op)) = Some pm ->
  0 < ReputationManager.minInclusionDenominator (ReputationManager.params rm) ->
  ReputationManager.throttlingSlack (ReputationManager.params rm)
  < 10000 / ReputationManager.minInclusionDenominator (ReputationManager.params rm) ->
  ReputationManager.banSlack (ReputationManager.params rm)
  < 10000 / ReputationManager.minInclusionDenominator (ReputationManager.params rm) ->
  toLowerCase pm ∉ ReputationManager.whitelist rm ->
  (forall e, ReputationManager.entries rm !! toLowerCase pm = Some e ->
             0 <= ReputationManager.opsSeen e) ->
  createBundle bm vm chain ep' (sendBundle ep userOps ben mm0 rm).2 mm
  = (Ok (b, sm), mm') ->
  o ∈ b ->
  getAddr (Some (paymasterAndData o)) <> Some pm.
Proof.
  intros Hrev Hop Haa Hpm Hd Hthr Hban Hw Hseen Hcb Ho Hsame.
  assert (Hrm : (sendBundle ep userOps ben mm0 rm).2
                = ReputationManager.crashedHandleOps (Some pm) rm).
  { unfold sendBundle. rewrite Hrev, Hop, Haa, Hpm. reflexivity. }
  rewrite Hrm in Hcb. unfold createBundle in Hcb.
  destruct (MempoolManager.getSortedForInclusion mm) as [entries|e]; [|discriminate].
  destruct (mainLoop _ _ _ _ _ _ _ _ _) as [[fl st] mm1] eqn:Eloop.
  injection Hcb as <- _ _.
  destruct (proj1 (proj2 (mainLoop_contents _ _ _ _ _ _ _ _ _ _ _ Eloop)) o Ho)
    as (entry & vr & _ & _ & Hst & _).
  rewrite Hsame in Hst.
  exact (crashedHandleOps_status pm rm Hd Hthr Hban Hw Hseen Hst).
Qed.

(** X25. Another reason removes the operation: when [handleOps] reverts
    with a [FailedOp] whose reason starts with none of AA1, AA2, AA3,
    [sendBundle] returns nothing, leaves the reputation manager as it was
    and removes the failing operation; with unique senders and nonces no
    entry of its sender and nonce is left. *)
Theorem sendBundle_other_reason_removes
    (ep : EntryPoint) (userOps : list UserOperation) (ben : string)
    (mm : MempoolManager.t) (rm : ReputationManager.t)
    (opIndex : nat) (reason : string) (op : UserOperation) :
  handleOps ep userOps ben = FailedOp opIndex reason ->
  userOps !! opIndex = Some op ->
  startsWith "AA1" reason = false ->
  startsWith "AA2" reason = false ->
  startsWith "AA3" reason = false ->
  uniqueKeys mm ->
  let out := sendBundle ep userOps ben mm rm in
  out.1.1 = Ok None /\ out.2 = rm
  /\ MempoolManager._findBySenderNonce (sender op) (nonce op) out.1.2 = -1.
Proof.
  intros Hrev Hop H1 H2 H3 Hu. cbv zeta. unfold sendBundle.
  rewrite Hrev, Hop, H1, H2, H3. cbn [fst snd]. repeat split.
  apply findFrom_none. intros x Hx. apply list_elem_of_In in Hx.
  exact (removeUserOp_no_key op mm Hu x Hx).
Qed.

Lemma sendBundle_other_reason_removes_witness :
  let op := Sample.mkOp (Sample.senderN "1") "0x0" 7 Sample.paymasterP in
  let ep := mkEntryPoint (fun _ => 0) (fun _ => EmptyString)
              (fun _ _ => FailedOp 0 "AA95 out of gas") in
  let out := sendBundle ep [op] Sample.paymasterP Sample.afterSix.1 Sample.afterSix.2 in
  out.1.1 = Ok None /\ out.2 = Sample.afterSix.2
  /\ MempoolManager._findBySenderNonce (sender op) (nonce op) out.1.2 = -1.
Proof.
  intros op ep.
  exact (sendBundle_other_reason_removes ep [op] Sample.paymasterP
           Sample.afterSix.1 Sample.afterSix.2 0%nat "AA95 out of gas" op
           eq_refl eq_refl eq_refl eq_refl eq_refl
           (uniqueKeys_of_reachable _ afterSix_reachable)).
Defined.
End AfterFailure.

Lemma blamed_paymaster_not_bundled_witness :
  let o := Sample.mkOp (Sample.senderN "7") "0x0" 7 "0x" in
  let st := Sample.submit o Sample.afterSix in
  let bundleOf (out : Result (list UserOperation * gmap string StorageEntry)
                      * MempoolManager.t) :=
    fst <$> (match out.1 with Ok x => Some x | Throw _ => None end) in
  let rm' := (BundleManager.sendBundle Sample.ep0 (Sample.sixOps ++ [o])
                Sample.paymasterP st.1 st.2).2 in
  let before := BundleManager.createBundle (Sample.bmWith 5000000) Sample.vmUnsafe
                  Sample.chain0 Sample.ep0 st.2 st.1 in
  let after := BundleManager.createBundle (Sample.bmWith 5000000) Sample.vmUnsafe
                 Sample.chain0 Sample.ep0 rm' st.1 in
  MempoolManager.dump st.1 = Sample.sixOps ++ [o]
  /\ bundleOf before = Some (Sample.sixOps ++ [o])
  /\ bundleOf after = Some [o]
  /\ MempoolManager.dump after.2 = [o]
  /\ getAddr (Some (paymasterAndData o)) <> Some Sample.paymasterP.
Proof.
  intros o st bundleOf rm' before after.
  split; [vm_compute; reflexivity|]. split; [vm_compute; reflexivity|].
  split; [vm_compute; reflexivity|]. split; [vm_compute; reflexivity|].
  apply (blamed_paymaster_not_bundled Sample.ep0 (Sample.sixOps ++ [o])
           Sample.paymasterP st.1 st.2 0%nat "AA33 reverted"
           (Sample.mkOp (Sample.senderN "1") "0x0" 7 Sample.paymasterP) Sample.paymasterP
           (Sample.bmWith 5000000) Sample.vmUnsafe Sample.chain0 Sample.ep0
           st.1 after.2 [o]
           (match after.1 with Ok (_, sm) => sm | Throw _ => ∅ end) o).
  - reflexivity.
  - reflexivity.
  - reflexivity.
  - vm_compute. reflexivity.
  - reflexivity.
  - reflexivity.
  - reflexivity.
  - compute_done.
  - intros e He. vm_compute in He. injection He as <-. vm_compute. discriminate.
  - vm_compute. reflexivity.
  - left.
Defined.

(** ** Further properties of the utilities *)

Section Storage.

Lemma mergeStorageMap_lookup m v a :
  mergeStorageMap m v !! a =
  match v !! a, m !! a with
  | Some x, Some y => mergeEntry x y
  | Some x, None => Some x
  | None, y => y
  end.
Proof.
  unfold mergeStorageMap. rewrite lookup_union_with.
  destruct (v !! a), (m !! a); reflexivity.
Qed.

(** X27. Merging storage maps: no address is lost; a root of the
    validation map is in the result; a root already merged stays against
    slots of the validation map; slots of both are joined, the value of
    the validation map winning; and merging the same validation map
    again changes nothing. *)
Theorem mergeStorageMap_properties (m v : gmap string StorageEntry) :
  dom (mergeStorageMap m v) = dom m ∪ dom v
  /\ (forall a r, v !! a = Some (Root r) -> mergeStorageMap m v !! a = Some (Root r))
  /\ (forall a r sv, m !! a = Some (Root r) -> v !! a = Some (Slots sv) ->
        mergeStorageMap m v !! a = Some (Root r))
  /\ (forall a sm sv, m !! a = Some (Slots sm) -> v !! a = Some (Slots sv) ->
        exists s, mergeStorageMap m v !! a = Some (Slots s)
                  /\ forall slot, s !! slot = match sv !! slot with
                                              | Some x => Some x
                                              | None => sm !! slot
                                              end)
  /\ mergeStorageMap (mergeStorageMap m v) v = mergeStorageMap m v.
Proof.
  split; [|split; [|split; [|split]]].
  - apply set_eq. intros a. rewrite elem_of_union, !elem_of_dom.
    rewrite mergeStorageMap_lookup.
    destruct (v !! a) as [[r|sv]|] eqn:Ev, (m !! a) as [[r'|sm]|] eqn:Em; simpl;
      unfold is_Some; split; intros H; eauto;
      destruct H as [[x Hx]|[x Hx]]; eauto; discriminate.
  - intros a r Hv. rewrite mergeStorageMap_lookup, Hv.
    destruct (m !! a); reflexivity.
  - intros a r sv Hm Hv. rewrite mergeStorageMap_lookup, Hv, Hm. reflexivity.
  - intros a sm sv Hm Hv. rewrite mergeStorageMap_lookup, Hv, Hm. simpl.
    eexists. split; [reflexivity|]. intros slot.
    rewrite lookup_union. destruct (sv !! slot), (sm !! slot); reflexivity.
  - apply map_eq. intros a. rewrite !mergeStorageMap_lookup.
    destruct (v !! a) as [[r|sv]|] eqn:Ev, (m !! a) as [[r'|sm]|] eqn:Em; simpl;
      try reflexivity.
    + f_equal. f_equal. apply map_eq. intros slot. rewrite !lookup_union.
      destruct (sv !! slot), (sm !! slot); reflexivity.
    + f_equal. f_equal. apply map_eq. intros slot. rewrite !lookup_union.
      destruct (sv !! slot); reflexivity.
Qed.
End Storage.

(** ** The checks of validateUserOp *)

Section Validation.
Import ValidationManager.

Lemma leb_true x y : x <= y -> (x <=? y) = true.
Proof. intros. apply Z.leb_le. assumption. Qed.
Lemma ltb_true x y : x < y -> (x <? y) = true.
Proof. intros. apply Z.ltb_lt. assumption. Qed.

(** X28. When [validateUserOp] returns: exactly when the code hashes of
    the earlier validation still match, the simulation gives a result,
    the signature did not fail, [validAfter] is not in the future,
    [validUntil], if set, is more than 30 seconds ahead, there is no
    aggregator, and the verification gas left over is at least 2000 and
    a safe integer; the result is then the one of the simulation. *)
Theorem validateUserOp_returns_iff
    (vm : ValidationManager.t) (chain : Chain) (op : UserOperation)
    (prev : option ReferencedCodeHashes) (vr : ValidateUserOpResult) :
  validateUserOp vm chain op prev = Ok vr <->
  checkCodeHashes chain prev = Ok tt
  /\ exists res h sm,
      simulate vm chain op prev = Ok (res, h, sm)
      /\ vr = mkValidateUserOpResult res h sm
      /\ sigFailed (returnInfo res) = false
      /\ validAfter (returnInfo res) <= clock chain
      /\ (forall vu, validUntil (returnInfo res) = Some vu -> clock chain + 30 < vu)
      /\ aggregatorInfo res = None
      /\ 2000 <= verificationGasLimit op
                 - (preOpGas (returnInfo res) - preVerificationGas op)
         <= MAX_SAFE_INTEGER.
Proof.
  unfold validateUserOp.
  destruct (checkCodeHashes chain prev) as [[]|e]; cbn [bindR];
    [|split; [discriminate | intros [? _]; discriminate]].
  destruct (simulate vm chain op prev) as [[[res h] sm]|e]; cbn [bindR];
    [|split; [discriminate | intros (_ & ? & ? & ? & ? & _); discriminate]].
  unfold checkTimeRange, requireCond, toNumber, VALID_UNTIL_FUTURE_SECONDS.
  set (extra := verificationGasLimit op
                - (preOpGas (returnInfo res) - preVerificationGas op)).
  split.
  - destruct (sigFailed (returnInfo res)) eqn:Esig; cbn [negb bindR]; [discriminate|].
    destruct (Z.leb_spec (validAfter (returnInfo res)) (clock chain));
      cbn [bindR]; [|discriminate].
    destruct (aggregatorInfo res) eqn:Eagg;
    destruct (validUntil (returnInfo res)) as [vu|] eqn:Evu; cbn [bindR];
      repeat match goal with
             | |- context [?x <=? ?y] => destruct (Z.leb_spec x y); cbn [bindR negb]
             | |- context [?x <? ?y] => destruct (Z.ltb_spec x y); cbn [bindR negb]
             end; try discriminate;
      intros [= <-]; (split; [reflexivity|]); exists res, h, sm.
    all: repeat split; try assumption; try lia; try (intros vu0 Hvu0; rewrite Evu in Hvu0; (discriminate || (injection Hvu0 as <-; lia))).
  - intros (_ & res' & h' & sm' & [= <- <- <-] & -> & Hsig & Hva & Hvu & Hagg & Hlo & Hhi).
    fold extra in Hlo, Hhi.
    rewrite Hsig, Hagg. cbn [negb bindR].
    rewrite (leb_true _ _ Hva). cbn [bindR].
    assert (Habs : (Z.abs extra <=? MAX_SAFE_INTEGER) = true) by (apply leb_true; lia).
    destruct (validUntil (returnInfo res)) as [vu|] eqn:Evu; cbn [bindR].
    + specialize (Hvu vu eq_refl).
      rewrite (leb_true (clock chain) vu) by lia. cbn [bindR].
      rewrite (ltb_true _ _ Hvu). cbn [bindR].
      rewrite Habs. cbn [bindR]. rewrite (leb_true _ _ Hlo). reflexivity.
    + rewrite Habs. cbn [bindR]. rewrite (leb_true _ _ Hlo). reflexivity.
Qed.
End Validation.

(** ** The events of the EntryPoint *)

Section Events.
Import EventsManager.

Lemma removeUserOp_sublist arg mm :
  MempoolManager.mempool (MempoolManager.removeUserOp arg mm)
  `sublist_of` MempoolManager.mempool mm.
Proof.
  destruct (removeUserOp_mempool arg mm) as [[_ ->]|(i & e & _ & _ & _ & ->)];
    [reflexivity | apply sublist_delete].
Qed.

Lemma removeUserOp_no_hash h mm :
  NoDup (MempoolManager.userOpHash <$> MempoolManager.mempool mm) ->
  forall e, e ∈ MempoolManager.mempool (MempoolManager.removeUserOp (MempoolManager.ByHash h) mm) ->
            MempoolManager.userOpHash e <> h.
Proof.
  intros Hu.
  destruct (removeUserOp_mempool (MempoolManager.ByHash h) mm)
    as [[Hno ->]|(i & x & Hx & Px & _ & ->)].
  - intros e He Heq. specialize (Hno e He). simpl in Hno.
    apply String.eqb_neq in Hno. contradiction.
  - intros y Hy Heq. simpl in Px. apply String.eqb_eq in Px.
    apply list_elem_of_lookup in Hy as [k Hk].
    destruct (decide (k < i)%nat) as [Hlt|Hge].
    + rewrite list_lookup_delete_lt in Hk by exact Hlt.
      assert (i = k); [|lia].
      apply (NoDup_lookup _ _ _ h Hu);
        rewrite list_lookup_fmap; [rewrite Hx | rewrite Hk]; simpl; congruence.
    + rewrite list_lookup_delete_ge in Hk by lia.
      assert (i = S k); [|lia].
      apply (NoDup_lookup _ _ _ h Hu);
        rewrite list_lookup_fmap; [rewrite Hx | rewrite Hk]; simpl; congruence.
Qed.

Lemma handleEvent_mempool ev em mm rm :
  (handleEvent ev em mm rm).1.2
  = match args ev with
    | UserOperationEvent h _ _ =>
        MempoolManager.removeUserOp (MempoolManager.ByHash h) mm
    | _ => mm
    end.
Proof.
  unfold handleEvent, handleUserOperationEvent.
  destruct (args ev); try reflexivity.
  destruct (getEventAggregator ev em). reflexivity.
Qed.

Lemma NoDup_hashes_sublist (l1 l2 : list MempoolManager.MempoolEntry) :
  l1 `sublist_of` l2 ->
  NoDup (MempoolManager.userOpHash <$> l2) -> NoDup (MempoolManager.userOpHash <$> l1).
Proof.
  intros Hs Hn. eapply sublist_NoDup; [exact Hn|]. apply fmap_sublist. exact Hs.
Qed.

Lemma handleEvents_mempool events : forall st,
  let out := foldl (fun st ev => handleEvent ev st.1.1 st.1.2 st.2) st events in
  MempoolManager.mempool out.1.2 `sublist_of` MempoolManager.mempool st.1.2
  /\ (NoDup (MempoolManager.userOpHash <$> MempoolManager.mempool st.1.2) ->
      forall h, mined events h ->
      forall e, e ∈ MempoolManager.mempool out.1.2 -> MempoolManager.userOpHash e <> h).
Proof.
  induction events as [|ev rest IH]; intros st; cbn zeta.
  - split; [reflexivity|]. intros _ h (ev & s & p & Hin & _).
    apply elem_of_nil in Hin. contradiction.
  - cbn [foldl].
    set (st1 := handleEvent ev st.1.1 st.1.2 st.2).
    destruct (IH st1) as [Hsub Hgone]. fold st1.
    assert (Hsub1 : MempoolManager.mempool st1.1.2
                    `sublist_of` MempoolManager.mempool st.1.2).
    { unfold st1. rewrite handleEvent_mempool.
      destruct (args ev); try reflexivity. apply removeUserOp_sublist. }
    split; [etransitivity; eassumption|].
    intros Hnd h (ev' & s & p & Hin & Hargs) e He.
    apply elem_of_cons in Hin as [->|Hin].
    + assert (He1 : e ∈ MempoolManager.mempool st1.1.2).
      { eapply elem_of_sublist; eassumption. }
      unfold st1 in He1. rewrite handleEvent_mempool, Hargs in He1.
      exact (removeUserOp_no_hash h _ Hnd e He1).
    + apply (Hgone (NoDup_hashes_sublist _ _ Hsub1 Hnd) h); [|exact He].
      exists ev', s, p. split; assumption.
Qed.

Lemma handlePastEvents_fold node em mm rm :
  exists em0,
    handlePastEvents node em mm rm
    = foldl (fun st ev => handleEvent ev st.1.1 st.1.2 st.2) (em0, mm, rm)
        (pastEvents node em).
Proof.
  unfold handlePastEvents, pastEvents.
  destruct (lastBlock em) as [b|] eqn:E; eexists.
  - rewrite E. reflexivity.
  - reflexivity.
Qed.

Lemma handlePastEvents_mempool node em mm rm :
  let out := handlePastEvents node em mm rm in
  MempoolManager.mempool out.1.2 `sublist_of` MempoolManager.mempool mm
  /\ (NoDup (MempoolManager.userOpHash <$> MempoolManager.mempool mm) ->
      forall h, mined (pastEvents node em) h ->
      forall e, e ∈ MempoolManager.mempool out.1.2 -> MempoolManager.userOpHash e <> h).
Proof.
  cbn zeta. destruct (handlePastEvents_fold node em mm rm) as [em0 ->].
  exact (handleEvents_mempool (pastEvents node em) (em0, mm, rm)).
Qed.

Lemma createBundle_sublist bm vm chain ep rm mm :
  MempoolManager.mempool (BundleManager.createBundle bm vm chain ep rm mm).2
  `sublist_of` MempoolManager.mempool mm.
Proof.
  unfold BundleManager.createBundle.
  destruct (MempoolManager.getSortedForInclusion mm) as [entries|e]; [|reflexivity].
  destruct (BundleManager.mainLoop _ _ _ _ _ _ _ _ _) as [[fl st] mm1] eqn:Eloop.
  exact (proj2 (proj2 (mainLoop_contents _ _ _ _ _ _ _ _ _ _ _ Eloop))).
Qed.

Lemma sendBundle_sublist ep userOps ben mm rm :
  MempoolManager.mempool (BundleManager.sendBundle ep userOps ben mm rm).1.2
  `sublist_of` MempoolManager.mempool mm.
Proof.
  unfold BundleManager.sendBundle.
  destruct (BundleManager.handleOps ep userOps ben) as [ | i r | ]; try reflexivity.
  all: repeat match goal with
       | |- context [match ?x with _ => _ end] => destruct x; try reflexivity
       end; try apply removeUserOp_sublist.
Qed.

Lemma sendNextBundle_mempool bm vm chain ep node signer em mm rm :
  MempoolManager.mempool
    (BundleManager.sendNextBundle bm vm chain ep node signer em mm rm).1.2
  `sublist_of` MempoolManager.mempool (handlePastEvents node em mm rm).1.2.
Proof.
  unfold BundleManager.sendNextBundle.
  destruct (handlePastEvents node em mm rm) as [[em1 mm1] rm1]. cbn [fst snd].
  pose proof (createBundle_sublist bm vm chain ep rm1 mm1) as Hc.
  destruct (BundleManager.createBundle bm vm chain ep rm1 mm1) as [[[b sm]|e] mm2];
    cbn [fst snd] in *; [|exact Hc].
  destruct (Nat.eqb (length b) 0); [exact Hc|].
  pose proof (sendBundle_sublist ep b (BundleManager._selectBeneficiary bm signer) mm2 rm1)
    as Hs.
  destruct (BundleManager.sendBundle ep b _ mm2 rm1) as [[ret mm3] rm3].
  cbn [fst snd] in *. etransitivity; eassumption.
Qed.

(** X29. Mined operations leave the mempool: when the hashes of the
    mempool are distinct, after [handlePastEvents], and after the whole
    of [sendNextBundle] however it ends, no entry carries a hash that a
    [UserOperationEvent] of the logs read reported; both only remove
    entries. *)
Theorem sendNextBundle_drops_mined
    (bm : BundleManager.t) (vm : ValidationManager.t)
    (chain : ValidationManager.Chain) (ep : BundleManager.EntryPoint)
    (node : Node) (signer : BundleManager.Signer)
    (em : EventsManager.t) (mm : MempoolManager.t) (rm : ReputationManager.t) :
  NoDup (MempoolManager.userOpHash <$> MempoolManager.mempool mm) ->
  let after := (handlePastEvents node em mm rm).1.2 in
  let final := (BundleManager.sendNextBundle bm vm chain ep node signer em mm rm).1.2 in
  MempoolManager.mempool final `sublist_of` MempoolManager.mempool after
  /\ MempoolManager.mempool after `sublist_of` MempoolManager.mempool mm
  /\ forall h e, mined (pastEvents node em) h ->
       e ∈ MempoolManager.mempool after \/ e ∈ MempoolManager.mempool final ->
       MempoolManager.userOpHash e <> h.
Proof.
  intros Hnd after final.
  pose proof (sendNextBundle_mempool bm vm chain ep node signer em mm rm) as Hfin.
  destruct (handlePastEvents_mempool node em mm rm) as [Hsub Hgone].
  fold after in Hfin, Hsub, Hgone. fold final in Hfin.
  split; [exact Hfin|]. split; [exact Hsub|].
  intros h e Hm [He|He].
  - exact (Hgone Hnd h Hm e He).
  - exact (Hgone Hnd h Hm e (elem_of_sublist _ _ _ He Hfin)).
Qed.

Lemma sendNextBundle_drops_mined_witness :
  let node := mkNode 2000
                (fun _ => [mkEvent 1500 "0xt1"
                             (UserOperationEvent (Sample.senderN "3") (Sample.senderN "3")
                                Sample.paymasterP)]) in
  let after := (handlePastEvents node EventsManager.new Sample.afterSix.1
                  Sample.afterSix.2).1.2 in
  let final := (BundleManager.sendNextBundle (Sample.bmWith 5000000) Sample.vmUnsafe
                  Sample.chain0 Sample.ep0 node
                  (BundleManager.mkSigner (Sample.hex40 "e") 0)
                  EventsManager.new Sample.afterSix.1 Sample.afterSix.2).1.2 in
  length (MempoolManager.mempool Sample.afterSix.1) = 6%nat
  /\ length (MempoolManager.mempool after) = 5%nat
  /\ MempoolManager.mempool final `sublist_of` MempoolManager.mempool after
  /\ MempoolManager.mempool after `sublist_of` MempoolManager.mempool Sample.afterSix.1
  /\ forall h e, mined (pastEvents node EventsManager.new) h ->
       e ∈ MempoolManager.mempool after \/ e ∈ MempoolManager.mempool final ->
       MempoolManager.userOpHash e <> h.
Proof.
  intros node after final.
  split; [vm_compute; reflexivity|]. split; [vm_compute; reflexivity|].
  apply (sendNextBundle_drops_mined (Sample.bmWith 5000000) Sample.vmUnsafe
           Sample.chain0 Sample.ep0 node (BundleManager.mkSigner (Sample.hex40 "e") 0)
           EventsManager.new Sample.afterSix.1 Sample.afterSix.2).
  change (NoDup (MempoolManager.userOpHash <$> MempoolManager.mempool Sample.afterSix.1)).
  apply (bool_decide_unpack _). vm_compute. exact I.
Defined.

Lemma onlyCredited_refl rm : onlyCredited rm rm.
Proof. repeat split; lia. Qed.

Lemma onlyCredited_trans rm1 rm2 rm3 :
  onlyCredited rm1 rm2 -> onlyCredited rm2 rm3 -> onlyCredited rm1 rm3.
Proof.
  intros (Hp & Hw & Hb & Hk) (Hp' & Hw' & Hb' & Hk').
  repeat split; try congruence.
  - rewrite (proj1 (Hk' k)). apply Hk.
  - etransitivity; [apply Hk | apply Hk'].
Qed.

Lemma updateIncludedStatus_counts a rm k :
  seenOf (ReputationManager.updateIncludedStatus a rm) k = seenOf rm k
  /\ includedOf (ReputationManager.updateIncludedStatus a rm) k
     = includedOf rm k + (if decide (k = toLowerCase a) then 1 else 0).
Proof.
  unfold seenOf, includedOf, ReputationManager.updateIncludedStatus,
    ReputationManager._getOrCreate, ReputationManager.store.
  destruct (ReputationManager.entries rm !! toLowerCase a) as [e|] eqn:E; simpl;
    rewrite ?insert_insert_eq; destruct (decide (k = toLowerCase a)) as [->|Hk];
    rewrite ?lookup_insert_eq, ?E; simpl;
    rewrite ?lookup_insert_ne by congruence; split; try reflexivity; lia.
Qed.

Lemma updateIncludedStatus_onlyCredited a rm :
  onlyCredited rm (ReputationManager.updateIncludedStatus a rm).
Proof.
  split; [|split; [|split]].
  1-3: unfold ReputationManager.updateIncludedStatus, ReputationManager._getOrCreate,
         ReputationManager.store;
       destruct (ReputationManager.entries rm !! toLowerCase a); reflexivity.
  intros k. destruct (updateIncludedStatus_counts a rm k) as [-> ->].
  split; [reflexivity|]. destruct (decide _); lia.
Qed.

Lemma _includedAddress_onlyCredited data rm :
  onlyCredited rm (_includedAddress data rm).
Proof.
  unfold _includedAddress. destruct data as [d|]; [|apply onlyCredited_refl].
  destruct (Nat.leb 42 (String.length d)); [|apply onlyCredited_refl].
  apply updateIncludedStatus_onlyCredited.
Qed.

Lemma handleEvent_onlyCredited ev em mm rm :
  onlyCredited rm (handleEvent ev em mm rm).2.
Proof.
  unfold handleEvent, handleUserOperationEvent, handleAccountDeployedEvent.
  destruct (args ev) as [h s p|f|a|]; try apply onlyCredited_refl.
  - destruct (getEventAggregator ev em) as [agg em']. cbn [snd].
    eapply onlyCredited_trans; [|apply _includedAddress_onlyCredited].
    eapply onlyCredited_trans; apply _includedAddress_onlyCredited.
  - apply _includedAddress_onlyCredited.
Qed.

Lemma handleEvent_credits_sender ev em mm rm h s p :
  args ev = UserOperationEvent h s p ->
  (42 <= String.length s)%nat ->
  includedOf rm (toLowerCase (substring 0 42 s))
  < includedOf (handleEvent ev em mm rm).2 (toLowerCase (substring 0 42 s)).
Proof.
  intros Hargs Hlen. unfold handleEvent, handleUserOperationEvent. rewrite Hargs.
  destruct (getEventAggregator ev em) as [agg em']. cbn [snd].
  set (k := toLowerCase (substring 0 42 s)).
  set (rm1 := _includedAddress (Some s) rm).
  assert (H1 : includedOf rm1 k = includedOf rm k + 1).
  { unfold rm1, _includedAddress.
    rewrite (proj2 (Nat.leb_le _ _) Hlen).
    rewrite (proj2 (updateIncludedStatus_counts _ rm k)).
    unfold k. rewrite decide_True by reflexivity. reflexivity. }
  pose proof (_includedAddress_onlyCredited (Some p) rm1) as (_ & _ & _ & H2).
  pose proof (_includedAddress_onlyCredited agg (_includedAddress (Some p) rm1))
    as (_ & _ & _ & H3).
  specialize (H2 k). specialize (H3 k). lia.
Qed.

Lemma handleEvents_reputation events : forall st,
  let out := foldl (fun st ev => handleEvent ev st.1.1 st.1.2 st.2) st events in
  onlyCredited st.2 out.2
  /\ forall ev h s p, ev ∈ events -> args ev = UserOperationEvent h s p ->
       (42 <= String.length s)%nat ->
       includedOf st.2 (toLowerCase (substring 0 42 s))
       < includedOf out.2 (toLowerCase (substring 0 42 s)).
Proof.
  induction events as [|ev rest IH]; intros st; cbn zeta.
  - split; [apply onlyCredited_refl|]. intros ev h s p Hin.
    apply elem_of_nil in Hin. contradiction.
  - cbn [foldl].
    set (st1 := handleEvent ev st.1.1 st.1.2 st.2).
    destruct (IH st1) as [Hc Hcred].
    pose proof (handleEvent_onlyCredited ev st.1.1 st.1.2 st.2) as Hc1.
    fold st1 in Hc1.
    split; [eapply onlyCredited_trans; eassumption|].
    intros ev' h s p Hin Hargs Hlen.
    apply elem_of_cons in Hin as [->|Hin].
    + pose proof (handleEvent_credits_sender ev st.1.1 st.1.2 st.2 h s p Hargs Hlen)
        as Hlt.
      fold st1 in Hlt.
      destruct Hc as (_ & _ & _ & Hk).
      specialize (Hk (toLowerCase (substring 0 42 s))). lia.
    + specialize (Hcred ev' h s p Hin Hargs Hlen).
      destruct Hc1 as (_ & _ & _ & Hk).
      specialize (Hk (toLowerCase (substring 0 42 s))). lia.
Qed.

Lemma handleEvents_lastBlock events : forall st,
  lastBlock (foldl (fun st ev => handleEvent ev st.1.1 st.1.2 st.2) st events).1.1
  = match last events with
    | Some ev => Some (blockNumber ev + 1)
    | None => lastBlock st.1.1
    end.
Proof.
  induction events as [|ev rest IH]; intros st; [reflexivity|].
  cbn [foldl]. rewrite IH.
  destruct rest as [|ev' rest'].
  2:{ change (last (ev :: ev' :: rest')) with (last (ev' :: rest')).
      destruct (last (ev' :: rest')) eqn:E; [reflexivity|].
      apply last_None in E. discriminate. }
  cbn [last]. unfold handleEvent.
  destruct (args ev); try reflexivity.
  unfold handleUserOperationEvent. destruct (getEventAggregator ev st.1.1). reflexivity.
Qed.

Lemma onlyCredited_rank rm rm' b :
  onlyCredited rm rm' ->
  0 <= ReputationManager.throttlingSlack (ReputationManager.params rm) ->
  statusRank (ReputationManager.getStatus (Some b) rm')
  <= statusRank (ReputationManager.getStatus (Some b) rm).
Proof.
  intros (Hp & Hw & Hb & Hk) Hthr. unfold ReputationManager.getStatus.
  rewrite Hp, Hw, Hb.
  destruct (bool_decide _); [reflexivity|].
  destruct (bool_decide _); [reflexivity|].
  specialize (Hk (toLowerCase b)). unfold seenOf, includedOf in Hk.
  destruct (ReputationManager.entries rm' !! toLowerCase b) as [e'|];
    destruct (ReputationManager.entries rm !! toLowerCase b) as [e|];
    simpl in Hk; destruct Hk as [Hs Hi]; rewrite ?Hs; simpl;
    repeat match goal with
           | |- context [?x <=? ?y] => destruct (Z.leb_spec x y)
           end; simpl; try lia.
  all: rewrite Zdiv_0_l in *; lia.
Qed.

(** X30. What the events do to the reputation: [handlePastEvents] leaves
    every count of seen operations as it was and lowers no count of
    included operations; it raises the count of the sender of every
    [UserOperationEvent] it read; with a throttling slack that is not
    negative the status of no address gets worse; and [lastBlock] ends
    one past the block of the last event read. *)
Theorem handlePastEvents_credits
    (node : Node) (em : EventsManager.t) (mm : MempoolManager.t)
    (rm : ReputationManager.t) :
  0 <= ReputationManager.throttlingSlack (ReputationManager.params rm) ->
  let out := handlePastEvents node em mm rm in
  (forall k, seenOf out.2 k = seenOf rm k /\ includedOf rm k <= includedOf out.2 k)
  /\ (forall ev h s p, ev ∈ pastEvents node em ->
        args ev = UserOperationEvent h s p -> (42 <= String.length s)%nat ->
        includedOf rm (toLowerCase (substring 0 42 s))
        < includedOf out.2 (toLowerCase (substring 0 42 s)))
  /\ (forall b, statusRank (ReputationManager.getStatus (Some b) out.2)
                <= statusRank (ReputationManager.getStatus (Some b) rm))
  /\ (forall ev, last (pastEvents node em) = Some ev ->
        lastBlock out.1.1 = Some (blockNumber ev + 1)).
Proof.
  intros Hthr. cbn zeta.
  destruct (handlePastEvents_fold node em mm rm) as [em0 ->].
  destruct (handleEvents_reputation (pastEvents node em) (em0, mm, rm)) as [Hc Hcred].
  cbn [fst snd] in Hc, Hcred.
  split; [exact (proj2 (proj2 (proj2 Hc)))|].
  split; [exact Hcred|].
  split; [intros b; exact (onlyCredited_rank _ _ b Hc Hthr)|].
  intros ev Hlast. rewrite handleEvents_lastBlock, Hlast. reflexivity.
Qed.

Lemma handlePastEvents_credits_witness :
  let node := mkNode 2000
                (fun _ => [mkEvent 1500 "0xt1"
                             (UserOperationEvent (Sample.senderN "3") (Sample.senderN "3")
                                Sample.paymasterP)]) in
  let out := handlePastEvents node EventsManager.new Sample.afterSix.1 Sample.afterSix.2 in
  includedOf Sample.afterSix.2 Sample.paymasterP = 0
  /\ includedOf out.2 Sample.paymasterP = 1
  /\ (forall k, seenOf out.2 k = seenOf Sample.afterSix.2 k
                /\ includedOf Sample.afterSix.2 k <= includedOf out.2 k)
  /\ (forall ev h s p, ev ∈ pastEvents node EventsManager.new ->
        args ev = UserOperationEvent h s p -> (42 <= String.length s)%nat ->
        includedOf Sample.afterSix.2 (toLowerCase (substring 0 42 s))
        < includedOf out.2 (toLowerCase (substring 0 42 s)))
  /\ (forall b, statusRank (ReputationManager.getStatus (Some b) out.2)
                <= statusRank (ReputationManager.getStatus (Some b) Sample.afterSix.2))
  /\ (forall ev, last (pastEvents node EventsManager.new) = Some ev ->
        lastBlock out.1.1 = Some (blockNumber ev + 1)).
Proof.
  intros node out.
  split; [vm_compute; reflexivity|]. split; [vm_compute; reflexivity|].
  apply (handlePastEvents_credits node EventsManager.new Sample.afterSix.1
           Sample.afterSix.2).
  vm_compute. discriminate.
Defined.
End Events.
